(** * Annotation layer and print service of pdf.js: a shallow embedding

    The development follows the JavaScript sources:
    - [src/display/annotation_layer.js] in its three revisions (the
      transform-based one, the one that scales the containers itself, and the
      one that threads an [AnnotationStorage]);
    - the print-service polyfill ([PDFPrintService], [activeService],
      [PDFPrintServiceFactory.instance.createPrintService]).

    JavaScript objects used as dictionaries (attributes, inline styles, the
    annotation storage) are finite maps; code that throws or mutates module
    state runs in a small state-and-exception monad. *)

From stdpp Require Import base option gmap strings list.
From Stdlib Require Import ZArith.

Open Scope string_scope.
Open Scope Z_scope.
Open Scope list_scope.

(** ** JavaScript numbers and values *)

(** The sources compute with IEEE doubles.  The operations they use are kept
    abstract in a class; every definition below is generic in it. *)
Class JsNumber (N : Type) := {
  nadd : N → N → N;
  nsub : N → N → N;
  nmul : N → N → N;
  ndiv : N → N → N;
  nneg : N → N;
  ngt : N → N → bool;
  nseq : N → N → bool;
  ntruthy : N → bool;
  nlit : Z → N;
  nfrac : Z → Z → N;
  nstr : N → string;
  nint32 : N → Z;
  parseFloat : string → N;
  toNumber : string → N;
}.

(** Decimal rendering of an integer, as [Number.prototype.toString] prints an
    integer-valued double. *)
Fixpoint digits_of (fuel : nat) (n : Z) (acc : string) : string :=
  match fuel with
  | O => acc
  | S fuel' =>
      let d := String (Ascii.ascii_of_nat (48 + Z.to_nat (n mod 10))%nat) acc in
      if n <? 10 then d else digits_of fuel' (n / 10) d
  end.

Definition Z_to_string (n : Z) : string :=
  if n <? 0 then "-" +:+ digits_of (S (Z.to_nat (Z.log2 (- n)))) (- n) ""
  else digits_of (S (Z.to_nat (Z.log2 n))) n "".

(** Reading back an optionally signed integer prefix, the part of
    [parseFloat] that the integer instance needs. *)
Fixpoint read_digits (s : string) (acc : Z) : Z :=
  match s with
  | String c rest =>
      let k := Z.of_nat (Ascii.nat_of_ascii c) in
      if (48 <=? k) && (k <=? 57) then read_digits rest (10 * acc + (k - 48))
      else acc
  | EmptyString => acc
  end.

Definition Z_of_string (s : string) : Z :=
  match s with
  | String c rest =>
      if Ascii.eqb c (Ascii.ascii_of_nat 45) then - read_digits rest 0
      else read_digits s 0
  | EmptyString => 0
  end.

(** Integer-valued doubles: the instance used for concrete evaluations only;
    no theorem is stated for it.  [ndiv] and [nfrac] truncate, so they agree
    with the division of doubles only where the quotient is an integer; the
    examples state no number that comes from another quotient. *)
#[export] Instance ZNumber : JsNumber Z := {|
  nadd := Z.add; nsub := Z.sub; nmul := Z.mul; ndiv := Z.div; nneg := Z.opp;
  ngt := Z.gtb; nseq := Z.eqb; ntruthy := λ n, negb (n =? 0);
  nlit := λ n, n; nfrac := Z.div; nstr := Z_to_string;
  nint32 := λ n, (n + 2147483648) mod 4294967296 - 2147483648;
  parseFloat := Z_of_string; toNumber := Z_of_string;
|}.

(** Errors raised with [throw]. *)
Inductive JsError :=
  | Error (message : string)
  | TypeError (message : string).

#[export] Instance JsError_eq_dec : EqDecision JsError.
Proof. solve_decision. Defined.

(** ** Computations that read and write a state and may throw *)

Inductive Completion (A : Type) :=
  | Normal (a : A)
  | Throw (e : JsError).
Arguments Normal {A} a.
Arguments Throw {A} e.

Definition Exec (S A : Type) : Type := S → Completion A * S.

Definition exec_ret {S A} (a : A) : Exec S A := λ s, (Normal a, s).

Definition exec_bind {S A B} (m : Exec S A) (k : A → Exec S B) : Exec S B :=
  λ s, match m s with
       | (Normal a, s') => k a s'
       | (Throw e, s') => (Throw e, s')
       end.

Definition throw {S A} (e : JsError) : Exec S A := λ s, (Throw e, s).
Definition get_state {S} : Exec S S := λ s, (Normal s, s).
Definition modify {S} (f : S → S) : Exec S unit := λ s, (Normal tt, f s).

Notation "'let!' x ':=' m 'in' k" := (exec_bind m (λ x, k))
  (at level 10, x name, m at level 100, k at level 200).
Notation "m ';;;' k" := (exec_bind m (λ _, k))
  (at level 100, k at level 200, right associativity).

(** [for (const a of l) { f(a) }] *)
Fixpoint for_each {S A} (f : A → Exec S unit) (l : list A) : Exec S unit :=
  match l with
  | [] => exec_ret tt
  | a :: l' => f a ;;; for_each f l'
  end.

(** ** The print service (the polyfill around [window.print]) *)

Module PrintService.
Section Service.
Context {N : Type} `{JsNumber N}.

(** An entry of [pagesOverview]. *)
Record PageSize := { width : N; height : N; rotation : N }.

(** [l10n || NullL10n] *)
Inductive L10n := NullL10n | HostL10n (ref : nat).

(** A [PDFPrintService] object.  Objects are compared by identity, so they
    live in a heap and are named by their address. *)
Record PDFPrintService := {
  pdfDocument : nat;
  pagesOverview : list PageSize;
  printContainer : nat;
  l10n : L10n;
  currentPage : Z;
  pageStyleSheet : option nat;
}.

(** The module-level variables and the part of the document the service
    touches. *)
Record World := {
  heap : list PDFPrintService;
  activeService : option nat;
  bodyAttributes : gmap string string;
  bodyChildren : list (nat * string);
  nextNode : nat;
  containers : gmap nat (list string);
  progressValue : option Z;
  warnings : list string;
  appOverlayManager : bool;
  overlayPromise : bool;
  pendingOverlayClose : nat;
  nativePrintCalls : nat;
  afterprintEvents : nat;
}.

Definition set_heap (h : list PDFPrintService) (w : World) : World :=
  {| heap := h; activeService := activeService w;
     bodyAttributes := bodyAttributes w; bodyChildren := bodyChildren w;
     nextNode := nextNode w; containers := containers w;
     progressValue := progressValue w; warnings := warnings w;
     appOverlayManager := appOverlayManager w;
     overlayPromise := overlayPromise w;
     pendingOverlayClose := pendingOverlayClose w;
     nativePrintCalls := nativePrintCalls w;
     afterprintEvents := afterprintEvents w |}.

Definition set_activeService (a : option nat) (w : World) : World :=
  {| heap := heap w; activeService := a;
     bodyAttributes := bodyAttributes w; bodyChildren := bodyChildren w;
     nextNode := nextNode w; containers := containers w;
     progressValue := progressValue w; warnings := warnings w;
     appOverlayManager := appOverlayManager w;
     overlayPromise := overlayPromise w;
     pendingOverlayClose := pendingOverlayClose w;
     nativePrintCalls := nativePrintCalls w;
     afterprintEvents := afterprintEvents w |}.

Definition set_body (attrs : gmap string string) (kids : list (nat * string))
    (next : nat) (w : World) : World :=
  {| heap := heap w; activeService := activeService w;
     bodyAttributes := attrs; bodyChildren := kids;
     nextNode := next; containers := containers w;
     progressValue := progressValue w; warnings := warnings w;
     appOverlayManager := appOverlayManager w;
     overlayPromise := overlayPromise w;
     pendingOverlayClose := pendingOverlayClose w;
     nativePrintCalls := nativePrintCalls w;
     afterprintEvents := afterprintEvents w |}.

Definition set_containers (c : gmap nat (list string)) (w : World) : World :=
  {| heap := heap w; activeService := activeService w;
     bodyAttributes := bodyAttributes w; bodyChildren := bodyChildren w;
     nextNode := nextNode w; containers := c;
     progressValue := progressValue w; warnings := warnings w;
     appOverlayManager := appOverlayManager w;
     overlayPromise := overlayPromise w;
     pendingOverlayClose := pendingOverlayClose w;
     nativePrintCalls := nativePrintCalls w;
     afterprintEvents := afterprintEvents w |}.

Definition set_ui (p : option Z) (ws : list string) (w : World) : World :=
  {| heap := heap w; activeService := activeService w;
     bodyAttributes := bodyAttributes w; bodyChildren := bodyChildren w;
     nextNode := nextNode w; containers := containers w;
     progressValue := p; warnings := ws;
     appOverlayManager := appOverlayManager w;
     overlayPromise := overlayPromise w;
     pendingOverlayClose := pendingOverlayClose w;
     nativePrintCalls := nativePrintCalls w;
     afterprintEvents := afterprintEvents w |}.

Definition set_overlay (registered : bool) (pending : nat) (w : World)
    : World :=
  {| heap := heap w; activeService := activeService w;
     bodyAttributes := bodyAttributes w; bodyChildren := bodyChildren w;
     nextNode := nextNode w; containers := containers w;
     progressValue := progressValue w; warnings := warnings w;
     appOverlayManager := appOverlayManager w;
     overlayPromise := registered;
     pendingOverlayClose := pending;
     nativePrintCalls := nativePrintCalls w;
     afterprintEvents := afterprintEvents w |}.

Definition set_counters (prints events : nat) (w : World) : World :=
  {| heap := heap w; activeService := activeService w;
     bodyAttributes := bodyAttributes w; bodyChildren := bodyChildren w;
     nextNode := nextNode w; containers := containers w;
     progressValue := progressValue w; warnings := warnings w;
     appOverlayManager := appOverlayManager w;
     overlayPromise := overlayPromise w;
     pendingOverlayClose := pendingOverlayClose w;
     nativePrintCalls := prints;
     afterprintEvents := events |}.

Definition set_service (this : nat) (f : PDFPrintService → PDFPrintService)
    (w : World) : World :=
  set_heap (alter f this (heap w)) w.

Definition with_currentPage (p : Z) (s : PDFPrintService) : PDFPrintService :=
  {| pdfDocument := pdfDocument s; pagesOverview := pagesOverview s;
     printContainer := printContainer s; l10n := l10n s;
     currentPage := p; pageStyleSheet := pageStyleSheet s |}.

Definition with_pageStyleSheet (n : option nat) (s : PDFPrintService)
    : PDFPrintService :=
  {| pdfDocument := pdfDocument s; pagesOverview := pagesOverview s;
     printContainer := printContainer s; l10n := l10n s;
     currentPage := currentPage s; pageStyleSheet := n |}.

Definition cancelled : JsError :=
  Error "This print request was cancelled or completed.".

(** [function PDFPrintService(pdfDocument, pagesOverview, printContainer,
    l10n)] *)
Definition new_PDFPrintService (doc : nat) (pages : list PageSize)
    (container : nat) (l : option L10n) : PDFPrintService :=
  {| pdfDocument := doc; pagesOverview := pages; printContainer := container;
     l10n := default NullL10n l; currentPage := -1; pageStyleSheet := None |}.

(** [get active() { return this === activeService; }] *)
Definition active (this : nat) (w : World) : bool :=
  bool_decide (activeService w = Some this).

(** [throwIfInactive()] *)
Definition throwIfInactive (this : nat) : Exec World unit :=
  λ w, if active this w then (Normal tt, w) else (Throw cancelled, w).

(** Reading [this]: the object is in the heap. *)
Definition self (this : nat) : Exec World PDFPrintService :=
  λ w, match heap w !! this with
       | Some s => (Normal s, w)
       | None => (Throw (TypeError "no such object"), w)
       end.

(** [pagesOverview.every(size => size.width === pagesOverview[0].width &&
    size.height === pagesOverview[0].height)] *)
Definition hasEqualPageSizes (pages : list PageSize) : bool :=
  match pages with
  | [] => true
  | first :: _ =>
      forallb (λ size, nseq (width size) (width first)
                       && nseq (height size) (height first)) pages
  end.

Definition pageStyleText (pageSize : PageSize) : string :=
  "@supports ((size:A4) and (size:1pt 1pt)) {" +:+
  "@page { size: " +:+ nstr (width pageSize) +:+ "pt " +:+
  nstr (height pageSize) +:+ "pt;}" +:+ "}".

(** [layout()] *)
Definition layout (this : nat) : Exec World unit :=
  throwIfInactive this ;;;
  let! s := self this in
  modify (λ w, set_body (<["data-pdfjsprinting" := "true"]> (bodyAttributes w))
                        (bodyChildren w) (nextNode w) w) ;;;
  (if hasEqualPageSizes (pagesOverview s) then exec_ret tt
   else modify (λ w, set_ui (progressValue w)
     (warnings w ++ ["Not all pages have the same size. The printed " +:+
                     "result may be incorrect!"])%list w)) ;;;
  let! w := get_state in
  let sheet := nextNode w in
  modify (set_service this (with_pageStyleSheet (Some sheet))) ;;;
  modify (λ w, set_body (bodyAttributes w) (bodyChildren w) (S sheet) w) ;;;
  match pagesOverview s with
  | [] => throw (TypeError "pageSize is undefined")
  | pageSize :: _ =>
      modify (λ w, set_body (bodyAttributes w)
                     (bodyChildren w ++ [(sheet, pageStyleText pageSize)])%list
                     (nextNode w) w)
  end.

(** [ensureOverlay()], up to the promise it returns. *)
Definition ensureOverlay : Exec World unit :=
  λ w, if overlayPromise w then (Normal tt, w)
       else if appOverlayManager w
            then (Normal tt, set_overlay true (pendingOverlayClose w) w)
            else (Throw (Error
                    "The overlay manager has not yet been initialized."), w).

(** [destroy()]; the callback given to [ensureOverlay().then] is left
    pending. *)
Definition destroy (this : nat) : Exec World unit :=
  λ w, if negb (active this w) then (Normal tt, w)
       else
         (let! s := self this in
          modify (λ w, set_containers
                         (<[printContainer s := []]> (containers w)) w) ;;;
          modify (λ w, set_body (delete "data-pdfjsprinting" (bodyAttributes w))
                         (bodyChildren w) (nextNode w) w) ;;;
          match pageStyleSheet s with
          | Some sheet =>
              modify (λ w, set_body (bodyAttributes w)
                (filter (λ c, c.1 ≠ sheet) (bodyChildren w)) (nextNode w) w) ;;;
              modify (set_service this (with_pageStyleSheet None))
          | None => exec_ret tt
          end ;;;
          modify (set_activeService None) ;;;
          ensureOverlay ;;;
          modify (λ w, set_overlay (overlayPromise w)
                         (S (pendingOverlayClose w)) w)) w.

(** [Math.round(100 * index / total)] for the non-negative integers the
    callers pass ([total] is a page count plus one). *)
Definition progressPercent (index total : Z) : Z :=
  (200 * index + total) / (2 * total).

(** [renderProgress(index, total, l10n)]: the value given to the progress
    bar. *)
Definition renderProgress (index total : Z) : Exec World unit :=
  modify (λ w, set_ui (Some (progressPercent index total)) (warnings w) w).

(** What [renderNextPage] does before it yields. *)
Inductive RenderStep :=
  | Resolved
  | AwaitPage (pageNumber : Z).

(** [renderNextPage], the closure of [renderPages]. *)
Definition renderNextPage (this : nat) : Exec World RenderStep :=
  throwIfInactive this ;;;
  let! s := self this in
  let pageCount := Z.of_nat (length (pagesOverview s)) in
  let current := currentPage s + 1 in
  modify (set_service this (with_currentPage current)) ;;;
  if pageCount <=? current then
    renderProgress (pageCount + 1) (pageCount + 1) ;;;
    exec_ret Resolved
  else
    let index := current in
    renderProgress (index + 1) (pageCount + 1) ;;;
    exec_ret (AwaitPage (index + 1)).

(** The callback that receives the page's SVG: it appends the page and goes on
    with [renderNextPage]. *)
Definition onPageRendered (this : nat) (svg : string)
    : Exec World RenderStep :=
  throwIfInactive this ;;;
  let! s := self this in
  modify (λ w, set_containers
     (<[printContainer s :=
          (default [] (containers w !! printContainer s) ++ [svg])%list]>
        (containers w)) w) ;;;
  renderNextPage this.

(** [performPrint()], up to the promise it returns: the native [print] is
    called once. *)
Definition performPrint (this : nat) : Exec World unit :=
  throwIfInactive this ;;;
  λ w, if negb (active this w) then (Normal tt, w)
       else (Normal tt,
             set_counters (S (nativePrintCalls w)) (afterprintEvents w) w).

(** [abort()] *)
Definition abort : Exec World unit :=
  λ w, match activeService w with
       | Some a =>
           (destroy a ;;;
            modify (λ w, set_counters (nativePrintCalls w)
                           (S (afterprintEvents w)) w)) w
       | None => (Normal tt, w)
       end.

(** [PDFPrintServiceFactory.instance.createPrintService] *)
Definition createPrintService (doc : nat) (pages : list PageSize)
    (container : nat) (l : option L10n) : Exec World nat :=
  λ w, match activeService w with
       | Some _ => (Throw (Error "The print service is created and active."), w)
       | None =>
           let this := length (heap w) in
           let w1 := set_heap
                       (heap w ++ [new_PDFPrintService doc pages container l])%list
                       w in
           (Normal this, set_activeService (Some this) w1)
       end.

(** The operations of the module that a caller can run. *)
Inductive Operation :=
  | OpCreate (doc : nat) (pages : list PageSize) (container : nat)
             (l : option L10n)
  | OpLayout (this : nat)
  | OpDestroy (this : nat)
  | OpRenderNextPage (this : nat)
  | OpPageRendered (this : nat) (svg : string)
  | OpPerformPrint (this : nat)
  | OpAbort.

Definition run (op : Operation) (w : World) : World :=
  match op with
  | OpCreate doc pages container l =>
      (createPrintService doc pages container l w).2
  | OpLayout this => (layout this w).2
  | OpDestroy this => (destroy this w).2
  | OpRenderNextPage this => (renderNextPage this w).2
  | OpPageRendered this svg => (onPageRendered this svg w).2
  | OpPerformPrint this => (performPrint this w).2
  | OpAbort => (abort w).2
  end.

End Service.
End PrintService.

(** ** JavaScript values *)

(** Values of the loosely typed fields of the annotation data.  Objects and
    arrays are compared by identity; of an array of strings (the field value
    of a choice field) the items are kept as well. *)
Inductive JsVal (N : Type) :=
  | JUndefined
  | JNull
  | JBool (b : bool)
  | JNum (n : N)
  | JStr (s : string)
  | JObj (ref : nat)
  | JArr (ref : nat) (items : list string).
Arguments JUndefined {N}.
Arguments JNull {N}.
Arguments JBool {N} b.
Arguments JNum {N} n.
Arguments JStr {N} s.
Arguments JObj {N} ref.
Arguments JArr {N} ref items.

Section Values.
Context {N : Type} `{JsNumber N}.

(** [ToBoolean] *)
Definition truthy (v : JsVal N) : bool :=
  match v with
  | JUndefined | JNull => false
  | JBool b => b
  | JNum n => ntruthy n
  | JStr s => negb (String.eqb s "")
  | JObj _ | JArr _ _ => true
  end.

(** [a === b] *)
Definition strict_eq (a b : JsVal N) : bool :=
  match a, b with
  | JUndefined, JUndefined => true
  | JNull, JNull => true
  | JBool x, JBool y => Bool.eqb x y
  | JNum x, JNum y => nseq x y
  | JStr x, JStr y => String.eqb x y
  | JObj x, JObj y => Nat.eqb x y
  | JArr x _, JArr y _ => Nat.eqb x y
  | _, _ => false
  end.

(** [String(v)] *)
Definition js_to_string (v : JsVal N) : string :=
  match v with
  | JUndefined => "undefined"
  | JNull => "null"
  | JBool true => "true"
  | JBool false => "false"
  | JNum n => nstr n
  | JStr s => s
  | JObj _ => "[object Object]"
  | JArr _ items => String.concat "," items
  end.

(** [a && b] and [a || b] return one of their operands. *)
Definition js_and (a b : JsVal N) : JsVal N := if truthy a then b else a.
Definition js_or (a b : JsVal N) : JsVal N := if truthy a then a else b.

End Values.

(** ** The document tree *)

Set Warnings "-register-all".

Module Dom.
Section Tree.
Context {N : Type} `{JsNumber N}.

(** An element: its attributes (what [setAttribute] writes), the properties
    assigned on the object ([className], [name], [disabled], ...), its inline
    style (a property maps to the value last assigned to it) and its child
    nodes.  Event listeners are not part of the tree. *)
Inductive Element := mkElement {
  tagName : string;
  attributes : gmap string string;
  props : gmap string (JsVal N);
  style : gmap string string;
  children : list Element;
}.

(** [document.createElement(tag)] *)
Definition createElement (tag : string) : Element :=
  mkElement tag ∅ ∅ ∅ [].

(** [document.createTextNode(data)] *)
Definition createTextNode (data : string) : Element :=
  mkElement "#text" ∅ {[ "data" := JStr data ]} ∅ [].

Definition setAttribute (name value : string) (e : Element) : Element :=
  mkElement (tagName e) (<[name := value]> (attributes e)) (props e) (style e)
            (children e).

Definition removeAttribute (name : string) (e : Element) : Element :=
  mkElement (tagName e) (delete name (attributes e)) (props e) (style e)
            (children e).

Definition hasAttribute (name : string) (e : Element) : bool :=
  bool_decide (is_Some (attributes e !! name)).

Definition getAttribute (name : string) (e : Element) : option string :=
  attributes e !! name.

(** [e[name] = v] *)
Definition setProp (name : string) (v : JsVal N) (e : Element) : Element :=
  mkElement (tagName e) (attributes e) (<[name := v]> (props e)) (style e)
            (children e).

(** [e.style[name] = value] *)
Definition setStyle (name value : string) (e : Element) : Element :=
  mkElement (tagName e) (attributes e) (props e) (<[name := value]> (style e))
            (children e).

(** [e.style[name]], the empty string when the property was never set. *)
Definition getStyle (name : string) (e : Element) : string :=
  default "" (style e !! name).

Definition setChildren (cs : list Element) (e : Element) : Element :=
  mkElement (tagName e) (attributes e) (props e) (style e) cs.

(** [e.appendChild(c)] for a node [c] that is not yet in the tree. *)
Definition appendChild (c : Element) (e : Element) : Element :=
  setChildren (children e ++ [c])%list e.

(** [e.className] *)
Definition className (e : Element) : string :=
  match props e !! "className" with
  | Some (JStr s) => s
  | _ => ""
  end.

(** The selector [[name="value"]]. *)
Definition matches (name value : string) (e : Element) : bool :=
  bool_decide (attributes e !! name = Some value).

(** The descendants of an element, in document order. *)
Fixpoint subtree (e : Element) : list Element :=
  e :: (fix forest (cs : list Element) : list Element :=
          match cs with
          | [] => []
          | c :: cs' => (subtree c ++ forest cs')%list
          end) (children e).

Definition descendants (e : Element) : list Element :=
  flat_map subtree (children e).

(** [e.querySelector('[name="value"]')]: the first descendant, in document
    order, that carries the attribute with that value.  The value is assumed
    free of quotes and backslashes, as the identifiers of annotations are. *)
Definition querySelector (name value : string) (e : Element)
    : option Element :=
  find (matches name value) (descendants e).

(** Mutating the element that [querySelector] returns: [f] is applied, in
    place, to the first node in document order that satisfies [p]. *)
Fixpoint updateFirstIn (p : Element → bool) (f : Element → Element)
    (e : Element) : option Element :=
  if p e then Some (f e)
  else
    option_map (λ cs, setChildren cs e)
      ((fix forest (cs : list Element) : option (list Element) :=
          match cs with
          | [] => None
          | c :: cs' =>
              match updateFirstIn p f c with
              | Some c' => Some (c' :: cs')
              | None => option_map (cons c) (forest cs')
              end
          end) (children e)).

Fixpoint updateFirstForest (p : Element → bool) (f : Element → Element)
    (cs : list Element) : option (list Element) :=
  match cs with
  | [] => None
  | c :: cs' =>
      match updateFirstIn p f c with
      | Some c' => Some (c' :: cs')
      | None => option_map (cons c) (updateFirstForest p f cs')
      end
  end.

(** [let el = e.querySelector(sel); if (el) { el := f el }] *)
Definition updateSelected (name value : string) (f : Element → Element)
    (e : Element) : Element :=
  match updateFirstForest (matches name value) f (children e) with
  | Some cs => setChildren cs e
  | None => e
  end.

End Tree.
End Dom.

(** ** Annotation data and the helpers of [shared/util] and [dom_utils] *)

Module Annot.
Export Dom.
Section Data.
Context {N : Type} `{JsNumber N}.
Local Abbreviation Element := (@Element N).

(** [data.rect] and [page.view]: four numbers. *)
Record Rect := mkRect { r0 : N; r1 : N; r2 : N; r3 : N }.

(** [viewport.transform]: six numbers. *)
Record Transform := mkTransform {
  t0 : N; t1 : N; t2 : N; t3 : N; t4 : N; t5 : N;
}.

(** [transform.join(',')] *)
Definition join_transform (t : Transform) : string :=
  nstr (t0 t) +:+ "," +:+ nstr (t1 t) +:+ "," +:+ nstr (t2 t) +:+ "," +:+
  nstr (t3 t) +:+ "," +:+ nstr (t4 t) +:+ "," +:+ nstr (t5 t).

(** [data.borderStyle] *)
Record BorderStyle := {
  bwidth : N;
  bstyle : Z;
  horizontalCornerRadius : N;
  verticalCornerRadius : N;
}.

(** A colour array; only its first three entries are read. *)
Record Color := mkColor { c0 : N; c1 : N; c2 : N }.

(** [data.file] of a file attachment. *)
Record FileSpec := { filename : string; content : JsVal N }.

(** The annotation data the display layer receives from the parser.  A file
    attachment carries its [file]; [combo] and [multiSelect] belong to a
    choice field. *)
Record AnnotationData := {
  id : string;
  annotationType : Z;
  rect : Rect;
  borderStyle : BorderStyle;
  borderColor : option Color;
  color : option Color;
  fieldType : option string;
  radioButton : bool;
  checkBox : bool;
  hasPopup : bool;
  title : string;
  contents : string;
  modificationDate : JsVal N;
  url : JsVal N;
  dest : JsVal N;
  action : JsVal N;
  hasAppearance : bool;
  fieldValue : JsVal N;
  buttonValue : JsVal N;
  fieldName : string;
  readOnly : bool;
  alternativeText : JsVal N;
  checkBoxType : Z;
  radioButtonType : Z;
  fontColor : string;
  backgroundColor : option Color;
  parentType : string;
  parentId : string;
  combo : bool;
  multiSelect : bool;
  file : option FileSpec;
}.

Record Page := { view : Rect; pageNumber : Z }.
Record Viewport := { transform : Transform }.

(** [parameters.linkService], a service of the host, as far as a constructor
    calls it: what comes of [linkService.onFileAttachmentAnnotation(...)] in
    the first revision, and of the dispatch of ['fileattachmentannotation']
    on [linkService.eventBus] (skipped when there is no event bus) in the two
    later ones. *)
Record LinkService := {
  onFileAttachmentAnnotation : FileSpec → Completion unit;
}.

(** [AnnotationElementParameters], without the layer (the functions below
    take the current layer as an argument) and the other host services. *)
Record Parameters := {
  data : AnnotationData;
  page : Page;
  viewport : Viewport;
  linkService : LinkService;
  imageResourcesPath : string;
  renderInteractiveForms : bool;
}.

(** The constants and helpers that the sources import from [shared/util] and
    [dom_utils]; those files are not among the sources, so their values are
    parameters of the development. *)
Class Util := {
  AT_TEXT : Z; AT_LINK : Z; AT_FREETEXT : Z; AT_LINE : Z; AT_SQUARE : Z;
  AT_CIRCLE : Z; AT_POLYGON : Z; AT_POLYLINE : Z; AT_HIGHLIGHT : Z;
  AT_UNDERLINE : Z; AT_SQUIGGLY : Z; AT_STRIKEOUT : Z; AT_STAMP : Z;
  AT_CARET : Z; AT_INK : Z; AT_POPUP : Z; AT_FILEATTACHMENT : Z;
  AT_WIDGET : Z;
  BS_SOLID : Z; BS_DASHED : Z; BS_BEVELED : Z; BS_INSET : Z; BS_UNDERLINE : Z;
  CB_CHECK : Z; CB_CIRCLE : Z; CB_CROSS : Z; CB_DIAMOND : Z; CB_SQUARE : Z;
  CB_STAR : Z;
  normalizeRect : Rect → Rect;
  makeCssRgb : Z → Z → Z → string;
  encodeURIComponent : string → string;
  customStyleName : string → option string;
  defaultImageResourcesPath : string;
  dateArguments : JsVal N → option string;
}.

Context `{Util}.

(** [CustomStyle.setProp(propName, element, str)]: the property is written
    under the name the browser supports, and not at all when it supports
    none. *)
Definition CustomStyle_setProp (propName : string) (element : Element)
    (str : string) : Element :=
  match customStyleName propName with
  | Some prop => setStyle prop str element
  | None => element
  end.

Definition cssColor (c : Color) : string :=
  makeCssRgb (nint32 (c0 c)) (nint32 (c1 c)) (nint32 (c2 c)).

Definition px (n : N) : string := nstr n +:+ "px".

(** The classes of annotation elements. *)
Inductive ElementClass :=
  | AnnotationElement
  | LinkAnnotationElement
  | TextAnnotationElement
  | WidgetAnnotationElement
  | TextWidgetAnnotationElement
  | CheckboxWidgetAnnotationElement
  | RadioButtonWidgetAnnotationElement
  | PushButtonWidgetAnnotationElement
  | ChoiceWidgetAnnotationElement
  | PopupAnnotationElement
  | FreeTextAnnotationElement
  | LineAnnotationElement
  | SquareAnnotationElement
  | CircleAnnotationElement
  | PolylineAnnotationElement
  | PolygonAnnotationElement
  | CaretAnnotationElement
  | InkAnnotationElement
  | HighlightAnnotationElement
  | UnderlineAnnotationElement
  | SquigglyAnnotationElement
  | StrikeOutAnnotationElement
  | StampAnnotationElement
  | FileAttachmentAnnotationElement.

#[export] Instance ElementClass_eq_dec : EqDecision ElementClass.
Proof. solve_decision. Defined.

(** An annotation element after its constructor has run.  Only the
    truthiness of [isRenderable] is ever observed. *)
Record AnnotationElementObject := {
  class : ElementClass;
  isRenderable : bool;
  parameters : Parameters;
  container : option Element;
}.

(** [!!(data.hasPopup || data.title || data.contents)] *)
Definition hasPopupOrText (d : AnnotationData) : bool :=
  hasPopup d || negb (String.eqb (title d) "")
  || negb (String.eqb (contents d) "").

(** [!!(data.url || data.dest || data.action)] *)
Definition hasLinkTarget (d : AnnotationData) : bool :=
  truthy (js_or (js_or (url d) (dest d)) (action d)).

(** The width and height that [_createContainer] gives the container. *)
Definition borderDrawn (ignoreBorder : bool) (d : AnnotationData) : bool :=
  negb ignoreBorder && ngt (bwidth (borderStyle d)) (nlit 0)
  && bool_decide (is_Some (borderColor d)).

(** The rectangle that [_createContainer] passes to [Util.normalizeRect]. *)
Definition flippedRect (d : AnnotationData) (pg : Page) : Rect :=
  mkRect (r0 (rect d))
         (nadd (nsub (r3 (view pg)) (r1 (rect d))) (r1 (view pg)))
         (r2 (rect d))
         (nadd (nsub (r3 (view pg)) (r3 (rect d))) (r1 (view pg))).

(** The last step of the border block: [borderColor], else [color], else no
    border at all. *)
Definition applyBorderColor (d : AnnotationData) (container : Element)
    : Element :=
  match borderColor d with
  | Some c => setStyle "borderColor" (cssColor c) container
  | None =>
      match color d with
      | Some c => setStyle "borderColor" (cssColor c) container
      | None => setStyle "borderWidth" (nstr (nlit 0)) container
      end
  end.

(** [AnnotationLayerParameters], without the layer div (the functions below
    take it as an argument and return it) and the other host services.  A
    [None] among the annotations is a [null] entry. *)
Record LayerParameters := {
  lp_viewport : Viewport;
  annotations : list (option AnnotationData);
  lp_page : Page;
  lp_linkService : LinkService;
  lp_imageResourcesPath : JsVal N;
  lp_renderInteractiveForms : JsVal N;
}.

(** [super(parameters, isRenderable, ignoreBorder)] as the constructor of the
    class [c] calls it: the base constructor with the arguments that the
    class computes; it creates the container of a renderable element. *)
Definition construct
    (baseArguments : ElementClass → Parameters → bool * bool)
    (_createContainer : Parameters → bool → Element)
    (c : ElementClass) (p : Parameters) : AnnotationElementObject :=
  let (isRenderable, ignoreBorder) := baseArguments c p in
  {| class := c; isRenderable := isRenderable; parameters := p;
     container := if isRenderable then Some (_createContainer p ignoreBorder)
                  else None |}.

(** The statements of a constructor that follow the call of the base
    constructor.  Those of [FileAttachmentAnnotationElement] read
    [this.data.file], which throws when the annotation has none, and tell the
    link service; the message of the error is the engine's.  The other
    constructors have none, or only assign fields that [render] reads
    ([containerClassName], [svgElementName]). *)
Definition constructorBody (c : ElementClass) (p : Parameters)
    : Completion unit :=
  match c with
  | FileAttachmentAnnotationElement =>
      match file (data p) with
      | None => Throw (TypeError "this.data.file is undefined")
      | Some f => onFileAttachmentAnnotation (linkService p) f
      end
  | _ => Normal tt
  end.

(** [new X(parameters)] *)
Definition instantiate
    (baseArguments : ElementClass → Parameters → bool * bool)
    (_createContainer : Parameters → bool → Element)
    (c : ElementClass) (p : Parameters) : Completion AnnotationElementObject :=
  let element := construct baseArguments _createContainer c p in
  match constructorBody c p with
  | Normal _ => Normal element
  | Throw e => Throw e
  end.

(** [this.data.fieldValue.length > 0 ? this.data.fieldValue[0] : null]:
    reading [length] throws on [undefined] and [null]; a string has its
    characters as items, and a boolean, a number or an object other than an
    array has no [length]. *)
Definition firstFieldValue (v : JsVal N) : Completion (JsVal N) :=
  match v with
  | JUndefined => Throw (TypeError "this.data.fieldValue is undefined")
  | JNull => Throw (TypeError "this.data.fieldValue is null")
  | JArr _ (item :: _) => Normal (JStr item)
  | JStr (String c _) => Normal (JStr (String c ""))
  | _ => Normal JNull
  end.

(** ['matrix(' + viewport.transform.join(',') + ')'] *)
Definition matrix (v : Viewport) : string :=
  "matrix(" +:+ join_transform (transform v) +:+ ")".

(** [data.fieldValue && data.fieldValue !== 'Off'] *)
Definition checkboxValue (d : AnnotationData) : JsVal N :=
  js_and (fieldValue d) (JBool (negb (strict_eq (fieldValue d) (JStr "Off")))).

(** [data.fieldValue === data.buttonValue] *)
Definition radioValue (d : AnnotationData) : JsVal N :=
  JBool (strict_eq (fieldValue d) (buttonValue d)).

(** The methods of [AnnotationStorage] that the annotation layer calls. *)
Class StorageMethods (Storage : Type) := {
  newAnnotationStorage : Storage;
  getOrCreateValue : Storage → string → JsVal N → JsVal N * Storage;
  setValue : Storage → string → JsVal N → Storage;
}.

(** Modelled from the spec: [AnnotationStorage], whose file
    [annotation_storage.js] is not among the sources.  It maps the identifier
    of an annotation to the value of its form field; [getOrCreateValue]
    returns the stored value and, when there is none, stores the default it
    is given and returns it, so that the default is the initial stored
    value. *)
#[export] Instance MapStorage : StorageMethods (gmap string (JsVal N)) := {|
  newAnnotationStorage := ∅;
  getOrCreateValue := λ storage key defaultValue,
    match storage !! key with
    | Some value => (value, storage)
    | None => (defaultValue, <[key := defaultValue]> storage)
    end;
  setValue := λ storage key value, <[key := value]> storage;
|}.

End Data.
End Annot.

(** ** [PopupElement] *)

Module Popup.
Import Annot.
Section Popup.
Context {N : Type} `{JsNumber N} `{!Util (N:=N)}.
Local Abbreviation Element := (@Element N).
Local Abbreviation Color := (@Color N).

Definition CR : Ascii.ascii := Ascii.ascii_of_nat 13.
Definition LF : Ascii.ascii := Ascii.ascii_of_nat 10.

(** [contents.split(/(?:\r\n?|\n)/)]; the line being read is accumulated in
    reverse. *)
Fixpoint split_lines (s : string) (cur : list Ascii.ascii) : list string :=
  match s with
  | EmptyString => [String.string_of_list_ascii (rev cur)]
  | String c rest =>
      if Ascii.eqb c CR then
        String.string_of_list_ascii (rev cur) ::
          match rest with
          | String c' rest' =>
              if Ascii.eqb c' LF then split_lines rest' []
              else split_lines rest []
          | EmptyString => split_lines rest []
          end
      else if Ascii.eqb c LF then
        String.string_of_list_ascii (rev cur) :: split_lines rest []
      else split_lines rest (c :: cur)
  end.

(** The children of the paragraph: a text node per line and a [br] between
    two lines. *)
Fixpoint line_nodes (lines : list string) : list Element :=
  match lines with
  | [] => []
  | [line] => [createTextNode line]
  | line :: rest => createTextNode line :: createElement "br" :: line_nodes rest
  end.

(** [_formatContents(contents)] *)
Definition _formatContents (contents : string) : Element :=
  setChildren (line_nodes (split_lines contents [])) (createElement "p").

(** A [PopupElement] object.  [wrapper] is the element [render] creates; it
    is kept next to [container] (whose child it becomes), so that
    [hideElement] is [wrapper] or [container] as [hideWrapper] says.  The
    trigger only receives listeners and is not kept. *)
Record PopupElement := {
  container : Element;
  color : option Color;
  title : string;
  modificationDate : JsVal N;
  contents : string;
  hideWrapper : bool;
  pinned : bool;
  wrapper : option Element;
}.

(** [new PopupElement(parameters)] *)
Definition new_PopupElement (container : Element) (color : option Color)
    (title : string) (modificationDate : JsVal N) (contents : string)
    (hideWrapper : option bool) : PopupElement :=
  {| container := container; color := color; title := title;
     modificationDate := modificationDate; contents := contents;
     hideWrapper := default false hideWrapper; pinned := false;
     wrapper := None |}.

Definition set_container (c : Element) (p : PopupElement) : PopupElement :=
  {| container := c; color := color p; title := title p;
     modificationDate := modificationDate p; contents := contents p;
     hideWrapper := hideWrapper p; pinned := pinned p; wrapper := wrapper p |}.

Definition set_wrapper (w : option Element) (p : PopupElement)
    : PopupElement :=
  {| container := container p; color := color p; title := title p;
     modificationDate := modificationDate p; contents := contents p;
     hideWrapper := hideWrapper p; pinned := pinned p; wrapper := w |}.

Definition set_pinned (b : bool) (p : PopupElement) : PopupElement :=
  {| container := container p; color := color p; title := title p;
     modificationDate := modificationDate p; contents := contents p;
     hideWrapper := hideWrapper p; pinned := b; wrapper := wrapper p |}.

(** [this.hideElement], undefined until [render] has run. *)
Definition hideElement (p : PopupElement) : option Element :=
  match wrapper p with
  | Some w => Some (if hideWrapper p then w else container p)
  | None => None
  end.

Definition update_hideElement (f : Element → Element) (p : PopupElement)
    : PopupElement :=
  if hideWrapper p then set_wrapper (f <$> wrapper p) p
  else set_container (f (container p)) p.

(** [BACKGROUND_ENLIGHT * (255 - c) + c] *)
Definition enlighten (c : N) : N :=
  nadd (nmul (nfrac 7 10) (nsub (nlit 255) c)) c.

(** [render()]: the wrapper it returns and the object afterwards.
    [withDate] tells whether the revision shows the modification date. *)
Definition render (withDate : bool) (p : PopupElement)
    : Element * PopupElement :=
  let wrapper0 := setProp "className" (JStr "popupWrapper")
                    (createElement "div") in
  let p1 := update_hideElement (setAttribute "hidden" "true")
              (set_wrapper (Some wrapper0) p) in
  let popup0 := setProp "className" (JStr "popup") (createElement "div") in
  let popup1 :=
    match color p with
    | Some c =>
        setStyle "backgroundColor"
          (makeCssRgb (nint32 (enlighten (c0 c))) (nint32 (enlighten (c1 c)))
                      (nint32 (enlighten (c2 c)))) popup0
    | None => popup0
    end in
  let titleElement := setProp "textContent" (JStr (title p))
                        (createElement "h1") in
  let dateElements :=
    if withDate then
      match dateArguments (modificationDate p) with
      | Some args =>
          [setAttribute "data-l10n-args" args
             (setAttribute "data-l10n-id" "annotation_date_string"
                (setProp "textContent" (JStr "{{date}}, {{time}}")
                   (createElement "span")))]
      | None => []
      end
    else [] in
  let popup2 :=
    setChildren ([titleElement] ++ dateElements
                 ++ [_formatContents (contents p)])%list popup1 in
  let p2 := set_wrapper (appendChild popup2 <$> wrapper p1) p1 in
  (default wrapper0 (wrapper p2), p2).

(** [_show(pin = false)] *)
Definition _show (pin : bool) : Exec PopupElement unit :=
  (if pin then modify (set_pinned true) else exec_ret tt) ;;;
  let! p := get_state in
  match hideElement p with
  | None => throw (TypeError "this.hideElement is undefined")
  | Some h =>
      if hasAttribute "hidden" h then
        modify (update_hideElement (removeAttribute "hidden")) ;;;
        modify (λ p, set_container
                  (setStyle "zIndex"
                     (getStyle "zIndex" (container p) +:+ nstr (nlit 1))
                     (container p)) p)
      else exec_ret tt
  end.

(** [_hide(unpin = true)] *)
Definition _hide (unpin : bool) : Exec PopupElement unit :=
  (if unpin then modify (set_pinned false) else exec_ret tt) ;;;
  let! p := get_state in
  match hideElement p with
  | None => throw (TypeError "this.hideElement is undefined")
  | Some h =>
      if negb (hasAttribute "hidden" h) && negb (pinned p) then
        modify (update_hideElement (setAttribute "hidden" "true")) ;;;
        modify (λ p, set_container
                  (setStyle "zIndex"
                     (nstr (nsub (toNumber (getStyle "zIndex" (container p)))
                                 (nlit 1)))
                     (container p)) p)
      else exec_ret tt
  end.

(** [_toggle()] *)
Definition _toggle : Exec PopupElement unit :=
  let! p := get_state in
  if pinned p then _hide true else _show true.

(** The listeners that [render] attaches: [click], [mouseover] and [mouseout]
    on the trigger, [click] on the popup. *)
Inductive PopupEvent :=
  | TriggerClick
  | TriggerMouseover
  | TriggerMouseout
  | PopupClick.

Definition handle (ev : PopupEvent) : Exec PopupElement unit :=
  match ev with
  | TriggerClick => _toggle
  | TriggerMouseover => _show false
  | TriggerMouseout => _hide false
  | PopupClick => _hide true
  end.

(** Method calls one after the other; an exception stops the sequence. *)
Inductive Call :=
  | CallShow (pin : bool)
  | CallHide (unpin : bool)
  | CallToggle.

Definition call (c : Call) : Exec PopupElement unit :=
  match c with
  | CallShow pin => _show pin
  | CallHide unpin => _hide unpin
  | CallToggle => _toggle
  end.

Fixpoint calls (cs : list Call) : Exec PopupElement unit :=
  match cs with
  | [] => exec_ret tt
  | c :: cs' => call c ;;; calls cs'
  end.

End Popup.
End Popup.

(** ** [src/display/annotation_layer.js], the transform-based revision *)

Module V1.
Import Annot.
Section V1.
Context {N : Type} `{JsNumber N} `{!Util (N:=N)}.
Local Abbreviation Element := (@Element N).
Local Abbreviation AnnotationData := (@AnnotationData N).
Local Abbreviation Parameters := (@Parameters N).
Local Abbreviation LayerParameters := (@LayerParameters N).
Local Abbreviation AnnotationElementObject := (@AnnotationElementObject N).

(** The [render] methods of the classes that are not spelled out below
    (links, text, text and choice widgets, lines, markup, attachments): each
    fills the container it is given and returns it, or throws.  The second
    argument is the layer. *)
Context (renderOther : ElementClass → Parameters → Element → Element →
                       Completion Element).

(** [AnnotationElementFactory.create]: the class that is instantiated. *)
Definition create_class (p : Parameters) : ElementClass :=
  let subtype := annotationType (data p) in
  if subtype =? AT_LINK then LinkAnnotationElement
  else if subtype =? AT_TEXT then TextAnnotationElement
  else if subtype =? AT_WIDGET then
    match fieldType (data p) with
    | Some fieldType =>
        if String.eqb fieldType "Tx" then TextWidgetAnnotationElement
        else if String.eqb fieldType "Btn" then
          if radioButton (data p) then RadioButtonWidgetAnnotationElement
          else if checkBox (data p) then CheckboxWidgetAnnotationElement
          else WidgetAnnotationElement
        else if String.eqb fieldType "Ch" then ChoiceWidgetAnnotationElement
        else WidgetAnnotationElement
    | None => WidgetAnnotationElement
    end
  else if subtype =? AT_POPUP then PopupAnnotationElement
  else if subtype =? AT_LINE then LineAnnotationElement
  else if subtype =? AT_HIGHLIGHT then HighlightAnnotationElement
  else if subtype =? AT_UNDERLINE then UnderlineAnnotationElement
  else if subtype =? AT_SQUIGGLY then SquigglyAnnotationElement
  else if subtype =? AT_STRIKEOUT then StrikeOutAnnotationElement
  else if subtype =? AT_FILEATTACHMENT then FileAttachmentAnnotationElement
  else AnnotationElement.

(** The [(isRenderable, ignoreBorder)] that each constructor passes to the
    base constructor; [(false, false)] are the defaults of the latter.  The
    classes of the later revisions do not exist here. *)
Definition baseArguments (c : ElementClass) (p : Parameters) : bool * bool :=
  let d := data p in
  match c with
  | LinkAnnotationElement => (true, false)
  | TextAnnotationElement => (hasPopupOrText d, false)
  | TextWidgetAnnotationElement =>
      (renderInteractiveForms p
       || (negb (hasAppearance d) && truthy (fieldValue d)), false)
  | CheckboxWidgetAnnotationElement
  | RadioButtonWidgetAnnotationElement
  | ChoiceWidgetAnnotationElement => (renderInteractiveForms p, false)
  | PopupAnnotationElement =>
      (negb (String.eqb (title d) "") || negb (String.eqb (contents d) ""),
       false)
  | LineAnnotationElement
  | HighlightAnnotationElement
  | UnderlineAnnotationElement
  | SquigglyAnnotationElement
  | StrikeOutAnnotationElement => (hasPopupOrText d, true)
  | FileAttachmentAnnotationElement => (true, false)
  | _ => (false, false)
  end.

(** [AnnotationElement._createContainer(ignoreBorder)] *)
Definition _createContainer (p : Parameters) (ignoreBorder : bool) : Element :=
  let d := data p in
  let bs := borderStyle d in
  let container := createElement "section" in
  let width := nsub (r2 (rect d)) (r0 (rect d)) in
  let height := nsub (r3 (rect d)) (r1 (rect d)) in
  let container := setAttribute "data-annotation-id" (id d) container in
  let rect := normalizeRect (flippedRect d (page p)) in
  let container :=
    CustomStyle_setProp "transform" container (matrix (viewport p)) in
  let container :=
    CustomStyle_setProp "transformOrigin" container
      (nstr (nneg (r0 rect)) +:+ "px " +:+ nstr (nneg (r1 rect)) +:+ "px") in
  let '(container, width, height) :=
    if borderDrawn ignoreBorder d then
      let container := setStyle "borderWidth" (px (bwidth bs)) container in
      let '(width, height) :=
        if negb (bstyle bs =? BS_UNDERLINE) then
          (nsub width (nmul (nlit 2) (bwidth bs)),
           nsub height (nmul (nlit 2) (bwidth bs)))
        else (width, height) in
      let horizontalRadius := horizontalCornerRadius bs in
      let verticalRadius := verticalCornerRadius bs in
      let container :=
        if ngt horizontalRadius (nlit 0) || ngt verticalRadius (nlit 0) then
          CustomStyle_setProp "borderRadius" container
            (nstr horizontalRadius +:+ "px / " +:+ nstr verticalRadius +:+ "px")
        else container in
      let container :=
        if bstyle bs =? BS_SOLID then setStyle "borderStyle" "solid" container
        else if bstyle bs =? BS_DASHED then
          setStyle "borderStyle" "dashed" container
        else if bstyle bs =? BS_BEVELED then container
        else if bstyle bs =? BS_INSET then container
        else if bstyle bs =? BS_UNDERLINE then
          setStyle "borderBottomStyle" "solid" container
        else container in
      (applyBorderColor d container, width, height)
    else (container, width, height) in
  let container := setStyle "left" (px (r0 rect)) container in
  let container := setStyle "top" (px (r1 rect)) container in
  let container := setStyle "width" (px width) container in
  setStyle "height" (px height) container.

(** [AnnotationElementFactory.create(parameters)] *)
Definition create (p : Parameters) : Completion AnnotationElementObject :=
  instantiate baseArguments _createContainer (create_class p) p.

(** [CheckboxWidgetAnnotationElement.render]: the [input] element. *)
Definition checkboxInput (d : AnnotationData) : Element :=
  let element := createElement "input" in
  let element := setProp "name" (JStr (encodeURIComponent (fieldName d)))
                   element in
  let element := setProp "disabled" (JBool (readOnly d)) element in
  let element := setProp "type" (JStr "checkbox") element in
  if truthy (checkboxValue d) then setAttribute "checked" "true" element
  else element.

(** [CheckboxWidgetAnnotationElement.render()] *)
Definition render_checkbox (p : Parameters) (container : Element) : Element :=
  let container :=
    setProp "className" (JStr "buttonWidgetAnnotation checkBox") container in
  let element := checkboxInput (data p) in
  let container :=
    setStyle "fontSize" (getStyle "height" container) container in
  let container := appendChild element container in
  appendChild (createElement "span") container.

(** [RadioButtonWidgetAnnotationElement.render]: the [input] element. *)
Definition radioInput (d : AnnotationData) : Element :=
  let element := createElement "input" in
  let element := setProp "name" (JStr (encodeURIComponent (fieldName d)))
                   element in
  let element := setProp "disabled" (JBool (readOnly d)) element in
  let element := setProp "type" (JStr "radio") element in
  if truthy (radioValue d) then setAttribute "checked" "true" element
  else element.

(** [RadioButtonWidgetAnnotationElement.render()] *)
Definition render_radio (p : Parameters) (container : Element) : Element :=
  let container :=
    setProp "className" (JStr "buttonWidgetAnnotation radioButton")
      container in
  let element := radioInput (data p) in
  let container :=
    setStyle "fontSize" (getStyle "height" container) container in
  let container := appendChild element container in
  appendChild (createElement "span") container.

(** [PopupAnnotationElement.render()] *)
Definition render_popup (p : Parameters) (layer container : Element)
    : Element :=
  let d := data p in
  let container := setProp "className" (JStr "popupAnnotation") container in
  if bool_decide (parentType d ∈ ["Line"]) then container
  else
    match querySelector "data-annotation-id" (parentId d) layer with
    | None => container
    | Some parentElement =>
        let parentLeft := parseFloat (getStyle "left" parentElement) in
        let parentWidth := parseFloat (getStyle "width" parentElement) in
        let container :=
          CustomStyle_setProp "transformOrigin" container
            (nstr (nneg (nadd parentLeft parentWidth)) +:+ "px -" +:+
             getStyle "top" parentElement) in
        let container :=
          setStyle "left" (px (nadd parentLeft parentWidth)) container in
        let popup :=
          Popup.new_PopupElement container (color d) (title d) JUndefined
            (contents d) None in
        let (wrapper, popup) := Popup.render false popup in
        appendChild wrapper (Popup.container popup)
    end.

(** [element.render()], by class. *)
Definition render_element (e : AnnotationElementObject) (layer : Element)
    (container : Element) : Completion Element :=
  match class e with
  | WidgetAnnotationElement => Normal container
  | CheckboxWidgetAnnotationElement =>
      Normal (render_checkbox (parameters e) container)
  | RadioButtonWidgetAnnotationElement =>
      Normal (render_radio (parameters e) container)
  | PopupAnnotationElement =>
      Normal (render_popup (parameters e) layer container)
  | c => renderOther c (parameters e) layer container
  end.

(** The parameters that [AnnotationLayer.render] gives the factory. *)
Definition elementParameters (lp : LayerParameters) (d : AnnotationData)
    : Parameters :=
  {| data := d; page := lp_page lp; viewport := lp_viewport lp;
     linkService := lp_linkService lp;
     imageResourcesPath :=
       match js_or (lp_imageResourcesPath lp)
                   (JStr defaultImageResourcesPath) with
       | JStr s => s
       | _ => ""
       end;
     renderInteractiveForms :=
       truthy (js_or (lp_renderInteractiveForms lp) (JBool false)) |}.

(** One turn of the loop of [AnnotationLayer.render], on the layer div.  An
    exception of the constructor or of [render] leaves the loop, and the div
    as it is then. *)
Definition renderAnnotation (lp : LayerParameters)
    (entry : option AnnotationData) : Exec Element unit :=
  λ div,
    match entry with
    | None => (Normal tt, div)
    | Some d =>
        match create (elementParameters lp d) with
        | Throw e => (Throw e, div)
        | Normal element =>
            if isRenderable element then
              match container element with
              | Some c =>
                  match render_element element div c with
                  | Normal rendered => (Normal tt, appendChild rendered div)
                  | Throw e => (Throw e, div)
                  end
              | None => (Normal tt, div)
              end
            else (Normal tt, div)
        end
    end.

(** [AnnotationLayer.render(parameters)] *)
Definition render (lp : LayerParameters) : Exec Element unit :=
  for_each (renderAnnotation lp) (annotations lp).

(** One turn of the loop of [AnnotationLayer.update]; reading [data.id] of a
    [null] entry throws. *)
Definition updateAnnotation (lp : LayerParameters)
    (entry : option AnnotationData) : Exec Element unit :=
  match entry with
  | None => throw (TypeError "data is null")
  | Some d =>
      modify (updateSelected "data-annotation-id" (id d)
                (λ element, CustomStyle_setProp "transform" element
                              (matrix (lp_viewport lp))))
  end.

(** [AnnotationLayer.update(parameters)] *)
Definition update (lp : LayerParameters) : Exec Element unit :=
  for_each (updateAnnotation lp) (annotations lp) ;;;
  modify (removeAttribute "hidden").

End V1.
End V1.

(** ** The revision that scales the containers itself *)

Module V2.
Import Annot.
Section V2.
Context {N : Type} `{JsNumber N} `{!Util (N:=N)}.
Local Abbreviation Element := (@Element N).
Local Abbreviation AnnotationData := (@AnnotationData N).
Local Abbreviation Parameters := (@Parameters N).
Local Abbreviation LayerParameters := (@LayerParameters N).
Local Abbreviation AnnotationElementObject := (@AnnotationElementObject N).

(** The [render] methods that are not spelled out below: each returns the
    container or throws; the second argument is the layer. *)
Context (renderOther : ElementClass → Parameters → Element → Element →
                       Completion Element).

(** [AnnotationElementFactory.create]: the class that is instantiated. *)
Definition create_class (p : Parameters) : ElementClass :=
  let subtype := annotationType (data p) in
  if subtype =? AT_LINK then LinkAnnotationElement
  else if subtype =? AT_TEXT then TextAnnotationElement
  else if subtype =? AT_WIDGET then
    match fieldType (data p) with
    | Some fieldType =>
        if String.eqb fieldType "Tx" then TextWidgetAnnotationElement
        else if String.eqb fieldType "Btn" then
          if radioButton (data p) then RadioButtonWidgetAnnotationElement
          else if checkBox (data p) then CheckboxWidgetAnnotationElement
          else PushButtonWidgetAnnotationElement
        else if String.eqb fieldType "Ch" then ChoiceWidgetAnnotationElement
        else WidgetAnnotationElement
    | None => WidgetAnnotationElement
    end
  else if subtype =? AT_POPUP then PopupAnnotationElement
  else if subtype =? AT_FREETEXT then FreeTextAnnotationElement
  else if subtype =? AT_LINE then LineAnnotationElement
  else if subtype =? AT_SQUARE then SquareAnnotationElement
  else if subtype =? AT_CIRCLE then CircleAnnotationElement
  else if subtype =? AT_POLYLINE then PolylineAnnotationElement
  else if subtype =? AT_CARET then CaretAnnotationElement
  else if subtype =? AT_INK then InkAnnotationElement
  else if subtype =? AT_POLYGON then PolygonAnnotationElement
  else if subtype =? AT_HIGHLIGHT then HighlightAnnotationElement
  else if subtype =? AT_UNDERLINE then UnderlineAnnotationElement
  else if subtype =? AT_SQUIGGLY then SquigglyAnnotationElement
  else if subtype =? AT_STRIKEOUT then StrikeOutAnnotationElement
  else if subtype =? AT_STAMP then StampAnnotationElement
  else if subtype =? AT_FILEATTACHMENT then FileAttachmentAnnotationElement
  else AnnotationElement.

(** The [(isRenderable, ignoreBorder)] that each constructor passes to the
    base constructor. *)
Definition baseArguments (c : ElementClass) (p : Parameters) : bool * bool :=
  let d := data p in
  match c with
  | AnnotationElement | WidgetAnnotationElement => (false, false)
  | LinkAnnotationElement
  | PushButtonWidgetAnnotationElement => (hasLinkTarget d, false)
  | TextAnnotationElement => (hasPopupOrText d, false)
  | TextWidgetAnnotationElement =>
      (renderInteractiveForms p
       || (negb (hasAppearance d) && truthy (fieldValue d)), false)
  | CheckboxWidgetAnnotationElement
  | RadioButtonWidgetAnnotationElement
  | ChoiceWidgetAnnotationElement => (renderInteractiveForms p, false)
  | PopupAnnotationElement =>
      (negb (String.eqb (title d) "") || negb (String.eqb (contents d) ""),
       false)
  | FreeTextAnnotationElement
  | LineAnnotationElement
  | SquareAnnotationElement
  | CircleAnnotationElement
  | PolylineAnnotationElement
  | PolygonAnnotationElement
  | CaretAnnotationElement
  | InkAnnotationElement
  | HighlightAnnotationElement
  | UnderlineAnnotationElement
  | SquigglyAnnotationElement
  | StrikeOutAnnotationElement
  | StampAnnotationElement => (hasPopupOrText d, true)
  | FileAttachmentAnnotationElement => (true, false)
  end.

(** [AnnotationElement._createContainer(ignoreBorder)] *)
Definition _createContainer (p : Parameters) (ignoreBorder : bool) : Element :=
  let d := data p in
  let bs := borderStyle d in
  let container := createElement "section" in
  let width := nsub (r2 (rect d)) (r0 (rect d)) in
  let height := nsub (r3 (rect d)) (r1 (rect d)) in
  let container := setAttribute "data-annotation-id" (id d) container in
  let rect := normalizeRect (flippedRect d (page p)) in
  let '(container, width, height) :=
    if borderDrawn ignoreBorder d then
      let container := setStyle "borderWidth" (px (bwidth bs)) container in
      let '(width, height) :=
        if negb (bstyle bs =? BS_UNDERLINE) then
          (nsub width (nmul (nlit 2) (bwidth bs)),
           nsub height (nmul (nlit 2) (bwidth bs)))
        else (width, height) in
      let horizontalRadius := horizontalCornerRadius bs in
      let verticalRadius := verticalCornerRadius bs in
      let container :=
        if ngt horizontalRadius (nlit 0) || ngt verticalRadius (nlit 0) then
          setStyle "borderRadius"
            (nstr horizontalRadius +:+ "px / " +:+ nstr verticalRadius +:+ "px")
            container
        else container in
      let container :=
        if (bstyle bs =? BS_SOLID) || (bstyle bs =? BS_INSET)
           || (bstyle bs =? BS_BEVELED) then
          setStyle "borderStyle" "solid" container
        else if bstyle bs =? BS_DASHED then
          setStyle "borderStyle" "dashed" container
        else if bstyle bs =? BS_UNDERLINE then
          setStyle "borderBottomStyle" "solid" container
        else container in
      (applyBorderColor d container, width, height)
    else (container, width, height) in
  let scaleX := t0 (transform (viewport p)) in
  let scaleY := t3 (transform (viewport p)) in
  let container := setStyle "left" (px (nmul (r0 rect) scaleX)) container in
  let container := setStyle "top" (px (nmul (r1 rect) scaleY)) container in
  let container := setStyle "width" (px (nmul width scaleX)) container in
  let container := setStyle "height" (px (nmul height scaleY)) container in
  setAttribute "scale" (nstr scaleX) container.

(** [AnnotationElementFactory.create(parameters)] *)
Definition create (p : Parameters) : Completion AnnotationElementObject :=
  instantiate baseArguments _createContainer (create_class p) p.

Definition IGNORE_TYPES : list string :=
  ["Line"; "Square"; "Circle"; "PolyLine"; "Polygon"; "Ink"].

(** [PopupAnnotationElement.render()] *)
Definition render_popup (p : Parameters) (layer container : Element)
    : Element :=
  let d := data p in
  let container := setProp "className" (JStr "popupAnnotation") container in
  if bool_decide (parentType d ∈ IGNORE_TYPES) then container
  else
    match querySelector "data-annotation-id" (parentId d) layer with
    | None => container
    | Some parentElement =>
        let parentLeft := parseFloat (getStyle "left" parentElement) in
        let parentWidth := parseFloat (getStyle "width" parentElement) in
        let container :=
          setStyle "transformOrigin"
            (nstr (nneg (nadd parentLeft parentWidth)) +:+ "px -" +:+
             getStyle "top" parentElement) container in
        let container :=
          setStyle "left" (px (nadd parentLeft parentWidth)) container in
        let popup :=
          Popup.new_PopupElement container (color d) (title d)
            (modificationDate d) (contents d) None in
        let (wrapper, popup) := Popup.render true popup in
        appendChild wrapper (Popup.container popup)
    end.

(** [element.render()], by class. *)
Definition render_element (e : AnnotationElementObject) (layer : Element)
    (container : Element) : Completion Element :=
  match class e with
  | WidgetAnnotationElement => Normal container
  | PopupAnnotationElement =>
      Normal (render_popup (parameters e) layer container)
  | c => renderOther c (parameters e) layer container
  end.

(** The parameters that [AnnotationLayer.render] gives the factory. *)
Definition elementParameters (lp : LayerParameters) (d : AnnotationData)
    : Parameters :=
  {| data := d; page := lp_page lp; viewport := lp_viewport lp;
     linkService := lp_linkService lp;
     imageResourcesPath :=
       match js_or (lp_imageResourcesPath lp) (JStr "") with
       | JStr s => s
       | _ => ""
       end;
     renderInteractiveForms :=
       truthy (js_or (lp_renderInteractiveForms lp) (JBool false)) |}.

(** One turn of the loop of [AnnotationLayer.render], on the layer div.  An
    exception of the constructor or of [render] leaves the loop. *)
Definition renderAnnotation (lp : LayerParameters)
    (entry : option AnnotationData) : Exec Element unit :=
  λ div,
    match entry with
    | None => (Normal tt, div)
    | Some d =>
        match create (elementParameters lp d) with
        | Throw e => (Throw e, div)
        | Normal element =>
            if isRenderable element then
              match container element with
              | Some c =>
                  match render_element element div c with
                  | Normal rendered => (Normal tt, appendChild rendered div)
                  | Throw e => (Throw e, div)
                  end
              | None => (Normal tt, div)
              end
            else (Normal tt, div)
        end
    end.

(** [AnnotationLayer.render(parameters)] *)
Definition render (lp : LayerParameters) : Exec Element unit :=
  for_each (renderAnnotation lp) (annotations lp).

(** [parseFloat(value) / scale * factor + 'px'] *)
Definition rescale (value : string) (scale factor : N) : string :=
  px (nmul (ndiv (parseFloat value) scale) factor).

(** The callback given to [element.querySelectorAll('*').forEach]. *)
Definition rescaleInner (scale scaleX : N) (height : string) (e : Element)
    : Element :=
  let e := if negb (String.eqb (getStyle "fontSize" e) "") then
             setStyle "fontSize" (rescale (getStyle "fontSize" e) scale scaleX) e
           else e in
  let e := if negb (String.eqb (getStyle "width" e) "") then
             setStyle "width" (rescale (getStyle "width" e) scale scaleX) e
           else e in
  let e := if negb (String.eqb (getStyle "height" e) "") then
             setStyle "height" (rescale (getStyle "height" e) scale scaleX) e
           else e in
  if negb (String.eqb (getStyle "lineHeight" e) "") then
    setStyle "lineHeight" height e
  else e.

(** [g] applied to every element below [e]; text nodes have no style and are
    skipped. *)
Fixpoint mapDescendants (g : Element → Element) (e : Element) : Element :=
  setChildren
    ((fix forest (cs : list Element) : list Element :=
        match cs with
        | [] => []
        | c :: cs' =>
            (if String.eqb (tagName c) "#text" then c
             else g (mapDescendants g c)) :: forest cs'
        end) (children e)) e.

(** What [AnnotationLayer.update] does to the element it has found. *)
Definition rescaleElement (v : Viewport) (element : Element) : Element :=
  let scale := parseFloat (default "null" (getAttribute "scale" element)) in
  let scaleX := t0 (transform v) in
  let scaleY := t3 (transform v) in
  let element :=
    setStyle "left" (rescale (getStyle "left" element) scale scaleX) element in
  let element :=
    setStyle "top" (rescale (getStyle "top" element) scale scaleY) element in
  let element :=
    setStyle "width" (rescale (getStyle "width" element) scale scaleX)
      element in
  let element :=
    setStyle "height" (rescale (getStyle "height" element) scale scaleY)
      element in
  let element := setAttribute "scale" (nstr scaleX) element in
  mapDescendants (rescaleInner scale scaleX (getStyle "height" element))
    element.

(** One turn of the loop of [AnnotationLayer.update]. *)
Definition updateAnnotation (lp : LayerParameters)
    (entry : option AnnotationData) : Exec Element unit :=
  match entry with
  | None => throw (TypeError "data is null")
  | Some d =>
      modify (updateSelected "data-annotation-id" (id d)
                (rescaleElement (lp_viewport lp)))
  end.

(** [AnnotationLayer.update(parameters)] *)
Definition update (lp : LayerParameters) : Exec Element unit :=
  for_each (updateAnnotation lp) (annotations lp) ;;;
  modify (removeAttribute "hidden").

End V2.
End V2.

(** ** The revision with an annotation storage *)

Module V3.
Import Annot.
Section V3.
Context {N : Type} `{JsNumber N} `{!Util (N:=N)}.
Local Abbreviation Element := (@Element N).
Local Abbreviation AnnotationData := (@AnnotationData N).
Local Abbreviation Parameters := (@Parameters N).
Local Abbreviation AnnotationElementObject := (@AnnotationElementObject N).
Local Abbreviation LayerParameters := (@LayerParameters N).

(** [AnnotationStorage] comes from [annotation_storage.js], which is not
    among the sources: the storage and the two methods that are called on it
    are parameters. *)
Context {AnnotationStorage : Type} `{!StorageMethods (N:=N) AnnotationStorage}.

(** The [render] methods that are not spelled out below: each returns the
    container or throws.  The second argument is the layer, and the methods
    of the form widgets use the storage. *)
Context (renderOther : ElementClass → Parameters → Element → Element →
                       AnnotationStorage →
                       Completion Element * AnnotationStorage).

(** [AnnotationElementFactory.create]: the class that is instantiated. *)
Definition create_class (p : Parameters) : ElementClass :=
  let subtype := annotationType (data p) in
  if subtype =? AT_LINK then LinkAnnotationElement
  else if subtype =? AT_TEXT then TextAnnotationElement
  else if subtype =? AT_WIDGET then
    match fieldType (data p) with
    | Some fieldType =>
        if String.eqb fieldType "Tx" then TextWidgetAnnotationElement
        else if String.eqb fieldType "Btn" then
          if radioButton (data p) then RadioButtonWidgetAnnotationElement
          else if checkBox (data p) then CheckboxWidgetAnnotationElement
          else PushButtonWidgetAnnotationElement
        else if String.eqb fieldType "Ch" then ChoiceWidgetAnnotationElement
        else WidgetAnnotationElement
    | None => WidgetAnnotationElement
    end
  else if subtype =? AT_POPUP then PopupAnnotationElement
  else if subtype =? AT_FREETEXT then FreeTextAnnotationElement
  else if subtype =? AT_LINE then LineAnnotationElement
  else if subtype =? AT_SQUARE then SquareAnnotationElement
  else if subtype =? AT_CIRCLE then CircleAnnotationElement
  else if subtype =? AT_POLYLINE then PolylineAnnotationElement
  else if subtype =? AT_CARET then CaretAnnotationElement
  else if subtype =? AT_INK then InkAnnotationElement
  else if subtype =? AT_POLYGON then PolygonAnnotationElement
  else if subtype =? AT_HIGHLIGHT then HighlightAnnotationElement
  else if subtype =? AT_UNDERLINE then UnderlineAnnotationElement
  else if subtype =? AT_SQUIGGLY then SquigglyAnnotationElement
  else if subtype =? AT_STRIKEOUT then StrikeOutAnnotationElement
  else if subtype =? AT_STAMP then StampAnnotationElement
  else if subtype =? AT_FILEATTACHMENT then FileAttachmentAnnotationElement
  else AnnotationElement.

(** The [(isRenderable, ignoreBorder)] that each constructor passes to the
    base constructor. *)
Definition baseArguments (c : ElementClass) (p : Parameters) : bool * bool :=
  let d := data p in
  match c with
  | AnnotationElement | WidgetAnnotationElement => (false, false)
  | LinkAnnotationElement
  | PushButtonWidgetAnnotationElement => (hasLinkTarget d, false)
  | TextAnnotationElement => (hasPopupOrText d, false)
  | TextWidgetAnnotationElement =>
      (renderInteractiveForms p
       || (negb (hasAppearance d) && truthy (fieldValue d)), false)
  | CheckboxWidgetAnnotationElement
  | RadioButtonWidgetAnnotationElement
  | ChoiceWidgetAnnotationElement => (renderInteractiveForms p, false)
  | PopupAnnotationElement =>
      (negb (String.eqb (title d) "") || negb (String.eqb (contents d) ""),
       false)
  | FreeTextAnnotationElement
  | LineAnnotationElement
  | SquareAnnotationElement
  | CircleAnnotationElement
  | PolylineAnnotationElement
  | PolygonAnnotationElement
  | CaretAnnotationElement
  | InkAnnotationElement
  | HighlightAnnotationElement
  | UnderlineAnnotationElement
  | SquigglyAnnotationElement
  | StrikeOutAnnotationElement
  | StampAnnotationElement => (hasPopupOrText d, true)
  | FileAttachmentAnnotationElement => (true, false)
  end.

(** [AnnotationElement._createContainer(ignoreBorder)] *)
Definition _createContainer (p : Parameters) (ignoreBorder : bool) : Element :=
  let d := data p in
  let bs := borderStyle d in
  let container := createElement "section" in
  let width := nsub (r2 (rect d)) (r0 (rect d)) in
  let height := nsub (r3 (rect d)) (r1 (rect d)) in
  let container := setAttribute "data-annotation-id" (id d) container in
  let rect := normalizeRect (flippedRect d (page p)) in
  let container := setStyle "transform" (matrix (viewport p)) container in
  let container :=
    setStyle "transformOrigin"
      (nstr (nneg (r0 rect)) +:+ "px " +:+ nstr (nneg (r1 rect)) +:+ "px")
      container in
  let '(container, width, height) :=
    if borderDrawn ignoreBorder d then
      let container := setStyle "borderWidth" (px (bwidth bs)) container in
      let '(width, height) :=
        if negb (bstyle bs =? BS_UNDERLINE) then
          (nsub width (nmul (nlit 2) (bwidth bs)),
           nsub height (nmul (nlit 2) (bwidth bs)))
        else (width, height) in
      let horizontalRadius := horizontalCornerRadius bs in
      let verticalRadius := verticalCornerRadius bs in
      let container :=
        if ngt horizontalRadius (nlit 0) || ngt verticalRadius (nlit 0) then
          setStyle "borderRadius"
            (nstr horizontalRadius +:+ "px / " +:+ nstr verticalRadius +:+ "px")
            container
        else container in
      let container :=
        if (bstyle bs =? BS_SOLID) || (bstyle bs =? BS_INSET)
           || (bstyle bs =? BS_BEVELED) then
          setStyle "borderStyle" "solid" container
        else if bstyle bs =? BS_DASHED then
          setStyle "borderStyle" "dashed" container
        else if bstyle bs =? BS_UNDERLINE then
          setStyle "borderBottomStyle" "solid" container
        else container in
      (applyBorderColor d container, width, height)
    else (container, width, height) in
  let container := setStyle "left" (px (r0 rect)) container in
  let container := setStyle "top" (px (r1 rect)) container in
  let container := setStyle "width" (px width) container in
  setStyle "height" (px height) container.

(** [AnnotationElementFactory.create(parameters)] *)
Definition create (p : Parameters) : Completion AnnotationElementObject :=
  instantiate baseArguments _createContainer (create_class p) p.

(** [WidgetAnnotationElement._getCheckBoxStyle(type)] *)
Definition _getCheckBoxStyle (type : Z) : string :=
  if type =? CB_CHECK then "check"
  else if type =? CB_CIRCLE then "circle"
  else if type =? CB_CROSS then "cross"
  else if type =? CB_DIAMOND then "diamond"
  else if type =? CB_SQUARE then "square"
  else if type =? CB_STAR then "star"
  else "".

(** [WidgetAnnotationElement._getCheckmarkSymbols()]: the array, as a map
    from the index to the symbol. *)
Definition _getCheckmarkSymbols : gmap Z string :=
  <[CB_STAR := "★"]>
    (<[CB_SQUARE := "■"]>
       (<[CB_DIAMOND := "◆"]>
          (<[CB_CROSS := "✕"]>
             (<[CB_CIRCLE := "●"]> (<[CB_CHECK := "✓"]> ∅))))).

Definition symbolFor (checked : bool) (type : Z) : JsVal N :=
  if checked then
    match _getCheckmarkSymbols !! type with
    | Some symbol => JStr symbol
    | None => JUndefined
    end
  else JStr "".

(** [WidgetAnnotationElement._setBackgroundColor(element, color)] *)
Definition _setBackgroundColor (element : Element) (color : option Color)
    : Element :=
  match color with
  | Some c => setStyle "backgroundColor" (cssColor c) element
  | None => element
  end.

(** The class of the border given to the [input] element. *)
Definition borderClass (d : AnnotationData) (element : Element) : Element :=
  let element :=
    if bstyle (borderStyle d) =? BS_INSET then
      setProp "className" (JStr "inset") element
    else element in
  if bstyle (borderStyle d) =? BS_BEVELED then
    setProp "className" (JStr "beveled") element
  else element.

(** The span that shows the check mark. *)
Definition markSpan (d : AnnotationData) (checked : bool) (type : Z)
    (paddingType : Z) (container : Element) : Element :=
  let span := createElement "span" in
  let span := setProp "innerText" (symbolFor checked type) span in
  let fontSizeFactor :=
    if (checkBoxType d =? CB_CIRCLE) || (checkBoxType d =? CB_DIAMOND)
       || (checkBoxType d =? CB_SQUARE) then nfrac 3 2
    else nlit 1 in
  let fontSizeFactor :=
    if checkBoxType d =? CB_STAR then nfrac 1 2 else fontSizeFactor in
  let fontSizePadding :=
    if negb (paddingType =? CB_STAR)
       && ((bstyle (borderStyle d) =? BS_INSET)
           || (bstyle (borderStyle d) =? BS_BEVELED))
    then nlit 4 else nlit 0 in
  let span := setStyle "lineHeight" (getStyle "height" container) span in
  let span :=
    setStyle "fontSize"
      (px (nsub (nmul (parseFloat (getStyle "height" container))
                      fontSizeFactor) fontSizePadding)) span in
  setStyle "color" (fontColor d) span.

(** [e.className += suffix] *)
Definition appendClassName (suffix : string) (e : Element) : Element :=
  setProp "className" (JStr (className e +:+ suffix)) e.

(** [CheckboxWidgetAnnotationElement.render]: the [input] element, given
    the value read from the storage. *)
Definition checkboxInput (d : AnnotationData) (value : JsVal N) : Element :=
  let element := createElement "input" in
  let element :=
    setAttribute "annotation-name" (encodeURIComponent (fieldName d))
      element in
  let element :=
    setAttribute "annotation-value"
      (if truthy (buttonValue d)
       then encodeURIComponent (js_to_string (buttonValue d)) else "")
      element in
  let element := setProp "disabled" (JBool (readOnly d)) element in
  let element := setProp "type" (JStr "checkbox") element in
  let element := setProp "name" (JStr (fieldName d)) element in
  let element :=
    if truthy value then setAttribute "checked" "true" element else element in
  let element := setProp "checkBoxType" (JNum (nlit (checkBoxType d)))
                   element in
  borderClass d element.

(** [CheckboxWidgetAnnotationElement.render()] *)
Definition render_checkbox (p : Parameters) (container : Element)
    (storage : AnnotationStorage) : Element * AnnotationStorage :=
  let d := data p in
  let (value, storage) := getOrCreateValue storage (id d) (checkboxValue d) in
  let container :=
    setProp "className" (JStr "buttonWidgetAnnotation checkBox ") container in
  let container :=
    if negb (readOnly d) then setProp "title" (alternativeText d) container
    else container in
  let element := checkboxInput d value in
  let span := markSpan d (truthy value) (checkBoxType d) (checkBoxType d)
                container in
  let container := appendClassName (_getCheckBoxStyle (checkBoxType d))
                     container in
  let element := _setBackgroundColor element (backgroundColor d) in
  (appendChild span (appendChild element container), storage).

(** [RadioButtonWidgetAnnotationElement.render]: the [input] element, given
    the value read from the storage. *)
Definition radioInput (d : AnnotationData) (value : JsVal N)
    (container : Element) : Element :=
  let element := createElement "input" in
  let element := setProp "disabled" (JBool (readOnly d)) element in
  let element := setProp "name" (JStr (encodeURIComponent (fieldName d)))
                   element in
  let element :=
    setAttribute "annotation-name"
      (encodeURIComponent
         (fieldName d +:+ "_" +:+
          js_to_string (js_or (buttonValue d) (JStr ""))))
      element in
  let element := setProp "disabled" (JBool (readOnly d)) element in
  let element := setProp "type" (JStr "radio") element in
  let element := setProp "name" (JStr (fieldName d)) element in
  let element :=
    if truthy value then setAttribute "checked" "true" element else element in
  let element :=
    setProp "radioButtonType" (JNum (nlit (radioButtonType d))) element in
  let element :=
    if radioButtonType d =? CB_CIRCLE then
      setStyle "width" (getStyle "height" container) element
    else element in
  borderClass d element.

(** [RadioButtonWidgetAnnotationElement.render()] *)
Definition render_radio (p : Parameters) (container : Element)
    (storage : AnnotationStorage) : Element * AnnotationStorage :=
  let d := data p in
  let container :=
    setProp "className" (JStr "buttonWidgetAnnotation radioButton ")
      container in
  let (value, storage) := getOrCreateValue storage (id d) (radioValue d) in
  let container :=
    if negb (readOnly d) then setProp "title" (alternativeText d) container
    else container in
  let element := radioInput d value container in
  let container :=
    if radioButtonType d =? CB_CIRCLE then
      setProp "borderRadius" (JStr "50%")
        (setStyle "width" (getStyle "height" container) container)
    else container in
  let span := markSpan d (truthy value) (radioButtonType d)
                (radioButtonType d) container in
  let container := appendClassName (_getCheckBoxStyle (radioButtonType d))
                     container in
  let element := _setBackgroundColor element (backgroundColor d) in
  (appendChild span (appendChild element container), storage).

Definition IGNORE_TYPES : list string :=
  ["Line"; "Square"; "Circle"; "PolyLine"; "Polygon"; "Ink"].

(** [PopupAnnotationElement.render()] *)
Definition render_popup (p : Parameters) (layer container : Element)
    : Element :=
  let d := data p in
  let container := setProp "className" (JStr "popupAnnotation") container in
  if bool_decide (parentType d ∈ IGNORE_TYPES) then container
  else
    match querySelector "data-annotation-id" (parentId d) layer with
    | None => container
    | Some parentElement =>
        let parentTop := parseFloat (getStyle "top" parentElement) in
        let parentLeft := parseFloat (getStyle "left" parentElement) in
        let parentWidth := parseFloat (getStyle "width" parentElement) in
        let popupLeft := nadd parentLeft parentWidth in
        let container :=
          setStyle "transformOrigin"
            (nstr (nneg popupLeft) +:+ "px " +:+ nstr (nneg parentTop) +:+ "px")
            container in
        let container := setStyle "left" (px popupLeft) container in
        let popup :=
          Popup.new_PopupElement container (color d) (title d)
            (modificationDate d) (contents d) None in
        let (wrapper, popup) := Popup.render true popup in
        appendChild wrapper (Popup.container popup)
    end.

(** [ChoiceWidgetAnnotationElement.render()].  The first item of the field
    value is stored before anything is built.  For a list box with multiple
    selection the method then calls [selectElement.setAtttibute], a method
    that no element has: a TypeError (the message is the engine's), with
    which the [select] element made so far is lost.  The statements that
    build the list box or the combo box in the other cases are
    [renderOther]. *)
Definition render_choice (p : Parameters) (layer container : Element)
    (storage : AnnotationStorage) : Completion Element * AnnotationStorage :=
  let d := data p in
  let container :=
    setProp "className" (JStr "choiceWidgetAnnotation") container in
  match firstFieldValue (fieldValue d) with
  | Throw e => (Throw e, storage)
  | Normal value =>
      let (_, storage) := getOrCreateValue storage (id d) value in
      if negb (combo d) && multiSelect d then
        (Throw (TypeError "selectElement.setAtttibute is not a function"),
         storage)
      else renderOther ChoiceWidgetAnnotationElement p layer container storage
  end.

(** [element.render()], by class. *)
Definition render_element (e : AnnotationElementObject) (layer : Element)
    (container : Element) (storage : AnnotationStorage)
    : Completion Element * AnnotationStorage :=
  match class e with
  | WidgetAnnotationElement => (Normal container, storage)
  | CheckboxWidgetAnnotationElement =>
      let (rendered, storage) :=
        render_checkbox (parameters e) container storage in
      (Normal rendered, storage)
  | RadioButtonWidgetAnnotationElement =>
      let (rendered, storage) :=
        render_radio (parameters e) container storage in
      (Normal rendered, storage)
  | ChoiceWidgetAnnotationElement =>
      render_choice (parameters e) layer container storage
  | PopupAnnotationElement =>
      (Normal (render_popup (parameters e) layer container), storage)
  | c => renderOther c (parameters e) layer container storage
  end.

(** The first loop of [AnnotationLayer.render]: the entries that are not
    [null], the Popup annotations moved behind the others. *)
Fixpoint sortAnnotations (annotations : list (option AnnotationData))
    (sortedAnnotations popupAnnotations : list AnnotationData)
    : list AnnotationData * list AnnotationData :=
  match annotations with
  | [] => (sortedAnnotations, popupAnnotations)
  | None :: rest => sortAnnotations rest sortedAnnotations popupAnnotations
  | Some d :: rest =>
      if annotationType d =? AT_POPUP then
        sortAnnotations rest sortedAnnotations (popupAnnotations ++ [d])%list
      else
        sortAnnotations rest (sortedAnnotations ++ [d])%list popupAnnotations
  end.

Definition sortedAnnotations (annotations : list (option AnnotationData))
    : list AnnotationData :=
  let (sortedAnnotations, popupAnnotations) :=
    sortAnnotations annotations [] [] in
  if bool_decide (popupAnnotations = []) then sortedAnnotations
  else (sortedAnnotations ++ popupAnnotations)%list.

(** The parameters that [AnnotationLayer.render] gives the factory. *)
Definition elementParameters (lp : LayerParameters) (d : AnnotationData)
    : Parameters :=
  {| data := d; page := lp_page lp; viewport := lp_viewport lp;
     linkService := lp_linkService lp;
     imageResourcesPath :=
       match js_or (lp_imageResourcesPath lp) (JStr "") with
       | JStr s => s
       | _ => ""
       end;
     renderInteractiveForms :=
       match lp_renderInteractiveForms lp with
       | JBool b => b
       | _ => true
       end |}.

(** One turn of the second loop of [AnnotationLayer.render].  The state is
    the layer div and [parameters.annotationStorage], which all the elements
    share when the caller gives one; when it gives none, every element gets
    a storage of its own ([parameters.annotationStorage || new
    AnnotationStorage()] is evaluated in each turn), which is dropped with
    the element.  An exception of the constructor or of [render] leaves the
    loop. *)
Definition renderAnnotation (lp : LayerParameters) (d : AnnotationData)
    : Exec (Element * option AnnotationStorage) unit :=
  λ state,
    let (div, given) := state in
    match create (elementParameters lp d) with
    | Throw e => (Throw e, state)
    | Normal element =>
        if isRenderable element then
          match container element with
          | Some c =>
              let (rendered, storage) :=
                render_element element div c
                  (default newAnnotationStorage given) in
              match rendered with
              | Normal rendered =>
                  (Normal tt,
                   (appendChild rendered div, (λ _, storage) <$> given))
              | Throw e => (Throw e, (div, (λ _, storage) <$> given))
              end
          | None => (Normal tt, state)
          end
        else (Normal tt, state)
    end.

(** [AnnotationLayer.render(parameters)]; [given] is
    [parameters.annotationStorage]. *)
Definition render (lp : LayerParameters) (given : option AnnotationStorage)
    (div : Element)
    : Completion unit * (Element * option AnnotationStorage) :=
  for_each (renderAnnotation lp) (sortedAnnotations (annotations lp))
           (div, given).

(** One turn of the loop of [AnnotationLayer.update]. *)
Definition updateAnnotation (lp : LayerParameters)
    (entry : option AnnotationData) : Exec Element unit :=
  match entry with
  | None => throw (TypeError "data is null")
  | Some d =>
      modify (updateSelected "data-annotation-id" (id d)
                (setStyle "transform" (matrix (lp_viewport lp))))
  end.

(** [AnnotationLayer.update(parameters)] *)
Definition update (lp : LayerParameters) : Exec Element unit :=
  for_each (updateAnnotation lp) (annotations lp) ;;;
  modify (removeAttribute "hidden").

End V3.
End V3.

(** ** The arrays that [_createContainer] reads *)

Module Arrays.
Import Annot.
Section Arrays.
Context {N : Type} `{JsNumber N}.

(** The modules above give [_createContainer] the numbers that [data.rect]
    and [page.view] hold.  Here the arrays of four numbers are objects in a
    store, so that an array can be told from a copy of it: [data.rect] and
    [page.view] are references, and a reference is an index of the store. *)
Definition Store : Type := list (@Rect N).

(** Reading the entries of the array at [a]. *)
Definition readArray (a : nat) : Exec Store (@Rect N) :=
  λ st, match st !! a with
        | Some r => (Normal r, st)
        | None => (Throw (TypeError "no such array"), st)
        end.

(** An array literal: a new object. *)
Definition newArray (r : @Rect N) : Exec Store nat :=
  λ st, (Normal (length st), st ++ [r]).

(** [Util.normalizeRect], given a reference: [shared/util] is not among the
    sources, so the function is a parameter.  It returns a reference and may
    write to the store. *)
Context (normalizeRectAt : nat → Exec Store nat).

(** The statements of [_createContainer] that touch [data.rect]: they
    compute [width] and [height] and the rectangle [rect], whose entries the
    method reads when it places the container. *)
Definition containerRect (dataRect pageView : nat)
    : Exec Store (N * N * @Rect N) :=
  let! rect := readArray dataRect in
  let width := nsub (r2 rect) (r0 rect) in
  let height := nsub (r3 rect) (r1 rect) in
  let! view := readArray pageView in
  let! literal :=
    newArray (mkRect (r0 rect)
                     (nadd (nsub (r3 view) (r1 rect)) (r1 view))
                     (r2 rect)
                     (nadd (nsub (r3 view) (r3 rect)) (r1 view))) in
  let! normalized := normalizeRectAt literal in
  let! rect := readArray normalized in
  exec_ret (width, height, rect).

End Arrays.
End Arrays.

(** ** Concrete values for the examples *)

Module Sample.
Import Annot.

(** [Util.normalizeRect] as pdf.js defines it: the corners are ordered. *)
Definition orderCorners (r : @Rect Z) : @Rect Z :=
  mkRect (if r0 r >? r2 r then r2 r else r0 r)
         (if r1 r >? r3 r then r3 r else r1 r)
         (if r0 r >? r2 r then r0 r else r2 r)
         (if r1 r >? r3 r then r1 r else r3 r).

(** The constants of pdf.js; the helpers are simple stand-ins.  The theorems
    do not depend on this instance, only the concrete runs do. *)
#[export] Instance pdfjs : Util (N:=Z) := {|
  AT_TEXT := 1; AT_LINK := 2; AT_FREETEXT := 3; AT_LINE := 4; AT_SQUARE := 5;
  AT_CIRCLE := 6; AT_POLYGON := 7; AT_POLYLINE := 8; AT_HIGHLIGHT := 9;
  AT_UNDERLINE := 10; AT_SQUIGGLY := 11; AT_STRIKEOUT := 12; AT_STAMP := 13;
  AT_CARET := 14; AT_INK := 15; AT_POPUP := 16; AT_FILEATTACHMENT := 17;
  AT_WIDGET := 20;
  BS_SOLID := 1; BS_DASHED := 2; BS_BEVELED := 3; BS_INSET := 4;
  BS_UNDERLINE := 5;
  CB_CHECK := 0; CB_CIRCLE := 1; CB_CROSS := 2; CB_DIAMOND := 3;
  CB_SQUARE := 4; CB_STAR := 5;
  normalizeRect := orderCorners;
  makeCssRgb := λ r g b,
    "rgb(" +:+ Z_to_string r +:+ "," +:+ Z_to_string g +:+ "," +:+
    Z_to_string b +:+ ")";
  encodeURIComponent := λ s, s;
  customStyleName := λ name, Some name;
  defaultImageResourcesPath := "";
  dateArguments := λ _, None;
|}.

Definition noBorder : @BorderStyle Z :=
  {| bwidth := 0; bstyle := 1; horizontalCornerRadius := 0;
     verticalCornerRadius := 0 |}.

(** An annotation with the given identifier and type and no other content. *)
Definition blank (id : string) (type : Z) : @AnnotationData Z :=
  {| id := id; annotationType := type; rect := mkRect 10 20 110 70;
     borderStyle := noBorder; borderColor := None; color := None;
     fieldType := None; radioButton := false; checkBox := false;
     hasPopup := false; title := ""; contents := "";
     modificationDate := JUndefined; url := JUndefined; dest := JUndefined;
     action := JUndefined; hasAppearance := false; fieldValue := JUndefined;
     buttonValue := JUndefined; fieldName := ""; readOnly := false;
     alternativeText := JUndefined; checkBoxType := 0; radioButtonType := 0;
     fontColor := ""; backgroundColor := None; parentType := "";
     parentId := ""; combo := false; multiSelect := false; file := None |}.

Definition with_text (title contents : string) (d : @AnnotationData Z)
    : @AnnotationData Z :=
  {| id := id d; annotationType := annotationType d; rect := rect d;
     borderStyle := borderStyle d; borderColor := borderColor d;
     color := color d; fieldType := fieldType d; radioButton := radioButton d;
     checkBox := checkBox d; hasPopup := hasPopup d; title := title;
     contents := contents; modificationDate := modificationDate d;
     url := url d; dest := dest d; action := action d;
     hasAppearance := hasAppearance d; fieldValue := fieldValue d;
     buttonValue := buttonValue d; fieldName := fieldName d;
     readOnly := readOnly d; alternativeText := alternativeText d;
     checkBoxType := checkBoxType d; radioButtonType := radioButtonType d;
     fontColor := fontColor d; backgroundColor := backgroundColor d;
     parentType := parentType d; parentId := parentId d; combo := combo d;
     multiSelect := multiSelect d; file := file d |}.

Definition with_parent (parentType parentId : string) (d : @AnnotationData Z)
    : @AnnotationData Z :=
  {| id := id d; annotationType := annotationType d; rect := rect d;
     borderStyle := borderStyle d; borderColor := borderColor d;
     color := color d; fieldType := fieldType d; radioButton := radioButton d;
     checkBox := checkBox d; hasPopup := hasPopup d; title := title d;
     contents := contents d; modificationDate := modificationDate d;
     url := url d; dest := dest d; action := action d;
     hasAppearance := hasAppearance d; fieldValue := fieldValue d;
     buttonValue := buttonValue d; fieldName := fieldName d;
     readOnly := readOnly d; alternativeText := alternativeText d;
     checkBoxType := checkBoxType d; radioButtonType := radioButtonType d;
     fontColor := fontColor d; backgroundColor := backgroundColor d;
     parentType := parentType; parentId := parentId; combo := combo d;
     multiSelect := multiSelect d; file := file d |}.

Definition with_border (bs : @BorderStyle Z) (bc : option (@Color Z))
    (d : @AnnotationData Z) : @AnnotationData Z :=
  {| id := id d; annotationType := annotationType d; rect := rect d;
     borderStyle := bs; borderColor := bc;
     color := color d; fieldType := fieldType d; radioButton := radioButton d;
     checkBox := checkBox d; hasPopup := hasPopup d; title := title d;
     contents := contents d; modificationDate := modificationDate d;
     url := url d; dest := dest d; action := action d;
     hasAppearance := hasAppearance d; fieldValue := fieldValue d;
     buttonValue := buttonValue d; fieldName := fieldName d;
     readOnly := readOnly d; alternativeText := alternativeText d;
     checkBoxType := checkBoxType d; radioButtonType := radioButtonType d;
     fontColor := fontColor d; backgroundColor := backgroundColor d;
     parentType := parentType d; parentId := parentId d; combo := combo d;
     multiSelect := multiSelect d; file := file d |}.

(** A button widget with the given field and button values. *)
Definition button (id : string) (radio : bool) (fieldValue buttonValue : JsVal Z)
    : @AnnotationData Z :=
  let d := blank id 20 in
  {| id := id; annotationType := 20; rect := rect d;
     borderStyle := borderStyle d; borderColor := borderColor d;
     color := color d; fieldType := Some "Btn"; radioButton := radio;
     checkBox := negb radio; hasPopup := hasPopup d; title := title d;
     contents := contents d; modificationDate := modificationDate d;
     url := url d; dest := dest d; action := action d;
     hasAppearance := hasAppearance d; fieldValue := fieldValue;
     buttonValue := buttonValue; fieldName := "field";
     readOnly := readOnly d; alternativeText := alternativeText d;
     checkBoxType := checkBoxType d; radioButtonType := radioButtonType d;
     fontColor := fontColor d; backgroundColor := backgroundColor d;
     parentType := parentType d; parentId := parentId d; combo := combo d;
     multiSelect := multiSelect d; file := file d |}.

Definition a4page : @Page Z :=
  {| view := mkRect 0 0 595 842; pageNumber := 1 |}.

Definition scaled (k : Z) : @Viewport Z :=
  {| transform := mkTransform k 0 0 k 0 0 |}.

(** A link service that takes every notification. *)
Definition links : @LinkService Z :=
  {| onFileAttachmentAnnotation := λ _, Normal tt |}.

Definition layerParameters (k : Z) (l : list (option (@AnnotationData Z)))
    : @LayerParameters Z :=
  {| lp_viewport := scaled k; annotations := l; lp_page := a4page;
     lp_linkService := links; lp_imageResourcesPath := JUndefined;
     lp_renderInteractiveForms := JBool true |}.

Definition elementParameters (k : Z) (d : @AnnotationData Z)
    : @Parameters Z :=
  {| data := d; page := a4page; viewport := scaled k; linkService := links;
     imageResourcesPath := ""; renderInteractiveForms := true |}.

(** A stand-in for the class-specific [render] methods that are left
    abstract: it names the class of the container and never throws. *)
Definition plainBody (c : ElementClass) (p : @Parameters Z)
    (layer container : @Element Z) : Completion (@Element Z) :=
  Normal (setProp "className" (JStr "annotation") container).

Definition plainStoredBody (c : ElementClass) (p : @Parameters Z)
    (layer container : @Element Z) (storage : gmap string (JsVal Z))
    : Completion (@Element Z) * gmap string (JsVal Z) :=
  (Normal (setProp "className" (JStr "annotation") container), storage).

Definition layerDiv : @Element Z :=
  setAttribute "hidden" "true"
    (setProp "className" (JStr "annotationLayer") (createElement "div")).

End Sample.

(** ** The page loop of the print service *)

Module PrintJob.
Import PrintService.
Section Job.
Context {N : Type} `{JsNumber N}.

(** The chain of callbacks that [renderPages] sets up: as long as
    [renderNextPage] asks for a page, [renderPage] delivers its SVG and the
    callback that receives it appends it and calls [renderNextPage] again.
    [renderPage] stands for the result of the function of that name; each
    turn of the chain uses one unit of [fuel]. *)
Fixpoint renderRemaining (renderPage : Z → string) (this : nat) (fuel : nat)
    (step : RenderStep) : Exec (@World N) RenderStep :=
  match fuel, step with
  | S fuel', AwaitPage pageNumber =>
      let! step' := onPageRendered this (renderPage pageNumber) in
      renderRemaining renderPage this fuel' step'
  | _, _ => exec_ret step
  end.

(** The first call [renderNextPage()] and the chain it starts. *)
Definition renderAllPages (renderPage : Z → string) (this : nat) (fuel : nat)
    : Exec (@World N) RenderStep :=
  let! step := renderNextPage this in
  renderRemaining renderPage this fuel step.

End Job.
End PrintJob.

(** ** The [render] methods that create their own popup *)

Module Bodies.
Import Annot.
Section Render.
Context {N : Type} `{JsNumber N} `{!Util (N:=N)}.
Local Abbreviation Element := (@Element N).
Local Abbreviation AnnotationData := (@AnnotationData N).
Local Abbreviation Parameters := (@Parameters N).

(** The trigger that [_createPopup] and the file attachment create: a [div]
    of the height and width of the container. *)
Definition triggerDiv (container : Element) : Element :=
  setStyle "width" (getStyle "width" container)
    (setStyle "height" (getStyle "height" container) (createElement "div")).

(** [AnnotationElement._createPopup(container, trigger, data)].  The trigger,
    when one is given, only receives the listeners of the popup.  [dated]
    tells whether the revision hands [data.modificationDate] to the popup
    (the two later revisions do). *)
Definition _createPopup (dated : bool) (container : Element)
    (trigger : option Element) (d : AnnotationData) : Element :=
  let container :=
    match trigger with
    | Some _ => container
    | None => appendChild (triggerDiv container) container
    end in
  let popupElement :=
    Popup.new_PopupElement container (color d) (title d)
      (if dated then modificationDate d else JUndefined) (contents d)
      (Some true) in
  let (popup, popupElement) := Popup.render dated popupElement in
  let popup := setStyle "left" (getStyle "width" container) popup in
  appendChild popup (Popup.container popupElement).

(** The class name that [render] gives the container, for the classes whose
    [render] does nothing else than create the popup. *)
Definition markupClassName (c : ElementClass) : option string :=
  match c with
  | FreeTextAnnotationElement => Some "freeTextAnnotation"
  | CaretAnnotationElement => Some "caretAnnotation"
  | HighlightAnnotationElement => Some "highlightAnnotation"
  | UnderlineAnnotationElement => Some "underlineAnnotation"
  | SquigglyAnnotationElement => Some "squigglyAnnotation"
  | StrikeOutAnnotationElement => Some "strikeoutAnnotation"
  | StampAnnotationElement => Some "stampAnnotation"
  | _ => None
  end.

(** [HighlightAnnotationElement.render()] and its like. *)
Definition render_markup (dated : bool) (name : string) (p : Parameters)
    (container : Element) : Element :=
  let container := setProp "className" (JStr name) container in
  if negb (hasPopup (data p)) then _createPopup dated container None (data p)
  else container.

(** [FileAttachmentAnnotationElement.render()] *)
Definition render_fileAttachment (dated : bool) (p : Parameters)
    (container : Element) : Element :=
  let d := data p in
  let container :=
    setProp "className" (JStr "fileAttachmentAnnotation") container in
  let trigger := triggerDiv container in
  let container :=
    if negb (hasPopup d)
       && (negb (String.eqb (title d) "") || negb (String.eqb (contents d) ""))
    then _createPopup dated container (Some trigger) d
    else container in
  appendChild trigger container.

(** [element.render()] for the classes above.  The [render] methods of the
    other classes are [rest]; a revision that lacks one of the classes above
    never creates an element of it. *)
Definition render_other (dated : bool)
    (rest : ElementClass → Parameters → Element → Element →
            Completion Element)
    (cls : ElementClass) (p : Parameters) (layer container : Element)
    : Completion Element :=
  match markupClassName cls with
  | Some name => Normal (render_markup dated name p container)
  | None =>
      match cls with
      | FileAttachmentAnnotationElement =>
          Normal (render_fileAttachment dated p container)
      | _ => rest cls p layer container
      end
  end.

(** [this.svgFactory], which comes from [display_utils]: the element it
    creates for a width and a height, and the element it creates for a
    name. *)
Context (svgCreate : N → N → Element) (svgCreateElement : string → Element).

(** An entry of [data.vertices] or of an ink list. *)
Record Point := { x : N; y : N }.

(** The [points] of a polyline: ["x1,y1 x2,y2 ..."], in the coordinates of
    the SVG element. *)
Definition pointsOf (d : AnnotationData) (coordinates : list Point) : string :=
  String.concat " "
    ((λ coordinate,
        nstr (nsub (x coordinate) (r0 (rect d))) +:+ "," +:+
        nstr (nsub (r3 (rect d)) (y coordinate))) <$> coordinates).

(** The invisible polyline that triggers the popup;
    ['stroke-width'] is [data.borderStyle.width || 1]. *)
Definition polylineOf (svgElementName : string) (d : AnnotationData)
    (coordinates : list Point) : Element :=
  let polyline := svgCreateElement svgElementName in
  let polyline := setAttribute "points" (pointsOf d coordinates) polyline in
  let polyline :=
    setAttribute "stroke-width"
      (nstr (if ntruthy (bwidth (borderStyle d)) then bwidth (borderStyle d)
             else nlit 1)) polyline in
  let polyline := setAttribute "stroke" "transparent" polyline in
  setAttribute "fill" "none" polyline.

(** [PolylineAnnotationElement.render()], also for polygons: the two differ
    in [containerClassName] and [svgElementName]. *)
Definition render_polyline (containerClassName svgElementName : string)
    (p : Parameters) (vertices : list Point) (container : Element) : Element :=
  let d := data p in
  let container := setProp "className" (JStr containerClassName) container in
  let width := nsub (r2 (rect d)) (r0 (rect d)) in
  let height := nsub (r3 (rect d)) (r1 (rect d)) in
  let svg := svgCreate width height in
  let polyline := polylineOf svgElementName d vertices in
  let svg := appendChild polyline svg in
  let container := appendChild svg container in
  _createPopup true container (Some polyline) d.

(** One turn of the loop of [InkAnnotationElement.render]: the polyline of
    an ink list gets a popup of its own and is added to the SVG element. *)
Definition inkTurn (d : AnnotationData) (state : Element * Element)
    (inkList : list Point) : Element * Element :=
  let (container, svg) := state in
  let polyline := polylineOf "svg:polyline" d inkList in
  (_createPopup true container (Some polyline) d, appendChild polyline svg).

(** [InkAnnotationElement.render()] *)
Definition render_ink (p : Parameters) (inkLists : list (list Point))
    (container : Element) : Element :=
  let d := data p in
  let container := setProp "className" (JStr "inkAnnotation") container in
  let width := nsub (r2 (rect d)) (r0 (rect d)) in
  let height := nsub (r3 (rect d)) (r1 (rect d)) in
  let svg := svgCreate width height in
  let (container, svg) := fold_left (inkTurn d) inkLists (container, svg) in
  appendChild svg container.

End Render.
End Bodies.

(** ** The print request of [window.print] *)

Module PrintRequest.
Import PrintService PrintJob.
Section Request.
Context {N : Type} `{JsNumber N}.

(** What comes back for the request that [renderPages] sends to the
    transformation service. *)
Inductive Response :=
  | NoAnswer      (* [xhr.onerror], or a status outside 200..299 *)
  | NoForm        (* a status 2xx whose body does not parse or has no form *)
  | NoDocument    (* a form that [getDocument] rejects *)
  | Document.     (* a form that [getDocument] loads *)

(** The state of a promise. *)
Inductive Settlement := Pending | Fulfilled | Rejected.

(** [renderPages()], up to the promise it returns.  An exception in the
    callback of [getDocument] or of [renderPage] rejects the promise of that
    callback only: the promise of [renderPages] is neither resolved nor
    rejected then, and stays pending. *)
Definition renderPages (response : Response) (renderPage : Z → string)
    (this : nat) (fuel : nat) : Exec (@World N) Settlement :=
  let! s := self this in
  let pageCount := Z.of_nat (length (pagesOverview s)) in
  renderProgress 0 (pageCount + 1) ;;;
  match response with
  | NoAnswer => exec_ret Rejected
  | NoForm => renderProgress 1 (pageCount + 1) ;;; exec_ret Rejected
  | NoDocument => renderProgress 1 (pageCount + 1) ;;; exec_ret Pending
  | Document =>
      renderProgress 1 (pageCount + 1) ;;;
      λ w, match renderAllPages renderPage this fuel w with
           | (Normal Resolved, w') => (Normal Fulfilled, w')
           | (_, w') => (Normal Pending, w')
           end
  end.

(** [if (activeServiceOnEntry.active) { abort(); }] *)
Definition abortIfActive (activeServiceOnEntry : nat) : Exec (@World N) unit :=
  λ w, if active activeServiceOnEntry w then abort w else (Normal tt, w).

(** The chain that [window.print] attaches to the service that is active
    after [beforeprint]:
    [renderPages().then(performPrint).catch(ignore).then(abort if active)].
    The promise of [performPrint] is taken to resolve; an exception of
    [performPrint] is caught like a rejection of [renderPages]. *)
Definition printRequest (response : Response) (renderPage : Z → string)
    (activeServiceOnEntry : nat) (fuel : nat) : Exec (@World N) Settlement :=
  let! rendered := renderPages response renderPage activeServiceOnEntry fuel in
  match rendered with
  | Pending => exec_ret Pending
  | Fulfilled =>
      (λ w, (Normal tt, (performPrint activeServiceOnEntry w).2)) ;;;
      abortIfActive activeServiceOnEntry ;;;
      exec_ret Fulfilled
  | Rejected =>
      abortIfActive activeServiceOnEntry ;;;
      exec_ret Fulfilled
  end.

End Request.
End PrintRequest.

(* ====================================================================== *)
(** * Properties *)
(* ====================================================================== *)

Example Z_to_string_ex : Z_to_string 1204 = "1204" ∧ Z_to_string (-7) = "-7"
  ∧ Z_of_string "-35px" = -35.
Proof. repeat split; reflexivity. Qed.


(** ** The document tree *)

Module DomTheory.
Import Dom.
Section Tree.
Context {N : Type} `{JsNumber N}.
Implicit Types (e c : @Element N) (cs : list (@Element N)).
Implicit Types (q : @Element N → bool) (f : @Element N → @Element N).

Lemma hasAttribute_setAttribute name value e :
  hasAttribute name (setAttribute name value e) = true.
Proof.
  unfold hasAttribute, setAttribute. simpl. apply bool_decide_eq_true.
  rewrite lookup_insert_eq. by eexists.
Qed.

Lemma hasAttribute_removeAttribute name e :
  hasAttribute name (removeAttribute name e) = false.
Proof.
  unfold hasAttribute, removeAttribute. simpl. apply bool_decide_eq_false.
  rewrite lookup_delete_eq. by intros [? ?].
Qed.

Lemma hasAttribute_setStyle name prop value e :
  hasAttribute name (setStyle prop value e) = hasAttribute name e.
Proof. done. Qed.

Lemma hasAttribute_appendChild name c e :
  hasAttribute name (appendChild c e) = hasAttribute name e.
Proof. done. Qed.

Lemma attributes_setStyle prop value e :
  attributes (setStyle prop value e) = attributes e.
Proof. done. Qed.

Lemma attributes_setProp name v e :
  attributes (setProp name v e) = attributes e.
Proof. done. Qed.

Lemma attributes_appendChild c e :
  attributes (appendChild c e) = attributes e.
Proof. done. Qed.

Lemma getAttribute_setAttribute_ne name name' value e :
  name ≠ name' →
  attributes (setAttribute name' value e) !! name = attributes e !! name.
Proof. intros Hne. simpl. by rewrite lookup_insert_ne. Qed.

Lemma getStyle_setStyle prop value e :
  getStyle prop (setStyle prop value e) = value.
Proof. unfold getStyle. simpl. by rewrite lookup_insert_eq. Qed.

Lemma getStyle_setStyle_ne prop prop' value e :
  prop ≠ prop' → getStyle prop (setStyle prop' value e) = getStyle prop e.
Proof. intros Hne. unfold getStyle. simpl. by rewrite lookup_insert_ne. Qed.

(** Induction on the tree. *)
Lemma Element_tree_ind (P : @Element N → Prop) :
  (∀ e, Forall P (children e) → P e) → ∀ e, P e.
Proof.
  intros Hstep. fix IH 1. intros [tag attrs ps st cs]. apply Hstep. simpl.
  induction cs as [|c cs IHcs]; constructor; [apply IH | exact IHcs].
Qed.

Lemma subtree_unfold e : subtree e = e :: flat_map subtree (children e).
Proof.
  by destruct e.
Qed.

Lemma updateFirstIn_unfold q f e :
  updateFirstIn q f e
  = if q e then Some (f e)
    else option_map (λ cs, setChildren cs e)
           (updateFirstForest q f (children e)).
Proof.
  destruct e as [tag attrs ps st cs]. simpl. destruct (q _); [done|].
  f_equal. induction cs as [|c cs IHcs]; simpl; [done|].
  destruct (updateFirstIn q f c); [done|]. by rewrite IHcs.
Qed.


(** Nothing in the tree satisfies [q]: there is nothing to update. *)
Lemma updateFirstIn_None q f e :
  Forall (λ x, q x = false) (subtree e) → updateFirstIn q f e = None.
Proof.
  induction e as [e IH] using Element_tree_ind. intros Hall.
  rewrite updateFirstIn_unfold. rewrite subtree_unfold in Hall.
  apply Forall_cons in Hall as [-> Hrest].
  destruct (children e) as [|c cs] eqn:Hcs; [done|].
  assert (Hnone : ∀ l : list (@Element N),
             Forall (λ c, Forall (λ x, q x = false) (subtree c)
                          → updateFirstIn q f c = None) l →
             Forall (λ x, q x = false) (flat_map subtree l) →
             updateFirstForest q f l = None).
  { clear. induction l as [|c' l IHl]; intros Hih Hall; [done|]. simpl in *.
    apply Forall_cons in Hih as [Hc Hih].
    apply Forall_app in Hall as [Hhead Htail].
    rewrite (Hc Hhead), (IHl Hih Htail). done. }
  by rewrite (Hnone (c :: cs) IH Hrest).
Qed.

(** A child whose descendants do not satisfy [q] is updated, or skipped, as a
    whole. *)
Lemma updateFirstIn_bare q f c :
  Forall (λ x, q x = false) (flat_map subtree (children c)) →
  updateFirstIn q f c = if q c then Some (f c) else None.
Proof.
  intros Hbelow. destruct (q c) eqn:Hq.
  - rewrite updateFirstIn_unfold. by rewrite Hq.
  - apply updateFirstIn_None. rewrite subtree_unfold. by constructor.
Qed.

(** The same on a list of such children: the first one that satisfies [q]
    is replaced. *)
Lemma updateFirstForest_bare q f cs :
  Forall (λ c, Forall (λ x, q x = false) (flat_map subtree (children c))) cs →
  updateFirstForest q f cs
  = (λ ix, alter f ix.1 cs) <$> list_find (λ c, Is_true (q c)) cs.
Proof.
  induction cs as [|c cs IH]; intros Hbare; [done|]. simpl.
  apply Forall_cons in Hbare as [Hc Hcs].
  rewrite (updateFirstIn_bare q f c Hc).
  destruct (q c) eqn:Hq.
  - by rewrite decide_True.
  - rewrite decide_False by (by intros []). rewrite (IH Hcs).
    destruct (list_find _ cs) as [[i x]|]; done.
Qed.

End Tree.

Lemma attributes_setAttribute {N} name value (e : @Element N) :
  attributes (setAttribute name value e) = <[name := value]> (attributes e).
Proof. done. Qed.
Lemma attributes_removeAttribute {N} name (e : @Element N) :
  attributes (removeAttribute name e) = delete name (attributes e).
Proof. done. Qed.
Lemma attributes_setChildren {N} cs (e : @Element N) :
  attributes (setChildren cs e) = attributes e.
Proof. done. Qed.
Lemma attributes_createElement {N} tag :
  attributes (createElement (N:=N) tag) = ∅.
Proof. done. Qed.
Lemma style_setStyle {N} prop value (e : @Element N) :
  style (setStyle prop value e) = <[prop := value]> (style e).
Proof. done. Qed.
Lemma style_setAttribute {N} name value (e : @Element N) :
  style (setAttribute name value e) = style e.
Proof. done. Qed.
Lemma style_removeAttribute {N} name (e : @Element N) :
  style (removeAttribute name e) = style e.
Proof. done. Qed.
Lemma style_setProp {N} name v (e : @Element N) :
  style (setProp name v e) = style e.
Proof. done. Qed.
Lemma style_appendChild {N} c (e : @Element N) :
  style (appendChild c e) = style e.
Proof. done. Qed.
Lemma style_setChildren {N} cs (e : @Element N) :
  style (setChildren cs e) = style e.
Proof. done. Qed.
Lemma style_createElement {N} tag : style (createElement (N:=N) tag) = ∅.
Proof. done. Qed.
Lemma children_setStyle {N} prop value (e : @Element N) :
  children (setStyle prop value e) = children e.
Proof. done. Qed.
Lemma children_setAttribute {N} name value (e : @Element N) :
  children (setAttribute name value e) = children e.
Proof. done. Qed.
Lemma children_setProp {N} name v (e : @Element N) :
  children (setProp name v e) = children e.
Proof. done. Qed.
Lemma children_appendChild {N} c (e : @Element N) :
  children (appendChild c e) = (children e ++ [c])%list.
Proof. done. Qed.
Lemma children_setChildren {N} cs (e : @Element N) :
  children (setChildren cs e) = cs.
Proof. done. Qed.

Create Rewrite HintDb dom.

#[export] Hint Rewrite @attributes_setAttribute @attributes_removeAttribute
  @attributes_setStyle @attributes_setProp @attributes_appendChild
  @attributes_setChildren @attributes_createElement
  @style_setStyle @style_setAttribute @style_removeAttribute @style_setProp
  @style_appendChild @style_setChildren @style_createElement
  @children_setStyle @children_setAttribute @children_setProp
  @children_appendChild @children_setChildren : dom.

(** Projections of a tree built with the setters.  The setters are rewritten
    one at a time: unfolding them would copy the element at every level. *)
Ltac dom_unfold :=
  unfold hasAttribute, getAttribute in *; autorewrite with dom in *.

End DomTheory.

(** ** The popup *)

Module PopupTheory.
Import Annot Popup DomTheory.
Section Popup.
Context {N : Type} `{JsNumber N} `{!Util (N:=N)}.
Implicit Types (p : @PopupElement N).

(** The hide element carries the [hidden] attribute. *)
Definition hidden p : bool :=
  match hideElement p with
  | Some h => hasAttribute "hidden" h
  | None => false
  end.

(** [render] has run. *)
Definition rendered p : Prop := is_Some (wrapper p).

(** A pinned popup is visible. *)
Definition pinned_visible p : Prop := pinned p = true → hidden p = false.

Lemma hidden_update_hideElement f p :
  rendered p →
  hidden (update_hideElement f p)
  = match hideElement p with
    | Some h => hasAttribute "hidden" (f h)
    | None => false
    end.
Proof.
  intros [w Hw]. unfold hidden, update_hideElement, hideElement.
  rewrite Hw. destruct (hideWrapper p) eqn:Hh; simpl; rewrite ?Hw, ?Hh; done.
Qed.

Lemma hidden_set_container_style prop value p :
  hidden (set_container (setStyle prop value (container p)) p) = hidden p.
Proof.
  unfold hidden, hideElement. simpl.
  destruct (wrapper p); [|done]. by destruct (hideWrapper p).
Qed.

Lemma rendered_update_hideElement f p :
  rendered p → rendered (update_hideElement f p).
Proof.
  intros [w Hw]. unfold rendered, update_hideElement.
  destruct (hideWrapper p); simpl; rewrite Hw; by eexists.
Qed.

Lemma render_rendered withDate p : rendered (render withDate p).2.
Proof.
  unfold rendered, render, update_hideElement. simpl.
  destruct (hideWrapper p); simpl; by eexists.
Qed.

Lemma render_pinned withDate p :
  pinned (render withDate p).2 = pinned p.
Proof.
  unfold render, update_hideElement. simpl. by destruct (hideWrapper p).
Qed.

(** [render] adds [hidden] to the hide element and nothing else to the
    container. *)
Lemma render_container withDate p :
  container (render withDate p).2
  = if hideWrapper p then container p
    else setAttribute "hidden" "true" (container p).
Proof.
  unfold render, update_hideElement. simpl. by destruct (hideWrapper p).
Qed.

Lemma render_hidden withDate p : hidden (render withDate p).2 = true.
Proof.
  unfold hidden, hideElement, render, update_hideElement. simpl.
  destruct (hideWrapper p) eqn:Hh; simpl; rewrite ?Hh; simpl;
    apply bool_decide_eq_true; unfold appendChild, setChildren, setAttribute;
    cbn [attributes]; rewrite lookup_insert_eq; by eexists.
Qed.

(** The second statement of [_show] and of [_hide]. *)
Definition show_tail : Exec (@PopupElement N) unit :=
  let! p := get_state in
  match hideElement p with
  | None => throw (TypeError "this.hideElement is undefined")
  | Some h =>
      if hasAttribute "hidden" h then
        modify (update_hideElement (removeAttribute "hidden")) ;;;
        modify (λ p, set_container
                  (setStyle "zIndex"
                     (getStyle "zIndex" (container p) +:+ nstr (nlit 1))
                     (container p)) p)
      else exec_ret tt
  end.

Definition hide_tail : Exec (@PopupElement N) unit :=
  let! p := get_state in
  match hideElement p with
  | None => throw (TypeError "this.hideElement is undefined")
  | Some h =>
      if negb (hasAttribute "hidden" h) && negb (pinned p) then
        modify (update_hideElement (setAttribute "hidden" "true")) ;;;
        modify (λ p, set_container
                  (setStyle "zIndex"
                     (nstr (nsub (toNumber (getStyle "zIndex" (container p)))
                                 (nlit 1)))
                     (container p)) p)
      else exec_ret tt
  end.

Lemma show_unfold pin p :
  _show pin p = show_tail (if pin then set_pinned true p else p).
Proof. by destruct pin. Qed.

Lemma hide_unfold unpin p :
  _hide unpin p = hide_tail (if unpin then set_pinned false p else p).
Proof. by destruct unpin. Qed.

Lemma rendered_hideElement p : rendered p → is_Some (hideElement p).
Proof. intros [w Hw]. unfold hideElement. rewrite Hw. by eexists. Qed.

Lemma pinned_update_hideElement f p :
  pinned (update_hideElement f p) = pinned p.
Proof. unfold update_hideElement. by destruct (hideWrapper p). Qed.

Lemma show_tail_spec p :
  rendered p →
  ∃ p', show_tail p = (Normal tt, p')
        ∧ rendered p' ∧ hidden p' = false ∧ pinned p' = pinned p.
Proof.
  intros Hr. unfold show_tail, exec_bind, get_state, modify, exec_ret.
  destruct (rendered_hideElement p Hr) as [h Hh]. rewrite Hh.
  destruct (hasAttribute "hidden" h) eqn:Hattr.
  - eexists. split; [reflexivity|]. split; [|split].
    + destruct (rendered_update_hideElement (removeAttribute "hidden") p Hr)
        as [w Hw].
      unfold rendered. simpl. rewrite Hw. by eexists.
    + rewrite hidden_set_container_style.
      rewrite hidden_update_hideElement by done. rewrite Hh.
      apply hasAttribute_removeAttribute.
    + simpl. apply pinned_update_hideElement.
  - eexists. split; [reflexivity|]. split; [done|]. split; [|done].
    unfold hidden. by rewrite Hh.
Qed.

Lemma hide_tail_spec p :
  rendered p →
  ∃ p', hide_tail p = (Normal tt, p')
        ∧ rendered p' ∧ pinned p' = pinned p
        ∧ hidden p' = (if pinned p then hidden p else true)
        ∧ (pinned p = true → p' = p).
Proof.
  intros Hr. unfold hide_tail, exec_bind, get_state, modify, exec_ret.
  destruct (rendered_hideElement p Hr) as [h Hh]. rewrite Hh.
  assert (Hhid : hidden p = hasAttribute "hidden" h)
    by (unfold hidden; by rewrite Hh).
  destruct (negb (hasAttribute "hidden" h) && negb (pinned p)) eqn:Hc.
  - apply andb_true_iff in Hc as [Hattr Hpin].
    apply negb_true_iff in Hattr, Hpin.
    eexists. split; [reflexivity|]. split; [|split; [|split]].
    + destruct (rendered_update_hideElement (setAttribute "hidden" "true")
                  p Hr) as [w Hw].
      unfold rendered. simpl. rewrite Hw. by eexists.
    + simpl. apply pinned_update_hideElement.
    + rewrite Hpin. rewrite hidden_set_container_style.
      rewrite hidden_update_hideElement by done. rewrite Hh.
      apply hasAttribute_setAttribute.
    + congruence.
  - eexists. split; [reflexivity|].
    split; [done|]. split; [done|]. split; [|done].
    rewrite Hhid.
    apply andb_false_iff in Hc as [Hc|Hc]; apply negb_false_iff in Hc.
    + rewrite Hc. by destruct (pinned p).
    + by rewrite Hc.
Qed.

(** What [_show] does to a rendered popup. *)
Lemma show_spec pin p :
  rendered p →
  ∃ p', _show pin p = (Normal tt, p')
        ∧ rendered p'
        ∧ hidden p' = false
        ∧ pinned p' = (pin || pinned p).
Proof.
  intros Hr. rewrite show_unfold.
  destruct (show_tail_spec (if pin then set_pinned true p else p))
    as (p' & Hs & Hr' & Hh' & Hp'); [by destruct pin|].
  exists p'. repeat split; try done. rewrite Hp'. by destruct pin.
Qed.

(** What [_hide] does to a rendered popup. *)
Lemma hide_spec unpin p :
  rendered p →
  ∃ p', _hide unpin p = (Normal tt, p')
        ∧ rendered p'
        ∧ pinned p' = (negb unpin && pinned p)
        ∧ hidden p' = (if pinned p' then hidden p else true)
        ∧ (unpin = false → pinned p = true → p' = p).
Proof.
  intros Hr. rewrite hide_unfold.
  destruct (hide_tail_spec (if unpin then set_pinned false p else p))
    as (p' & Hs & Hr' & Hp' & Hh' & Hsame); [by destruct unpin|].
  exists p'. split; [done|]. split; [done|].
  destruct unpin; simpl in *.
  - rewrite Hp'. by repeat split.
  - rewrite Hp'. split; [done|]. split; [exact Hh'|].
    intros _. apply Hsame.
Qed.

(** What [_toggle] does to a rendered popup. *)
Lemma toggle_spec p :
  rendered p →
  ∃ p', _toggle p = (Normal tt, p')
        ∧ rendered p'
        ∧ pinned p' = negb (pinned p)
        ∧ hidden p' = pinned p.
Proof.
  intros Hr. unfold _toggle, exec_bind, get_state.
  destruct (pinned p) eqn:Hp.
  - destruct (hide_spec true p Hr) as (p' & -> & Hr' & Hp' & Hh' & _).
    exists p'. rewrite Hp' in *. simpl in *. done.
  - destruct (show_spec true p Hr) as (p' & -> & Hr' & Hh' & Hp').
    exists p'. done.
Qed.

Lemma call_preserves c p :
  rendered p → pinned_visible p →
  ∃ p', call c p = (Normal tt, p') ∧ rendered p' ∧ pinned_visible p'.
Proof.
  intros Hr Hinv. destruct c as [pin|unpin|]; simpl.
  - destruct (show_spec pin p Hr) as (p' & -> & Hr' & Hh' & _).
    exists p'. split; [done|]. split; [done|]. by intros _.
  - destruct (hide_spec unpin p Hr) as (p' & -> & Hr' & Hp' & Hh' & _).
    exists p'. split; [done|]. split; [done|]. intros Hpin.
    rewrite Hh', Hpin. apply Hinv.
    rewrite Hpin in Hp'. symmetry in Hp'. by apply andb_true_iff in Hp' as [_ ?].
  - destruct (toggle_spec p Hr) as (p' & -> & Hr' & Hp' & Hh').
    exists p'. split; [done|]. split; [done|]. intros Hpin.
    rewrite Hh'. rewrite Hpin in Hp'. by destruct (pinned p).
Qed.

Lemma calls_preserve cs p :
  rendered p → pinned_visible p →
  ∃ p', calls cs p = (Normal tt, p') ∧ rendered p' ∧ pinned_visible p'.
Proof.
  revert p. induction cs as [|c cs IH]; intros p Hr Hinv; simpl.
  - by exists p.
  - unfold exec_bind.
    destruct (call_preserves c p Hr Hinv) as (p1 & -> & Hr1 & Hinv1).
    by apply IH.
Qed.

(** C9.  After [render], any sequence of calls of [_show], [_hide] and
    [_toggle] runs without an exception and ends in a state where a pinned
    popup is visible: when [pinned] is true the hide element does not carry
    the [hidden] attribute.  In such a state [_hide(false)], the mouseout
    handler, changes nothing when the popup is pinned, and [_toggle] flips
    [pinned]. *)
Theorem popup_pinned_stays_visible (withDate : bool) (p0 : @PopupElement N)
    (cs : list Call) :
  pinned p0 = false →
  ∃ p, calls cs (render withDate p0).2 = (Normal tt, p)
       ∧ (pinned p = true → hidden p = false)
       ∧ (pinned p = true → _hide false p = (Normal tt, p))
       ∧ (∃ p', _toggle p = (Normal tt, p')
                ∧ pinned p' = negb (pinned p)
                ∧ (pinned p' = true → hidden p' = false)).
Proof.
  intros Hfresh.
  destruct (calls_preserve cs (render withDate p0).2) as (p & Hc & Hr & Hinv).
  { apply render_rendered. }
  { intros Hp. rewrite render_pinned in Hp. congruence. }
  exists p. split; [done|]. split; [done|]. split.
  - intros Hp. destruct (hide_spec false p Hr) as (p' & He & _ & _ & _ & Hs).
    by rewrite He, (Hs eq_refl Hp).
  - destruct (toggle_spec p Hr) as (p' & He & _ & Hp' & Hh').
    exists p'. split; [done|]. split; [done|].
    intros Hpin. rewrite Hh'. rewrite Hpin in Hp'. by destruct (pinned p).
Qed.

End Popup.

Import Sample.

(** The popup of a text annotation. *)
Definition notePopup : @PopupElement Z :=
  new_PopupElement (createElement "section") None "Title" JUndefined
    "first line" (Some true).

Example note_click_then_leave :
  ∃ p, calls [CallToggle; CallHide false] (render false notePopup).2
       = (Normal tt, p)
       ∧ pinned p = true ∧ hidden p = false.
Proof. eexists. split; [vm_compute; reflexivity|]. by vm_compute. Qed.

Example note_hover_only :
  ∃ p, calls [CallShow false; CallHide false] (render false notePopup).2
       = (Normal tt, p)
       ∧ pinned p = false ∧ hidden p = true.
Proof. eexists. split; [vm_compute; reflexivity|]. by vm_compute. Qed.

Lemma popup_pinned_stays_visible_witness :
  pinned notePopup = false
  ∧ ∃ p, calls [CallToggle; CallHide false] (render false notePopup).2
         = (Normal tt, p)
         ∧ (pinned p = true → hidden p = false).
Proof.
  split; [reflexivity|].
  destruct (popup_pinned_stays_visible false notePopup
              [CallToggle; CallHide false] eq_refl) as (p & Hc & Hv & _).
  exists p. split; [exact Hc | exact Hv].
Defined.

End PopupTheory.

(** ** Form widgets: the state of check boxes and radio buttons *)

Module WidgetTheory.
Import Annot DomTheory.
Section Widgets.
Context {N : Type} `{JsNumber N} `{!Util (N:=N)}.
Implicit Types (d : @AnnotationData N) (p : @Parameters N) (c : @Element N).

Lemma truthy_js_and (a b : JsVal N) :
  truthy (js_and a b) = truthy a && truthy b.
Proof. unfold js_and. by destruct (truthy a) eqn:Ha; rewrite ?Ha. Qed.

(** [data.fieldValue] is set and is not ['Off']. *)
Definition fieldOn d : bool :=
  truthy (fieldValue d) && negb (strict_eq (fieldValue d) (JStr "Off")).

Lemma truthy_checkboxValue d : truthy (checkboxValue d) = fieldOn d.
Proof. unfold checkboxValue. by rewrite truthy_js_and. Qed.

Lemma truthy_radioValue d :
  truthy (radioValue d) = strict_eq (fieldValue d) (buttonValue d).
Proof. done. Qed.

Lemma V1_checkboxInput_checked d :
  hasAttribute "checked" (V1.checkboxInput d) = fieldOn d.
Proof.
  unfold V1.checkboxInput. rewrite truthy_checkboxValue.
  destruct (fieldOn d); [apply hasAttribute_setAttribute|done].
Qed.

Lemma V1_radioInput_checked d :
  hasAttribute "checked" (V1.radioInput d)
  = strict_eq (fieldValue d) (buttonValue d).
Proof.
  unfold V1.radioInput. rewrite truthy_radioValue.
  destruct (strict_eq _ _); [apply hasAttribute_setAttribute|done].
Qed.

Lemma hasAttribute_borderClass name d (e : @Element N) :
  hasAttribute name (V3.borderClass d e) = hasAttribute name e.
Proof. unfold V3.borderClass. by repeat case_match. Qed.

Lemma hasAttribute_setBackgroundColor name (e : @Element N) col :
  hasAttribute name (V3._setBackgroundColor e col) = hasAttribute name e.
Proof. unfold V3._setBackgroundColor. by case_match. Qed.

Lemma V3_checkboxInput_checked d (value : JsVal N) :
  hasAttribute "checked" (V3.checkboxInput d value) = truthy value.
Proof.
  unfold V3.checkboxInput. rewrite hasAttribute_borderClass.
  destruct (truthy value); dom_unfold; [|done].
  apply bool_decide_eq_true. rewrite lookup_insert_eq. by eexists.
Qed.

Lemma V3_radioInput_checked d (value : JsVal N) c :
  hasAttribute "checked" (V3.radioInput d value c) = truthy value.
Proof.
  unfold V3.radioInput. rewrite hasAttribute_borderClass.
  destruct (radioButtonType d =? CB_CIRCLE); rewrite ?hasAttribute_setStyle;
    (destruct (truthy value); dom_unfold; [|done]);
    apply bool_decide_eq_true; rewrite lookup_insert_eq; by eexists.
Qed.

Section Stored.
Context {AnnotationStorage : Type} `{!StorageMethods (N:=N) AnnotationStorage}.
Implicit Types (storage : AnnotationStorage).

Lemma V3_render_checkbox_input p c storage :
  ∃ input span,
    children (V3.render_checkbox p c storage).1
    = (children c ++ [input; span])%list
    ∧ hasAttribute "checked" input
      = truthy (getOrCreateValue storage (id (data p))
                  (checkboxValue (data p))).1
    ∧ (V3.render_checkbox p c storage).2
      = (getOrCreateValue storage (id (data p)) (checkboxValue (data p))).2.
Proof.
  unfold V3.render_checkbox.
  destruct (getOrCreateValue storage _ _) as [value storage'].
  eexists _, _. split; [|split; [|done]].
  - unfold appendChild at 1 2. simpl. rewrite <- app_assoc. simpl.
    f_equal. destruct (readOnly (data p)); reflexivity.
  - rewrite hasAttribute_setBackgroundColor. apply V3_checkboxInput_checked.
Qed.

Lemma V3_render_radio_input p c storage :
  ∃ input span,
    children (V3.render_radio p c storage).1
    = (children c ++ [input; span])%list
    ∧ hasAttribute "checked" input
      = truthy (getOrCreateValue storage (id (data p))
                  (radioValue (data p))).1
    ∧ (V3.render_radio p c storage).2
      = (getOrCreateValue storage (id (data p)) (radioValue (data p))).2.
Proof.
  unfold V3.render_radio.
  destruct (getOrCreateValue storage _ _) as [value storage'].
  eexists _, _. split; [|split; [|done]].
  - unfold appendChild at 1 2. simpl. rewrite <- app_assoc. simpl.
    f_equal. destruct (readOnly (data p));
      destruct (radioButtonType (data p) =? CB_CIRCLE); reflexivity.
  - rewrite hasAttribute_setBackgroundColor. apply V3_radioInput_checked.
Qed.

End Stored.

(** C7, as amended.  Without a storage the [input] of a check box carries
    [checked] exactly when [data.fieldValue] is set and is not ['Off'], and
    that of a radio button exactly when [data.fieldValue === data.buttonValue].
    With a storage the [input] carries [checked] exactly when the value that
    [getOrCreateValue] returns for the identifier of the annotation is truthy,
    the expression above being the default handed to it; for a storage that
    holds no value under the identifier, the default is returned and stored,
    and decides. *)
Theorem widget_checked p c :
  (∃ input span,
     children (V1.render_checkbox p c) = (children c ++ [input; span])%list
     ∧ hasAttribute "checked" input = fieldOn (data p))
  ∧ (∃ input span,
       children (V1.render_radio p c) = (children c ++ [input; span])%list
       ∧ hasAttribute "checked" input
         = strict_eq (fieldValue (data p)) (buttonValue (data p)))
  ∧ (∀ (Storage : Type) (methods : StorageMethods Storage) (storage : Storage),
       (∃ input span,
          children (V3.render_checkbox p c storage).1
          = (children c ++ [input; span])%list
          ∧ hasAttribute "checked" input
            = truthy (getOrCreateValue storage (id (data p))
                        (checkboxValue (data p))).1)
       ∧ (∃ input span,
            children (V3.render_radio p c storage).1
            = (children c ++ [input; span])%list
            ∧ hasAttribute "checked" input
              = truthy (getOrCreateValue storage (id (data p))
                          (radioValue (data p))).1))
  ∧ (∀ storage : gmap string (JsVal N),
       storage !! id (data p) = None →
       (∃ input span,
          children (V3.render_checkbox p c storage).1
          = (children c ++ [input; span])%list
          ∧ hasAttribute "checked" input = fieldOn (data p)
          ∧ (V3.render_checkbox p c storage).2 !! id (data p)
            = Some (checkboxValue (data p)))
       ∧ (∃ input span,
            children (V3.render_radio p c storage).1
            = (children c ++ [input; span])%list
            ∧ hasAttribute "checked" input
              = strict_eq (fieldValue (data p)) (buttonValue (data p))
            ∧ (V3.render_radio p c storage).2 !! id (data p)
              = Some (radioValue (data p)))).
Proof.
  split; [|split; [|split]].
  - eexists _, _. split.
    + unfold V1.render_checkbox, appendChild. simpl.
      by rewrite <- app_assoc.
    + apply V1_checkboxInput_checked.
  - eexists _, _. split.
    + unfold V1.render_radio, appendChild. simpl. by rewrite <- app_assoc.
    + apply V1_radioInput_checked.
  - intros Storage methods storage. split.
    + destruct (V3_render_checkbox_input p c storage)
        as (input & span & Hc & Hi & _). by exists input, span.
    + destruct (V3_render_radio_input p c storage)
        as (input & span & Hc & Hi & _). by exists input, span.
  - intros storage Hfresh. split.
    + destruct (V3_render_checkbox_input p c storage)
        as (input & span & Hc & Hi & Hs).
      exists input, span. split; [done|]. rewrite Hi, Hs. simpl.
      rewrite Hfresh. simpl. split; [apply truthy_checkboxValue|].
      by rewrite lookup_insert_eq.
    + destruct (V3_render_radio_input p c storage)
        as (input & span & Hc & Hi & Hs).
      exists input, span. split; [done|]. rewrite Hi, Hs. simpl.
      rewrite Hfresh. simpl. split; [done|].
      by rewrite lookup_insert_eq.
Qed.

End Widgets.

Import Sample.

(** A radio button whose field value is not its button value, in a group
    whose change listener has stored [true] for it. *)
Definition choiceA : @AnnotationData Z :=
  button "7R" true (JStr "B") (JStr "A").

Definition afterClick : gmap string (JsVal Z) :=
  setValue
    (V3.render_radio (elementParameters 1 choiceA) (createElement "section")
       ∅).2
    "7R" (JBool true).

Example first_render_stores_default :
  (V3.render_radio (elementParameters 1 choiceA) (createElement "section")
     ∅).2 !! "7R" = Some (JBool false).
Proof. by vm_compute. Qed.

(** C7 fails as stated: on a second rendering the radio button is checked
    although [data.fieldValue] differs from [data.buttonValue]. *)
Lemma radio_checked_by_storage :
  ∃ input,
    children (V3.render_radio (elementParameters 1 choiceA)
                (createElement "section") afterClick).1 !! 0%nat
    = Some input
    ∧ hasAttribute "checked" input = true
    ∧ fieldValue choiceA ≠ buttonValue choiceA.
Proof.
  eexists. split; [vm_compute; reflexivity|].
  split; [by vm_compute | discriminate].
Qed.

Lemma widget_checked_witness :
  (∅ : gmap string (JsVal Z)) !! id choiceA = None
  ∧ ∃ input span,
      children (V3.render_radio (elementParameters 1 choiceA)
                  (createElement "section") ∅).1
      = [input; span]
      ∧ hasAttribute "checked" input = false.
Proof.
  split; [reflexivity|].
  destruct (proj2 (proj2 (proj2
              (widget_checked (elementParameters 1 choiceA)
                 (createElement "section")))) ∅ (lookup_empty _))
    as [_ (input & span & Hc & Hi & _)].
  exists input, span. split; [exact Hc | exact Hi].
Defined.

End WidgetTheory.

(** ** The container of an annotation element *)

Module ContainerTheory.
Import Annot DomTheory Arrays.
Section Container.
Context {N : Type} `{JsNumber N} `{!Util (N:=N)}.
Implicit Types (d : @AnnotationData N) (p : @Parameters N) (c : @Element N).

(** The condition of the claim under which the width and the height are
    reduced: the border is not ignored, its width is positive, it has a
    colour and its style is not [UNDERLINE]. *)
Definition reduced (ignoreBorder : bool) d : bool :=
  negb ignoreBorder && ngt (bwidth (borderStyle d)) (nlit 0)
  && bool_decide (is_Some (borderColor d))
  && negb (bstyle (borderStyle d) =? BS_UNDERLINE).

Definition boxWidth (ignoreBorder : bool) d : N :=
  let width := nsub (r2 (rect d)) (r0 (rect d)) in
  if reduced ignoreBorder d
  then nsub width (nmul (nlit 2) (bwidth (borderStyle d))) else width.

Definition boxHeight (ignoreBorder : bool) d : N :=
  let height := nsub (r3 (rect d)) (r1 (rect d)) in
  if reduced ignoreBorder d
  then nsub height (nmul (nlit 2) (bwidth (borderStyle d))) else height.

(** The rectangle of the claim, written out: the y-coordinates of [data.rect]
    are flipped through [page.view], [y] becoming [view[3] - y + view[1]],
    and the rectangle is normalized. *)
Definition flipY p (y : N) : N :=
  nadd (nsub (r3 (view (page p))) y) (r1 (view (page p))).

Definition pageRect p : @Rect N :=
  normalizeRect (mkRect (r0 (rect (data p))) (flipY p (r1 (rect (data p))))
                        (r2 (rect (data p))) (flipY p (r3 (rect (data p))))).

(** The four style properties that place a container. *)
Definition placed c (left top width height : N) : Prop :=
  style c !! "left" = Some (px left) ∧ style c !! "top" = Some (px top)
  ∧ style c !! "width" = Some (px width)
  ∧ style c !! "height" = Some (px height).

Lemma placed_set c (left top width height : N) :
  placed (setStyle "height" (px height)
            (setStyle "width" (px width)
               (setStyle "top" (px top) (setStyle "left" (px left) c))))
    left top width height.
Proof. unfold placed. rewrite !style_setStyle. by simplify_map_eq. Qed.

(** The helper of the embedding computes the rectangle of the claim. *)
Lemma flippedRect_pageRect p :
  normalizeRect (flippedRect (data p) (page p)) = pageRect p.
Proof. reflexivity. Qed.

Lemma borderDrawn_reduced ignoreBorder d :
  borderDrawn ignoreBorder d
  && negb (bstyle (borderStyle d) =? BS_UNDERLINE)
  = reduced ignoreBorder d.
Proof. reflexivity. Qed.

Ltac container_cases :=
  rewrite flippedRect_pageRect;
  unfold boxWidth, boxHeight; rewrite <- borderDrawn_reduced;
  match goal with
  | |- context [borderDrawn ?ib ?d] => destruct (borderDrawn ib d)
  end;
  [match goal with
   | |- context [negb ?b] => destruct (negb b)
   end|];
  cbn beta iota zeta delta [andb]; apply placed_set.

Lemma V1_placed p ignoreBorder :
  placed (V1._createContainer p ignoreBorder)
    (r0 (pageRect p)) (r1 (pageRect p))
    (boxWidth ignoreBorder (data p)) (boxHeight ignoreBorder (data p)).
Proof. unfold V1._createContainer. container_cases. Qed.

Lemma V3_placed p ignoreBorder :
  placed (V3._createContainer p ignoreBorder)
    (r0 (pageRect p)) (r1 (pageRect p))
    (boxWidth ignoreBorder (data p)) (boxHeight ignoreBorder (data p)).
Proof. unfold V3._createContainer. container_cases. Qed.

Lemma V2_placed p ignoreBorder :
  placed (V2._createContainer p ignoreBorder)
    (nmul (r0 (pageRect p)) (t0 (transform (viewport p))))
    (nmul (r1 (pageRect p)) (t3 (transform (viewport p))))
    (nmul (boxWidth ignoreBorder (data p)) (t0 (transform (viewport p))))
    (nmul (boxHeight ignoreBorder (data p)) (t3 (transform (viewport p)))).
Proof. unfold V2._createContainer. container_cases. Qed.

(** C3, as amended.  In the two transform-based revisions the container is
    placed at the rectangle of the claim: [left] is [rect[0]] and [top] is
    [rect[1]] of the normalized rectangle whose y-coordinates are
    [view[3] - y + view[1]], and [width] and [height] are
    [data.rect[2] - data.rect[0]] and [data.rect[3] - data.rect[1]], each less
    twice the border width exactly when the border is not ignored, has a
    positive width and a colour, and its style is not [UNDERLINE].  In the
    revision that scales the containers itself, [left] and [width] are these
    values times [viewport.transform[0]], and [top] and [height] times
    [viewport.transform[3]]. *)
Theorem container_placed p ignoreBorder :
  let d := data p in
  let view := view (page p) in
  let corner :=
    normalizeRect
      (mkRect (r0 (rect d)) (nadd (nsub (r3 view) (r1 (rect d))) (r1 view))
              (r2 (rect d)) (nadd (nsub (r3 view) (r3 (rect d))) (r1 view))) in
  let less :=
    negb ignoreBorder && ngt (bwidth (borderStyle d)) (nlit 0)
    && bool_decide (is_Some (borderColor d))
    && negb (bstyle (borderStyle d) =? BS_UNDERLINE) in
  let width :=
    if less
    then nsub (nsub (r2 (rect d)) (r0 (rect d)))
              (nmul (nlit 2) (bwidth (borderStyle d)))
    else nsub (r2 (rect d)) (r0 (rect d)) in
  let height :=
    if less
    then nsub (nsub (r3 (rect d)) (r1 (rect d)))
              (nmul (nlit 2) (bwidth (borderStyle d)))
    else nsub (r3 (rect d)) (r1 (rect d)) in
  let scaleX := t0 (transform (viewport p)) in
  let scaleY := t3 (transform (viewport p)) in
  placed (V1._createContainer p ignoreBorder)
    (r0 corner) (r1 corner) width height
  ∧ placed (V3._createContainer p ignoreBorder)
      (r0 corner) (r1 corner) width height
  ∧ placed (V2._createContainer p ignoreBorder)
      (nmul (r0 corner) scaleX) (nmul (r1 corner) scaleY)
      (nmul width scaleX) (nmul height scaleY)
  ∧ (less = true
     ↔ ignoreBorder = false
       ∧ ngt (bwidth (borderStyle d)) (nlit 0) = true
       ∧ is_Some (borderColor d)
       ∧ bstyle (borderStyle d) ≠ BS_UNDERLINE).
Proof.
  cbv zeta.
  split; [apply V1_placed|]. split; [apply V3_placed|].
  split; [apply V2_placed|].
  rewrite !andb_true_iff, !negb_true_iff, bool_decide_eq_true, Z.eqb_neq.
  tauto.
Qed.

(** The constructor keeps the parameters it was given. *)
Lemma construct_parameters baseArguments createContainer cls p :
  parameters (construct (N:=N) baseArguments createContainer cls p) = p.
Proof. unfold construct. by destruct (baseArguments cls p). Qed.

(** A renderable element has a container, made by [_createContainer]. *)
Lemma construct_container baseArguments createContainer cls p :
  container (construct (N:=N) baseArguments createContainer cls p)
  = if isRenderable (construct baseArguments createContainer cls p)
    then Some (createContainer p (baseArguments cls p).2) else None.
Proof. unfold construct. by destruct (baseArguments cls p). Qed.

(** *** The arrays in the store *)

(** What is taken for granted of [Util.normalizeRect]: called with an array,
    it returns an array that holds the normalized rectangle, and it writes at
    most to the array it is given and to arrays it creates.  Whether it
    normalizes its argument in place or returns a copy is left open. *)
Definition normalizes (normalizeRectAt : nat → Exec (@Store N) nat) : Prop :=
  ∀ a st r, st !! a = Some r →
    ∃ b st', normalizeRectAt a st = (Normal b, st')
             ∧ st' !! b = Some (normalizeRect r)
             ∧ ∀ other, other ≠ a → (other < length st)%nat →
                        st' !! other = st !! other.

(** One run of the statements that touch [data.rect]. *)
Lemma containerRect_run normalizeRectAt dataRect pageView (st : @Store N) p :
  normalizes normalizeRectAt →
  st !! dataRect = Some (rect (data p)) →
  st !! pageView = Some (view (page p)) →
  ∃ st',
    containerRect normalizeRectAt dataRect pageView st
    = (Normal (nsub (r2 (rect (data p))) (r0 (rect (data p))),
               nsub (r3 (rect (data p))) (r1 (rect (data p))),
               pageRect p), st')
    ∧ st' !! dataRect = Some (rect (data p))
    ∧ st' !! pageView = Some (view (page p)).
Proof.
  intros Hnorm Hrect Hview.
  unfold containerRect, exec_bind, readArray, newArray.
  unfold normalizes, Store in *. rewrite Hrect, Hview.
  set (literal := mkRect _ _ _ _).
  destruct (Hnorm (length st) (st ++ [literal]) literal)
    as (b & st' & -> & Hb & Hframe).
  { by rewrite lookup_app_r, Nat.sub_diag by lia. }
  rewrite Hb. exists st'. split; [done|].
  assert (Hold : ∀ a r, st !! a = Some r → st' !! a = Some r).
  { intros a r Ha. pose proof (lookup_lt_Some _ _ _ Ha) as Hlt.
    rewrite Hframe; [by rewrite lookup_app_l by lia|lia|].
    rewrite length_app. simpl. lia. }
  split; by apply Hold.
Qed.

(** C4.  [_createContainer] leaves [data.rect] as it was, whatever
    [Util.normalizeRect] does to the array it is given: that array is the
    literal, a new object, and never [data.rect] itself.  With the arrays in
    a store, the statements that touch [data.rect] return the width and the
    height of [data.rect] and the rectangle of the claim; after them
    [data.rect] and [page.view] hold the same four numbers as before, so a
    second run returns the same values, and the container of the first and
    of the last revision is placed at the [left] and [top] of that
    rectangle. *)
Theorem createContainer_keeps_rect normalizeRectAt dataRect pageView
    (st : @Store N) p :
  normalizes normalizeRectAt →
  st !! dataRect = Some (rect (data p)) →
  st !! pageView = Some (view (page p)) →
  let result :=
    (nsub (r2 (rect (data p))) (r0 (rect (data p))),
     nsub (r3 (rect (data p))) (r1 (rect (data p))),
     normalizeRect
       (mkRect (r0 (rect (data p)))
          (nadd (nsub (r3 (view (page p))) (r1 (rect (data p))))
                (r1 (view (page p))))
          (r2 (rect (data p)))
          (nadd (nsub (r3 (view (page p))) (r3 (rect (data p))))
                (r1 (view (page p)))))) in
  ∃ st' st'',
    containerRect normalizeRectAt dataRect pageView st = (Normal result, st')
    ∧ st' !! dataRect = st !! dataRect
    ∧ st' !! pageView = st !! pageView
    ∧ containerRect normalizeRectAt dataRect pageView st'
      = (Normal result, st'')
    ∧ st'' !! dataRect = st !! dataRect
    ∧ ∀ ignoreBorder,
        style (V1._createContainer p ignoreBorder) !! "left"
        = Some (px (r0 result.2))
        ∧ style (V1._createContainer p ignoreBorder) !! "top"
          = Some (px (r1 result.2))
        ∧ style (V3._createContainer p ignoreBorder) !! "left"
          = Some (px (r0 result.2))
        ∧ style (V3._createContainer p ignoreBorder) !! "top"
          = Some (px (r1 result.2)).
Proof.
  intros Hnorm Hrect Hview result.
  destruct (containerRect_run normalizeRectAt dataRect pageView st p
              Hnorm Hrect Hview) as (st' & Hrun & Hrect' & Hview').
  destruct (containerRect_run normalizeRectAt dataRect pageView st' p
              Hnorm Hrect' Hview') as (st'' & Hrun' & Hrect'' & _).
  exists st', st''. split; [exact Hrun|].
  split; [by rewrite Hrect, Hrect'|]. split; [by rewrite Hview, Hview'|].
  split; [exact Hrun'|]. split; [by rewrite Hrect, Hrect''|].
  intros ignoreBorder.
  destruct (V1_placed p ignoreBorder) as (Hl1 & Ht1 & _).
  destruct (V3_placed p ignoreBorder) as (Hl3 & Ht3 & _).
  done.
Qed.

End Container.

Import Sample.

Definition framed : @AnnotationData Z :=
  with_border {| bwidth := 3; bstyle := 1; horizontalCornerRadius := 0;
                 verticalCornerRadius := 0 |}
              (Some (mkColor 255 0 0)) (blank "5R" 2).

Example framed_box :
  map_to_list (style (V3._createContainer (elementParameters 1 framed) false))
  ≡ₚ [("left", "10px"); ("top", "772px"); ("width", "94px");
      ("height", "44px"); ("borderWidth", "3px"); ("borderStyle", "solid");
      ("borderColor", "rgb(255,0,0)"); ("transform", "matrix(1,0,0,1,0,0)");
      ("transformOrigin", "-10px -772px")].
Proof. vm_compute. by apply (bool_decide_unpack _). Qed.

(** With the [normalizeRect] of pdf.js, which orders the corners, the
    rectangle of the claim has its origin at the smaller x-coordinate and at
    the larger y-coordinate of [data.rect], counted down from the top of the
    page. *)
Lemma pageRect_corner (p : @Parameters Z) :
  r0 (pageRect p) = Z.min (r0 (rect (data p))) (r2 (rect (data p)))
  ∧ r1 (pageRect p)
    = r3 (view (page p)) + r1 (view (page p))
      - Z.max (r1 (rect (data p))) (r3 (rect (data p))).
Proof.
  unfold pageRect, flipY. simpl. unfold orderCorners. simpl.
  split.
  - destruct (Z.gtb_spec (r0 (rect (data p))) (r2 (rect (data p)))); lia.
  - match goal with
    | |- (if ?a >? ?b then _ else _) = _ => destruct (Z.gtb_spec a b)
    end; lia.
Qed.

(** C3 fails as stated on the revision that scales the containers itself:
    at twice the size [left] is twice [rect[0]]. *)
Lemma scaled_container_left :
  style (V2._createContainer (elementParameters 2 (blank "5R" 2)) false)
    !! "left"
  ≠ Some (px (r0 (pageRect (elementParameters 2 (blank "5R" 2))))).
Proof. vm_compute. discriminate. Qed.

Lemma container_placed_witness :
  style (V1._createContainer (elementParameters 1 framed) false) !! "left"
  = Some "10px"
  ∧ style (V1._createContainer (elementParameters 1 framed) false) !! "top"
    = Some "772px"
  ∧ style (V1._createContainer (elementParameters 1 framed) false) !! "width"
    = Some "94px"
  ∧ style (V1._createContainer (elementParameters 1 framed) false) !! "height"
    = Some "44px".
Proof.
  exact (proj1 (container_placed (elementParameters 1 framed) false)).
Defined.

(** A [normalizeRect] that orders the corners of its argument in place. *)
Definition normalizeInPlace (a : nat) : Exec (@Store Z) nat :=
  λ st, match st !! a with
        | Some r => (Normal a, <[a := orderCorners r]> st)
        | None => (Throw (TypeError "no such array"), st)
        end.

Lemma normalizeInPlace_normalizes : normalizes normalizeInPlace.
Proof.
  intros a st r Ha. exists a, (<[a := orderCorners r]> st).
  unfold normalizeInPlace, Store in *. rewrite Ha. split; [done|].
  split; [apply list_lookup_insert_eq; by eapply lookup_lt_Some|].
  intros c Hc _. by apply list_lookup_insert_ne.
Qed.

(** The store of the example: [data.rect] of the framed link and the view of
    the page. *)
Definition rects : @Store Z := [rect framed; view a4page].

Example normalizeInPlace_writes :
  (normalizeInPlace 0%nat [mkRect 10 70 110 20]).2 = [mkRect 10 20 110 70].
Proof. reflexivity. Qed.

Lemma createContainer_keeps_rect_witness :
  ∃ st',
    containerRect normalizeInPlace 0%nat 1%nat rects
    = (Normal (100, 50, mkRect 10 772 110 822), st')
    ∧ st' !! 0%nat = Some (mkRect 10 20 110 70).
Proof.
  destruct (createContainer_keeps_rect normalizeInPlace 0%nat 1%nat rects
              (elementParameters 1 framed) normalizeInPlace_normalizes
              eq_refl eq_refl)
    as (st' & _ & Hrun & Hrect & _).
  exists st'. split; [exact Hrun | exact Hrect].
Defined.

End ContainerTheory.

(** ** The elements of a tree in document order *)

Module TreeTheory.
Import Annot DomTheory.
Section Tree.
Context {N : Type} `{JsNumber N}.
Implicit Types (e c div x : @Element N) (cs l : list (@Element N)).
Implicit Types (q : @Element N → bool) (f : @Element N → @Element N).

(** What an element itself carries: the element without its children. *)
Definition own e : @Element N := setChildren [] e.

(** The elements below [e], in document order, each without its children,
    and the number of children of each: together they determine the tree
    below [e]. *)
Definition nodes e : list (@Element N) := own <$> descendants e.

Definition arities e : list nat := (length ∘ children) <$> descendants e.

(** The index of the first element of a list that satisfies [q]. *)
Fixpoint firstIndex q l : option nat :=
  match l with
  | [] => None
  | x :: l' => if q x then Some 0%nat else S <$> firstIndex q l'
  end.

Lemma firstIndex_app q l1 l2 :
  firstIndex q (l1 ++ l2)
  = match firstIndex q l1 with
    | Some i => Some i
    | None => (λ j, (length l1 + j)%nat) <$> firstIndex q l2
    end.
Proof.
  induction l1 as [|x l1 IH]; simpl.
  - by destruct (firstIndex q l2).
  - destruct (q x); [done|]. rewrite IH.
    destruct (firstIndex q l1); [done|]. by destruct (firstIndex q l2).
Qed.

Lemma firstIndex_lt q l i : firstIndex q l = Some i → (i < length l)%nat.
Proof.
  revert i. induction l as [|x l IH]; intros i; simpl; [done|].
  destruct (q x); [intros [= <-]; lia|].
  destruct (firstIndex q l) as [j|]; [|done]. intros [= <-].
  specialize (IH j eq_refl). lia.
Qed.

Lemma firstIndex_fmap q (g : @Element N → @Element N) l :
  (∀ x, q (g x) = q x) → firstIndex q (g <$> l) = firstIndex q l.
Proof.
  intros Hg. induction l as [|x l IH]; [done|].
  rewrite fmap_cons. cbn [firstIndex]. by rewrite Hg, IH.
Qed.

Section Local.
Context (q : @Element N → bool) (f : @Element N → @Element N).
Context (f_own : ∀ x, own (f x) = f (own x)).
Context (f_children : ∀ x, children (f x) = children x).

(** What the update of the first element that satisfies [q] does to a tree,
    seen on the list of its elements. *)
Definition updated_in (l l' : list (@Element N)) : Prop :=
  match firstIndex q l with
  | Some i => own <$> l' = alter f i (own <$> l)
  | None => False
  end
  ∧ (length ∘ children) <$> l' = (length ∘ children) <$> l.

Lemma updateFirstForest_spec cs :
  Forall (λ c, match updateFirstIn q f c with
               | Some c' => updated_in (subtree c) (subtree c')
               | None => firstIndex q (subtree c) = None
               end) cs →
  match updateFirstForest q f cs with
  | Some cs' => updated_in (flat_map subtree cs) (flat_map subtree cs')
                ∧ length cs' = length cs
  | None => firstIndex q (flat_map subtree cs) = None
  end.
Proof.
  induction cs as [|c cs IH]; intros Hcs; [done|].
  apply Forall_cons in Hcs as [Hc Hcs]. specialize (IH Hcs). simpl.
  destruct (updateFirstIn q f c) as [c'|].
  - destruct Hc as [Hnodes Harity]. split; [|done]. unfold updated_in.
    simpl. rewrite firstIndex_app, !fmap_app.
    destruct (firstIndex q (subtree c)) as [i|] eqn:Hi; [|done].
    split; [|by rewrite Harity].
    rewrite Hnodes. symmetry. apply alter_app_l.
    rewrite length_fmap. by eapply firstIndex_lt.
  - destruct (updateFirstForest q f cs) as [cs'|]; simpl.
    + destruct IH as [[Hnodes Harity] Hlen]. split; [|simpl; lia].
      unfold updated_in. simpl. rewrite firstIndex_app, Hc, !fmap_app.
      destruct (firstIndex q (flat_map subtree cs)) as [j|]; [|done]. simpl.
      split; [|by rewrite Harity].
      rewrite Hnodes.
      replace (length (subtree c) + j)%nat
        with (length (own <$> subtree c) + j)%nat
        by (by rewrite length_fmap).
      symmetry. apply alter_app_r.
    + by rewrite firstIndex_app, Hc, IH.
Qed.

Lemma updateFirstIn_spec e :
  match updateFirstIn q f e with
  | Some e' => updated_in (subtree e) (subtree e')
  | None => firstIndex q (subtree e) = None
  end.
Proof.
  induction e as [e IH] using Element_tree_ind.
  rewrite updateFirstIn_unfold. rewrite (subtree_unfold e).
  cbn [firstIndex]. destruct (q e) eqn:Hq.
  - unfold updated_in. cbn [firstIndex]. rewrite Hq.
    rewrite (subtree_unfold (f e)), f_children, !fmap_cons. simpl.
    split; [by rewrite f_own|]. by rewrite f_children.
  - pose proof (updateFirstForest_spec (children e) IH) as Hforest.
    destruct (updateFirstForest q f (children e)) as [cs'|];
      cbn [option_map].
    + destruct Hforest as [[Hnodes Harity] Hlen].
      unfold updated_in in *. cbn [firstIndex]. rewrite Hq.
      destruct (firstIndex q (flat_map subtree (children e))) as [i|];
        [|done].
      rewrite (subtree_unfold (setChildren cs' e)), children_setChildren.
      rewrite !fmap_cons. cbn [fmap option_fmap option_map alter list_alter].
      split; [by rewrite Hnodes|]. cbn [compose]. rewrite children_setChildren.
      by rewrite Harity, Hlen.
    + by rewrite Hforest.
Qed.

End Local.

End Tree.
End TreeTheory.

(** ** [AnnotationLayer.update] *)

Module UpdateTheory.
Import Annot DomTheory TreeTheory.
Section Update.
Context {N : Type} `{JsNumber N} `{!Util (N:=N)}.
Implicit Types (e c div : @Element N) (cs : list (@Element N)).
Implicit Types (f : @Element N → @Element N).
Implicit Types (d : @AnnotationData N) (ds : list (@AnnotationData N)).
Implicit Types (lp : @LayerParameters N).
Implicit Types (keys : list (option string)) (ids : list string).

(** The value of [data-annotation-id], if the element carries one. *)
Definition annotationId e : option string :=
  attributes e !! "data-annotation-id".

(** Nothing below [c] carries an annotation identifier. *)
Definition bare c : Prop :=
  Forall (λ x, annotationId x = None) (flat_map subtree (children c)).

(** The layer as [AnnotationLayer.render] builds it: the containers of the
    annotations are children of the div, and nothing else carries an
    identifier. *)
Definition flat div : Prop := Forall bare (children div).

(** The index of the first child that carries the identifier [v]. *)
Definition firstWith (v : string) keys : option nat :=
  fst <$> list_find (λ k, k = Some v) keys.

(** How many of the identifiers [ids] select the child at index [i]. *)
Definition hits ids keys (i : nat) : nat :=
  length (filter (λ v, firstWith v keys = Some i) ids).

(** One turn of the loop, on the children of the div. *)
Definition step f cs (v : string) : list (@Element N) :=
  match firstWith v (annotationId <$> cs) with
  | Some i => alter f i cs
  | None => cs
  end.

Lemma matches_annotationId v e :
  matches "data-annotation-id" v e = true ↔ annotationId e = Some v.
Proof. unfold matches, annotationId. apply bool_decide_eq_true. Qed.

Lemma bare_no_match v c :
  bare c →
  Forall (λ x, matches "data-annotation-id" v x = false)
         (flat_map subtree (children c)).
Proof.
  intros Hc. eapply Forall_impl; [exact Hc|]. intros x Hx.
  apply not_true_is_false. rewrite matches_annotationId. congruence.
Qed.

Lemma firstWith_find v cs :
  fst <$> list_find (λ c, Is_true (matches "data-annotation-id" v c)) cs
  = firstWith v (annotationId <$> cs).
Proof.
  unfold firstWith. induction cs as [|c cs IH]; [done|].
  rewrite fmap_cons. cbn [list_find].
  destruct (matches "data-annotation-id" v c) eqn:Hm.
  - rewrite decide_True by done.
    rewrite decide_True by (by apply matches_annotationId). done.
  - rewrite decide_False by (by intros []).
    rewrite decide_False
      by (rewrite <- matches_annotationId; by rewrite Hm).
    destruct (list_find _ cs) as [[i x]|],
             (list_find _ (annotationId <$> cs)) as [[j k]|];
      simpl in *; congruence.
Qed.

Lemma setChildren_children e : setChildren (children e) e = e.
Proof. by destruct e. Qed.

(** On a flat layer the selected element is the first child with the
    identifier. *)
Lemma updateSelected_flat f v div :
  flat div →
  updateSelected "data-annotation-id" v f div
  = setChildren (step f (children div) v) div.
Proof.
  intros Hflat. unfold updateSelected, step.
  rewrite updateFirstForest_bare.
  2:{ eapply Forall_impl; [exact Hflat|]. intros c. apply bare_no_match. }
  rewrite <- firstWith_find.
  destruct (list_find _ (children div)) as [[i x]|]; simpl; [done|].
  by rewrite setChildren_children.
Qed.

Section Loop.
Context (f : @Element N → @Element N).
Context (f_id : ∀ c, annotationId (f c) = annotationId c).
Context (f_bare : ∀ c, bare c → bare (f c)).

Lemma step_keys cs v : annotationId <$> step f cs v = annotationId <$> cs.
Proof.
  unfold step. destruct (firstWith _ _) as [i|]; [|done].
  rewrite (list_fmap_alter annotationId f (λ k, k))
    by (apply Forall_forall; intros; apply f_id).
  by apply list_alter_id.
Qed.

Lemma step_lookup cs v i c :
  cs !! i = Some c →
  step f cs v !! i
  = Some (if decide (firstWith v (annotationId <$> cs) = Some i)
          then f c else c).
Proof.
  intros Hc. unfold step.
  destruct (firstWith _ _) as [j|] eqn:Hj.
  - rewrite list_lookup_alter. destruct (decide (j = i)) as [->|Hne].
    + rewrite Hc. by rewrite decide_True.
    + rewrite decide_False by congruence. done.
  - by rewrite decide_False.
Qed.

Lemma step_flat cs v : Forall bare cs → Forall bare (step f cs v).
Proof.
  intros Hcs. unfold step. destruct (firstWith _ _) as [i|]; [|done].
  rewrite Forall_lookup in Hcs. apply Forall_lookup. intros j c.
  rewrite list_lookup_alter. case_decide; [|by apply Hcs].
  subst. destruct (cs !! j) eqn:Hj; [|done]. intros [= <-].
  apply f_bare. by eapply Hcs.
Qed.

(** The loop of [update], on the children of a flat layer. *)
Lemma loop_lookup ids cs i c :
  cs !! i = Some c →
  fold_left (step f) ids cs !! i
  = Some (Nat.iter (hits ids (annotationId <$> cs) i) f c).
Proof.
  revert cs c. induction ids as [|v ids IH]; intros cs c Hc; [done|].
  simpl. erewrite IH; [|by apply step_lookup]. rewrite step_keys.
  unfold hits. rewrite filter_cons. f_equal.
  case_decide; [|done]. cbn [length]. by rewrite Nat.iter_succ_r.
Qed.

Lemma loop_length ids cs : length (fold_left (step f) ids cs) = length cs.
Proof.
  revert cs. induction ids as [|v ids IH]; intros cs; [done|].
  simpl. rewrite IH. unfold step.
  destruct (firstWith _ _); [apply length_alter|done].
Qed.

Lemma loop_flat ids cs : Forall bare cs → Forall bare (fold_left (step f) ids cs).
Proof.
  revert cs. induction ids as [|v ids IH]; intros cs Hcs; [done|].
  simpl. by apply IH, step_flat.
Qed.

(** The loop of [update], on the layer. *)
Lemma loop_layer ids div :
  flat div →
  fold_left (λ div v, updateSelected "data-annotation-id" v f div) ids div
  = setChildren (fold_left (step f) ids (children div)) div.
Proof.
  revert div. induction ids as [|v ids IH]; intros div Hflat; simpl.
  - by rewrite setChildren_children.
  - rewrite updateSelected_flat by done. rewrite IH.
    + by destruct div.
    + unfold flat. simpl. by apply step_flat.
Qed.

End Loop.

Lemma filter_none {A} (P : A → Prop) `{∀ x, Decision (P x)} (l : list A) :
  (∀ x, x ∈ l → ¬ P x) → filter P l = [].
Proof.
  induction l as [|x l IH]; intros Hl; [done|].
  rewrite filter_cons_False by (apply Hl; by left).
  apply IH. intros y Hy. apply Hl. by right.
Qed.

Lemma hits_zero ids keys i :
  (∀ v, v ∈ ids → firstWith v keys ≠ Some i) → hits ids keys i = 0%nat.
Proof.
  intros Hnone. unfold hits.
  rewrite filter_none; [done|]. intros v Hv. by apply Hnone.
Qed.

Lemma hits_pos ids keys i v :
  v ∈ ids → firstWith v keys = Some i → (0 < hits ids keys i)%nat.
Proof.
  intros Hv Hi. unfold hits.
  assert (Hin : v ∈ filter (λ v, firstWith v keys = Some i) ids)
    by (by apply list_elem_of_filter).
  destruct (filter _ ids); [by apply not_elem_of_nil in Hin|simpl; lia].
Qed.

Lemma firstWith_key v keys i :
  firstWith v keys = Some i → keys !! i = Some (Some v).
Proof.
  unfold firstWith. destruct (list_find _ keys) as [[j k]|] eqn:Hf; [|done].
  intros [= <-]. apply list_find_Some in Hf as (Hk & -> & _). done.
Qed.

Lemma hits_once ids keys i v :
  NoDup ids → v ∈ ids → firstWith v keys = Some i → hits ids keys i = 1%nat.
Proof.
  intros Hnd Hv Hi. unfold hits.
  assert (Hsame : ∀ w, firstWith w keys = Some i → w = v).
  { intros w Hw. apply firstWith_key in Hw, Hi. congruence. }
  induction Hnd as [|w ids Hw Hnd IH]; [by apply not_elem_of_nil in Hv|].
  rewrite filter_cons. apply elem_of_cons in Hv as [->|Hv].
  - rewrite decide_True by done. simpl. f_equal.
    rewrite filter_none; [done|].
    intros u Hu Hfu. apply Hsame in Hfu. congruence.
  - rewrite decide_False; [by apply IH|].
    intros Hfw. apply Hsame in Hfw. congruence.
Qed.

Lemma iter_idempotent {A} (g : A → A) (n : nat) (x : A) :
  (∀ y, g (g y) = g y) → (0 < n)%nat → Nat.iter n g x = g x.
Proof.
  intros Hg Hn. destruct n as [|n]; [lia|]. clear Hn.
  induction n as [|n IH]; [done|]. simpl in *. by rewrite IH.
Qed.

(** A child is selected when it is the first one to carry the identifier of
    some annotation of the parameters. *)
Definition selected ds cs (i : nat) : Prop :=
  ∃ d, d ∈ ds ∧ firstWith (id d) (annotationId <$> cs) = Some i.

(** What [update] leaves alone: the div except for its [hidden] attribute and
    the children that are not selected. *)
Definition kept ds div div' : Prop :=
  attributes div' = delete "hidden" (attributes div)
  ∧ tagName div' = tagName div ∧ props div' = props div
  ∧ style div' = style div
  ∧ length (children div') = length (children div)
  ∧ ∀ i c, children div !! i = Some c → ¬ selected ds (children div) i →
           children div' !! i = Some c.

(** What [update] changes: [f] is applied to the selected children. *)
Definition moved f ds div div' : Prop :=
  ∀ i c, children div !! i = Some c → selected ds (children div) i →
         children div' !! i = Some (f c).

(** A child whose identifier is that of no annotation is not selected. *)
Lemma selected_id ds cs i c :
  cs !! i = Some c → selected ds cs i →
  ∃ d, d ∈ ds ∧ annotationId c = Some (id d).
Proof.
  intros Hc (d & Hd & Hfirst). exists d. split; [done|].
  apply firstWith_key in Hfirst. rewrite list_lookup_fmap, Hc in Hfirst.
  by injection Hfirst.
Qed.

(** When the identifiers of the children are pairwise distinct, every child
    with the identifier of an annotation is selected. *)
Lemma selected_of_unique ds cs i c d :
  (∀ j c', cs !! j = Some c' → annotationId c' = annotationId c → j = i) →
  cs !! i = Some c → d ∈ ds → annotationId c = Some (id d) →
  selected ds cs i.
Proof.
  intros Huniq Hc Hd Hid. exists d. split; [done|]. unfold firstWith.
  destruct (list_find (λ k, k = Some (id d)) (annotationId <$> cs))
    as [[j k]|] eqn:Hf; simpl.
  - apply list_find_Some in Hf as (Hj & -> & _).
    rewrite list_lookup_fmap in Hj.
    destruct (cs !! j) as [c'|] eqn:Hc'; [|done]. injection Hj as Hj.
    f_equal. apply (Huniq j c'); congruence.
  - apply list_find_None in Hf. rewrite Forall_forall in Hf.
    exfalso. apply (Hf (annotationId c)); [|done].
    apply list_elem_of_fmap. exists c. split; [done|].
    by eapply list_elem_of_lookup_2.
Qed.

(** The loop of [update] over entries that are not [null]. *)
Lemma for_each_modify (g : @AnnotationData N → @Element N → @Element N)
    (body : option (@AnnotationData N) → Exec (@Element N) unit) ds div :
  (∀ d, body (Some d) = modify (g d)) →
  for_each body (Some <$> ds) div
  = (Normal tt, fold_left (λ div d, g d div) ds div).
Proof.
  intros Hbody. revert div. induction ds as [|d ds IH]; intros div; [done|].
  simpl. unfold exec_bind. rewrite Hbody. unfold modify at 1. apply IH.
Qed.

Lemma fold_left_ids f ds div :
  fold_left (λ div d, updateSelected "data-annotation-id" (id d) f div) ds div
  = fold_left (λ div v, updateSelected "data-annotation-id" v f div)
      (id <$> ds) div.
Proof. revert div. induction ds as [|d ds IH]; intros div; simpl; auto. Qed.

(** The result of the loop followed by [removeAttribute('hidden')]. *)
Lemma updated_layer f ds div :
  (∀ c, annotationId (f c) = annotationId c) →
  (∀ c, bare c → bare (f c)) →
  flat div →
  let div' :=
    removeAttribute "hidden"
      (fold_left (λ div d, updateSelected "data-annotation-id" (id d) f div)
         ds div) in
  kept ds div div'
  ∧ (∀ i c, children div !! i = Some c →
       children div' !! i
       = Some (Nat.iter (hits (id <$> ds) (annotationId <$> children div) i)
                 f c)).
Proof.
  intros Hid Hbare Hflat. simpl. rewrite fold_left_ids.
  rewrite (loop_layer f Hbare) by done.
  assert (Hlook : ∀ i c, children div !! i = Some c →
            fold_left (step f) (id <$> ds) (children div) !! i
            = Some (Nat.iter (hits (id <$> ds)
                                (annotationId <$> children div) i) f c))
    by (intros; by apply loop_lookup).
  split; [|exact Hlook].
  unfold kept. simpl. repeat (split; [done|]).
  split; [apply loop_length|].
  intros i c Hc Hsel. rewrite (Hlook i c Hc). rewrite hits_zero; [done|].
  intros v Hv Hfirst. apply Hsel.
  apply list_elem_of_fmap in Hv as (d & -> & Hd). by exists d.
Qed.

Lemma updated_idempotent f ds div :
  (∀ c, annotationId (f c) = annotationId c) →
  (∀ c, bare c → bare (f c)) →
  (∀ c, f (f c) = f c) →
  flat div →
  moved f ds div
    (removeAttribute "hidden"
       (fold_left (λ div d, updateSelected "data-annotation-id" (id d) f div)
          ds div)).
Proof.
  intros Hid Hbare Hidem Hflat i c Hc (d & Hd & Hfirst).
  destruct (updated_layer f ds div Hid Hbare Hflat) as [_ Hlook].
  rewrite (Hlook i c Hc). f_equal. apply iter_idempotent; [done|].
  eapply hits_pos; [|done]. apply list_elem_of_fmap. by exists d.
Qed.

Lemma updated_once f ds div :
  (∀ c, annotationId (f c) = annotationId c) →
  (∀ c, bare c → bare (f c)) →
  NoDup (id <$> ds) →
  flat div →
  moved f ds div
    (removeAttribute "hidden"
       (fold_left (λ div d, updateSelected "data-annotation-id" (id d) f div)
          ds div)).
Proof.
  intros Hid Hbare Hnd Hflat i c Hc (d & Hd & Hfirst).
  destruct (updated_layer f ds div Hid Hbare Hflat) as [_ Hlook].
  rewrite (Hlook i c Hc). f_equal.
  rewrite (hits_once _ _ _ (id d)); [done|done| |done].
  apply list_elem_of_fmap. by exists d.
Qed.

(** *** Layers of any shape *)

Lemma firstWith_firstIndex v (l : list (@Element N)) :
  firstWith v (annotationId <$> l)
  = firstIndex (matches "data-annotation-id" v) l.
Proof.
  unfold firstWith. induction l as [|x l IH]; [done|].
  rewrite fmap_cons. cbn [list_find firstIndex].
  destruct (matches "data-annotation-id" v x) eqn:Hm.
  - by rewrite decide_True by (by apply matches_annotationId).
  - rewrite decide_False
      by (rewrite <- matches_annotationId; by rewrite Hm).
    rewrite <- IH.
    by destruct (list_find _ (annotationId <$> l)) as [[j k]|].
Qed.

Lemma annotationId_nodes div :
  annotationId <$> nodes div = annotationId <$> descendants div.
Proof. unfold nodes. by rewrite <- list_fmap_compose. Qed.

(** A function that changes what the element itself carries, and neither
    its identifier nor its children. *)
Definition retouch f : Prop :=
  (∀ x, own (f x) = f (own x)) ∧ (∀ x, children (f x) = children x)
  ∧ (∀ x, annotationId (f x) = annotationId x).

Lemma nodes_updateSelected f v div :
  retouch f →
  nodes (updateSelected "data-annotation-id" v f div) = step f (nodes div) v
  ∧ arities (updateSelected "data-annotation-id" v f div) = arities div
  ∧ own (updateSelected "data-annotation-id" v f div) = own div.
Proof.
  intros (Hown & Hchildren & _). unfold updateSelected, step.
  rewrite annotationId_nodes. unfold descendants.
  rewrite firstWith_firstIndex.
  pose proof (updateFirstForest_spec (matches "data-annotation-id" v) f
                (children div)) as Hforest.
  assert (Forall (λ c, match updateFirstIn (matches "data-annotation-id" v) f c
                       with
                       | Some c' =>
                           updated_in (matches "data-annotation-id" v) f
                             (subtree c) (subtree c')
                       | None =>
                           firstIndex (matches "data-annotation-id" v)
                             (subtree c) = None
                       end) (children div)) as Hall.
  { apply Forall_forall. intros c _. by apply updateFirstIn_spec. }
  specialize (Hforest Hall).
  destruct (updateFirstForest _ f (children div)) as [cs'|].
  - destruct Hforest as [[Hnodes Harity] _].
    unfold nodes, arities, descendants. rewrite children_setChildren.
    destruct (firstIndex _ _) as [i|]; [|done].
    done.
  - by rewrite Hforest.
Qed.

Lemma nodes_loop f ids div :
  retouch f →
  let div' :=
    fold_left (λ div v, updateSelected "data-annotation-id" v f div) ids div in
  nodes div' = fold_left (step f) ids (nodes div)
  ∧ arities div' = arities div ∧ own div' = own div.
Proof.
  intros Hf. revert div. induction ids as [|v ids IH]; intros div; [done|].
  cbn [fold_left]. cbv zeta in *.
  destruct (nodes_updateSelected f v div Hf) as (Hn & Ha & Ho).
  destruct (IH (updateSelected "data-annotation-id" v f div))
    as (Hn' & Ha' & Ho').
  by rewrite Hn', Ha', Ho', Hn, Ha, Ho.
Qed.

(** What [update] does to the div itself: it loses its [hidden] attribute
    and nothing else. *)
Definition unhidden div div' : Prop :=
  attributes div' = delete "hidden" (attributes div)
  ∧ tagName div' = tagName div ∧ props div' = props div
  ∧ style div' = style div.

(** What [update] does below the div: the tree keeps its shape; [f] is
    applied to the elements that are selected, and the others stay as they
    are. *)
Definition retouched f ds div div' : Prop :=
  arities div' = arities div
  ∧ length (nodes div') = length (nodes div)
  ∧ ∀ i x, nodes div !! i = Some x →
      (selected ds (nodes div) i → nodes div' !! i = Some (f x))
      ∧ (¬ selected ds (nodes div) i → nodes div' !! i = Some x).

Lemma updated_nodes f ds div :
  retouch f → (∀ x, f (f x) = f x) →
  let div' :=
    removeAttribute "hidden"
      (fold_left (λ div d, updateSelected "data-annotation-id" (id d) f div)
         ds div) in
  unhidden div div' ∧ retouched f ds div div'.
Proof.
  intros Hf Hidem. cbv zeta. rewrite fold_left_ids.
  destruct (nodes_loop f (id <$> ds) div Hf) as (Hn & Ha & Ho).
  cbv zeta in Hn, Ha, Ho.
  set (looped := fold_left _ (id <$> ds) div) in *.
  assert (Hown : ∀ e e' : @Element N, own e' = own e →
            attributes e' = attributes e ∧ tagName e' = tagName e
            ∧ props e' = props e ∧ style e' = style e).
  { intros e e' He. unfold own, setChildren in He. by injection He. }
  destruct (Hown _ _ Ho) as (Hattr & Htag & Hprops & Hstyle).
  destruct Hf as (_ & _ & Hid).
  split.
  - unfold unhidden. simpl. by rewrite Hattr, Htag, Hprops, Hstyle.
  - unfold retouched.
    change (nodes (removeAttribute "hidden" looped)) with (nodes looped).
    change (arities (removeAttribute "hidden" looped)) with (arities looped).
    rewrite Hn, Ha. split; [done|]. split; [apply loop_length|].
    intros i x Hx. rewrite (loop_lookup f Hid _ _ i x Hx). split.
    + intros (d & Hd & Hfirst). f_equal. apply iter_idempotent; [done|].
      eapply hits_pos; [|done]. apply list_elem_of_fmap. by exists d.
    + intros Hsel. rewrite hits_zero; [done|].
      intros v Hv Hfirst. apply Hsel.
      apply list_elem_of_fmap in Hv as (d & -> & Hd). by exists d.
Qed.

(** *** The three functions applied to the selected element *)

Definition setTransform_V1 lp c : @Element N :=
  CustomStyle_setProp "transform" c (matrix (lp_viewport lp)).

Definition setTransform_V3 lp c : @Element N :=
  setStyle "transform" (matrix (lp_viewport lp)) c.

Lemma setStyle_idempotent prop value c :
  setStyle prop value (setStyle prop value c) = setStyle prop value c.
Proof. unfold setStyle. simpl. by rewrite insert_insert_eq. Qed.

Lemma setTransform_V1_idempotent lp c :
  setTransform_V1 lp (setTransform_V1 lp c) = setTransform_V1 lp c.
Proof.
  unfold setTransform_V1, CustomStyle_setProp.
  destruct (customStyleName "transform"); [apply setStyle_idempotent|done].
Qed.

Lemma setTransform_V1_id lp c :
  annotationId (setTransform_V1 lp c) = annotationId c.
Proof.
  unfold setTransform_V1, CustomStyle_setProp.
  by destruct (customStyleName "transform").
Qed.

Lemma setTransform_V1_bare lp c : bare c → bare (setTransform_V1 lp c).
Proof.
  unfold setTransform_V1, CustomStyle_setProp.
  by destruct (customStyleName "transform").
Qed.

(** Rescaling changes styles only: the identifiers in the tree stay. *)
Lemma rescaleInner_attributes scale scaleX height c :
  attributes (V2.rescaleInner scale scaleX height c) = attributes c
  ∧ children (V2.rescaleInner scale scaleX height c) = children c.
Proof. unfold V2.rescaleInner. by repeat case_match. Qed.

Lemma mapDescendants_unfold (g : @Element N → @Element N) e :
  V2.mapDescendants g e
  = setChildren
      ((λ c, if String.eqb (tagName c) "#text" then c
             else g (V2.mapDescendants g c)) <$> children e) e.
Proof. by destruct e. Qed.

Lemma mapDescendants_ids (g : @Element N → @Element N) e :
  (∀ x, attributes (g x) = attributes x ∧ children (g x) = children x) →
  annotationId <$> subtree (V2.mapDescendants g e) = annotationId <$> subtree e.
Proof.
  intros Hg. induction e as [e IH] using Element_tree_ind.
  rewrite mapDescendants_unfold, !subtree_unfold. simpl. f_equal.
  induction (children e) as [|c cs IHcs]; [done|].
  apply Forall_cons in IH as [Hc Hcs]. simpl. rewrite !fmap_app.
  f_equal; [|by apply IHcs].
  destruct (String.eqb (tagName c) "#text"); [done|].
  rewrite <- Hc.
  rewrite (subtree_unfold (g _)), (subtree_unfold (V2.mapDescendants g c)).
  destruct (Hg (V2.mapDescendants g c)) as [Ha Hch].
  rewrite !fmap_cons. unfold annotationId at 1 3. by rewrite Ha, Hch.
Qed.

Lemma rescaleElement_id v c :
  annotationId (V2.rescaleElement v c) = annotationId c.
Proof.
  unfold V2.rescaleElement. cbn zeta. rewrite mapDescendants_unfold.
  unfold annotationId. autorewrite with dom. by simplify_map_eq.
Qed.

Lemma rescaleElement_bare v c : bare c → bare (V2.rescaleElement v c).
Proof.
  unfold bare, V2.rescaleElement. intros Hc.
  set (g := V2.rescaleInner _ _ _).
  set (e := setAttribute _ _ _).
  assert (Hids : annotationId <$> subtree (V2.mapDescendants g e)
                 = annotationId <$> subtree e)
    by (apply mapDescendants_ids; intros; apply rescaleInner_attributes).
  rewrite !subtree_unfold, !fmap_cons in Hids.
  apply (f_equal tail) in Hids. cbn [tail] in Hids.
  assert (Hc' : Forall (λ k, k = None)
                   (annotationId <$> flat_map subtree (children c)))
    by (by apply Forall_fmap).
  apply (Forall_fmap annotationId (λ k : option string, k = None)).
  rewrite Hids. subst e. exact Hc'.
Qed.

(** *** The element that the second revision rescales *)

(** [parseFloat(value) / scale * factor + 'px'] *)
Definition scaledTo (scale factor : N) (value : string) : string :=
  px (nmul (ndiv (parseFloat value) scale) factor).

(** [parseFloat(element.getAttribute('scale'))] *)
Definition oldScale c : N :=
  parseFloat (default "null" (attributes c !! "scale")).

(** The height that the selected element [c] gets. *)
Definition newHeight (v : @Viewport N) c : string :=
  scaledTo (oldScale c) (t3 (transform v)) (getStyle "height" c).

(** The selected element [c] itself: its [scale] attribute becomes the
    horizontal scale of the new viewport; [left] and [width] are divided by
    the old scale and multiplied by the horizontal one, [top] and [height] by
    the vertical one. *)
Definition rescaledSelf (v : @Viewport N) c c' : Prop :=
  tagName c' = tagName c ∧ props c' = props c
  ∧ attributes c' = <["scale" := nstr (t0 (transform v))]> (attributes c)
  ∧ style c'
    = <["height" := newHeight v c]>
        (<["width" := scaledTo (oldScale c) (t0 (transform v))
                        (getStyle "width" c)]>
           (<["top" := scaledTo (oldScale c) (t3 (transform v))
                         (getStyle "top" c)]>
              (<["left" := scaledTo (oldScale c) (t0 (transform v))
                             (getStyle "left" c)]> (style c)))).

(** An element [x] below the selected element [c]: a [fontSize], [width] or
    [height] that is set is divided by the old scale and multiplied by the
    horizontal one, a [lineHeight] that is set becomes the new height of
    [c]; a text node stays as it is. *)
Definition rescaledInner (v : @Viewport N) c (x x' : @Element N) : Prop :=
  if String.eqb (tagName x) "#text" then x' = x
  else
    tagName x' = tagName x ∧ attributes x' = attributes x
    ∧ props x' = props x
    ∧ ∀ k, style x' !! k
           = if bool_decide (k ∈ ["fontSize"; "width"; "height"])
                && negb (String.eqb (getStyle k x) "")
             then Some (scaledTo (oldScale c) (t0 (transform v))
                          (getStyle k x))
             else if bool_decide (k = "lineHeight")
                     && negb (String.eqb (getStyle k x) "")
             then Some (newHeight v c)
             else style x !! k.

(** Text nodes have no children. *)
Definition textLeaves c : Prop :=
  Forall (λ x, tagName x = "#text" → children x = []) (descendants c).

Definition rescaled (v : @Viewport N) c c' : Prop :=
  rescaledSelf v c c' ∧ arities c' = arities c
  ∧ Forall2 (rescaledInner v c) (nodes c) (nodes c').

(** One statement of the callback: [if (e.style[k]) e.style[k] = ...]. *)
Definition restyle (k : string) (value : string → string) (x : @Element N)
    : @Element N :=
  if negb (String.eqb (getStyle k x) "") then setStyle k (value (getStyle k x)) x
  else x.

Lemma rescaleInner_restyle scale scaleX height (x : @Element N) :
  V2.rescaleInner scale scaleX height x
  = restyle "lineHeight" (λ _, height)
      (restyle "height" (λ value, V2.rescale value scale scaleX)
         (restyle "width" (λ value, V2.rescale value scale scaleX)
            (restyle "fontSize" (λ value, V2.rescale value scale scaleX) x))).
Proof. reflexivity. Qed.

Lemma restyle_own k value (x : @Element N) :
  own (restyle k value x) = restyle k value (own x).
Proof. destruct x. unfold restyle, getStyle. simpl. by case_match. Qed.

Lemma restyle_frame k value (x : @Element N) :
  tagName (restyle k value x) = tagName x
  ∧ attributes (restyle k value x) = attributes x
  ∧ props (restyle k value x) = props x
  ∧ children (restyle k value x) = children x.
Proof. unfold restyle. by case_match. Qed.

Lemma restyle_lookup k value (x : @Element N) k' :
  style (restyle k value x) !! k'
  = if bool_decide (k' = k) && negb (String.eqb (getStyle k x) "")
    then Some (value (getStyle k x)) else style x !! k'.
Proof.
  unfold restyle. destruct (negb _); simpl.
  - case_bool_decide; simpl; by simplify_map_eq.
  - by rewrite andb_false_r.
Qed.

Lemma restyle_getStyle k value (x : @Element N) k' :
  k' ≠ k → getStyle k' (restyle k value x) = getStyle k' x.
Proof.
  intros Hk. unfold getStyle at 1. rewrite restyle_lookup.
  by rewrite bool_decide_false.
Qed.

Lemma rescaleInner_own scale scaleX height (x : @Element N) :
  own (V2.rescaleInner scale scaleX height x)
  = V2.rescaleInner scale scaleX height (own x).
Proof. by rewrite !rescaleInner_restyle, !restyle_own. Qed.

Lemma nodes_mapDescendants (g : @Element N → @Element N) e :
  (∀ x, own (g x) = g (own x)) → (∀ x, children (g x) = children x) →
  textLeaves e →
  nodes (V2.mapDescendants g e)
  = (λ x, if String.eqb (tagName x) "#text" then x else g x) <$> nodes e
  ∧ arities (V2.mapDescendants g e) = arities e.
Proof.
  intros Hown Hchildren. induction e as [e IH] using Element_tree_ind.
  unfold textLeaves, nodes, arities, descendants.
  rewrite mapDescendants_unfold, children_setChildren.
  induction (children e) as [|c cs IHcs]; [done|].
  apply Forall_cons in IH as [Hc Hcs]. intros Hleaves.
  cbn [flat_map] in Hleaves. rewrite subtree_unfold in Hleaves.
  apply Forall_cons in Hleaves as [Hleaf Hleaves].
  apply Forall_app in Hleaves as [Hbelow Hrest].
  destruct (IHcs Hcs Hrest) as [Hnodes Harity].
  rewrite fmap_cons. cbn [flat_map]. rewrite !fmap_app, Hnodes, Harity.
  destruct (String.eqb (tagName c) "#text") eqn:Htext.
  - apply String.eqb_eq in Htext. specialize (Hleaf Htext).
    rewrite subtree_unfold, Hleaf. cbn [flat_map fmap list_fmap app].
    split; [|done]. f_equal.
    change (tagName (own c)) with (tagName c). rewrite Htext.
    by rewrite String.eqb_refl.
  - destruct (Hc Hbelow) as [Hn Ha].
    unfold nodes, arities, descendants in Hn, Ha.
    rewrite (subtree_unfold (g _)), (subtree_unfold c), Hchildren.
    rewrite !fmap_cons, Hn, Ha, Hown. cbn [compose]. rewrite Hchildren.
    split.
    + cbn [app]. f_equal.
      change (tagName (own c)) with (tagName c). rewrite Htext.
      f_equal. by rewrite mapDescendants_unfold.
    + cbn [app]. f_equal. rewrite mapDescendants_unfold.
      by rewrite children_setChildren, length_fmap.
Qed.

Lemma rescaleInner_rescaledInner (v : @Viewport N) c (x : @Element N) :
  rescaledInner v c x
    (if String.eqb (tagName x) "#text" then x
     else V2.rescaleInner (oldScale c) (t0 (transform v)) (newHeight v c) x).
Proof.
  unfold rescaledInner. destruct (String.eqb (tagName x) "#text"); [done|].
  rewrite rescaleInner_restyle.
  repeat split;
    try (do 3 (etrans; [apply restyle_frame|]); apply restyle_frame).
  intros k. rewrite !restyle_lookup.
  rewrite !restyle_getStyle by done.
  unfold V2.rescale, scaledTo.
  destruct (decide (k = "fontSize")) as [->|];
    [|destruct (decide (k = "width")) as [->|];
      [|destruct (decide (k = "height")) as [->|];
        [|destruct (decide (k = "lineHeight")) as [->|]]]].
  all: repeat first
         [ rewrite bool_decide_true by (first [done | set_solver])
         | rewrite bool_decide_false by (first [done | set_solver]) ].
  all: cbn [andb]; by repeat case_match.
Qed.

Lemma rescaleElement_rescaled (v : @Viewport N) c :
  textLeaves c → rescaled v c (V2.rescaleElement v c).
Proof.
  intros Hleaves. unfold V2.rescaleElement. cbv zeta.
  set (scale := parseFloat _).
  set (e := setAttribute _ _ _).
  set (g := V2.rescaleInner _ _ _).
  assert (Hg : g = V2.rescaleInner (oldScale c) (t0 (transform v))
                 (newHeight v c)).
  { subst g e scale. unfold newHeight, scaledTo, oldScale, V2.rescale,
      getAttribute, getStyle, setStyle, setAttribute. simpl.
    by simplify_map_eq. }
  destruct (nodes_mapDescendants g e) as [Hnodes Harity].
  { intros x. apply rescaleInner_own. }
  { intros x. apply rescaleInner_attributes. }
  { exact Hleaves. }
  split; [|split].
  - rewrite mapDescendants_unfold. subst e scale.
    unfold rescaledSelf, newHeight, scaledTo, oldScale, V2.rescale,
      getAttribute, getStyle, setStyle, setAttribute. simpl.
    repeat (split; [done|]). by simplify_map_eq.
  - by rewrite Harity.
  - rewrite Hnodes. change (nodes e) with (nodes c).
    apply Forall2_fmap_r, Forall_Forall2_diag, Forall_forall.
    intros x _. rewrite Hg. apply rescaleInner_rescaledInner.
Qed.

Lemma setTransform_V1_retouch lp : retouch (setTransform_V1 lp).
Proof.
  split; [|split]; intros x; unfold setTransform_V1, CustomStyle_setProp;
    by destruct (customStyleName "transform").
Qed.

Lemma setTransform_V3_retouch lp : retouch (setTransform_V3 lp).
Proof. by split; [|split]. Qed.

(** Whatever is done to the selected elements, the div itself only loses its
    [hidden] attribute. *)
Lemma updated_div f ds div :
  unhidden div
    (removeAttribute "hidden"
       (fold_left (λ div d, updateSelected "data-annotation-id" (id d) f div)
          ds div)).
Proof.
  assert (Hloop : own (fold_left
                         (λ div d,
                            updateSelected "data-annotation-id" (id d) f div)
                         ds div) = own div).
  { revert div. induction ds as [|d ds IH]; intros div; [done|].
    cbn [fold_left]. rewrite IH. unfold updateSelected.
    by destruct (updateFirstForest _ f (children div)). }
  unfold own, setChildren in Hloop. injection Hloop as Htag Hattr Hprops Hst.
  unfold unhidden. simpl. by rewrite Htag, Hattr, Hprops, Hst.
Qed.

(** C2, as amended.  Let every entry of [parameters.annotations] be an
    annotation (none is [null]).  Then [update] returns normally and the div
    loses its [hidden] attribute and nothing else.  Where the transform of
    the container is set, the tree below the div keeps its shape, and for
    each annotation of the parameters the first element in document order
    that carries its identifier gets the matrix of the new viewport as its
    transform (in the first revision through [CustomStyle.setProp]); every
    other element stays as it is.  Where the containers are scaled instead,
    and the layer is flat as [render] builds it, a child that is not selected
    stays as it is; when the identifiers of the annotations are pairwise
    distinct, the selected child gets the new horizontal scale as its [scale]
    attribute, its [left] and [width] are divided by the old scale and
    multiplied by the new horizontal one, its [top] and [height] by the new
    vertical one, and below it every [fontSize], [width] and [height] that is
    set is rescaled horizontally and every [lineHeight] that is set becomes
    the new height of the child.  Last, an element whose identifier is that
    of no annotation is never selected. *)
Theorem update_first_with_id lp ds div :
  annotations lp = Some <$> ds →
  (∃ div', V1.update lp div = (Normal tt, div')
           ∧ unhidden div div' ∧ retouched (setTransform_V1 lp) ds div div')
  ∧ (∃ div', V3.update lp div = (Normal tt, div')
             ∧ unhidden div div'
             ∧ retouched (setTransform_V3 lp) ds div div')
  ∧ (∃ div', V2.update lp div = (Normal tt, div')
             ∧ unhidden div div'
             ∧ (flat div →
                kept ds div div'
                ∧ (NoDup (id <$> ds) →
                   ∀ i c, children div !! i = Some c →
                          selected ds (children div) i → textLeaves c →
                          ∃ c', children div' !! i = Some c'
                                ∧ rescaled (lp_viewport lp) c c')))
  ∧ (∀ i x, nodes div !! i = Some x →
            (∀ d, d ∈ ds → annotationId x ≠ Some (id d)) →
            ¬ selected ds (nodes div) i).
Proof.
  intros Hds. split; [|split; [|split]].
  - eexists. split.
    + unfold V1.update, exec_bind. rewrite Hds.
      rewrite (for_each_modify
                 (λ d, updateSelected "data-annotation-id" (id d)
                         (setTransform_V1 lp))) by done.
      reflexivity.
    + apply updated_nodes;
        [apply setTransform_V1_retouch | apply setTransform_V1_idempotent].
  - eexists. split.
    + unfold V3.update, exec_bind. rewrite Hds.
      rewrite (for_each_modify
                 (λ d, updateSelected "data-annotation-id" (id d)
                         (setTransform_V3 lp))) by done.
      reflexivity.
    + apply updated_nodes; [apply setTransform_V3_retouch|].
      intros c. apply setStyle_idempotent.
  - eexists. split; [|split].
    + unfold V2.update, exec_bind. rewrite Hds.
      rewrite (for_each_modify
                 (λ d, updateSelected "data-annotation-id" (id d)
                         (V2.rescaleElement (lp_viewport lp)))) by done.
      reflexivity.
    + apply updated_div.
    + intros Hflat. split.
      * apply updated_layer;
          [apply rescaleElement_id | apply rescaleElement_bare | done].
      * intros Hnd i c Hc Hsel Hleaves. eexists. split.
        -- apply updated_once;
             [apply rescaleElement_id | apply rescaleElement_bare
             | done | done | exact Hc | exact Hsel].
        -- by apply rescaleElement_rescaled.
  - intros i x Hx Hnone Hsel.
    destruct (selected_id ds _ i x Hx Hsel) as (d & Hd & Hid).
    by apply (Hnone d).
Qed.

End Update.

Import Sample.

(** A link, and the layer after it has been rendered twice. *)
Definition link : @AnnotationData Z := blank "12R" 2.

Definition once : @Element Z :=
  (V1.render plainBody (layerParameters 1 [Some link]) layerDiv).2.

Definition twice : @Element Z :=
  (V1.render plainBody (layerParameters 1 [Some link]) once).2.

Lemma once_flat : flat once.
Proof. repeat constructor. Qed.

Example update_once :
  ∃ div' c, V1.update (layerParameters 3 [Some link]) once = (Normal tt, div')
            ∧ children div' = [c]
            ∧ style c !! "transform" = Some "matrix(3,0,0,3,0,0)"
            ∧ attributes div' !! "hidden" = None.
Proof.
  eexists _, _. split; [vm_compute; reflexivity|].
  split; [reflexivity|]. split; by vm_compute.
Qed.

(** The container of a highlight with a note as the revision that scales the
    containers builds it, and what [update] makes of it when the scale
    doubles. *)
Definition sticky : @AnnotationData Z :=
  with_text "Title" "note" (blank "3R" 9).

Definition onceScaled : @Element Z :=
  (V2.render plainBody (layerParameters 1 [Some sticky]) layerDiv).2.

Example update_rescales :
  ∃ div' c c',
    children onceScaled = [c]
    ∧ V2.update (layerParameters 2 [Some sticky]) onceScaled = (Normal tt, div')
    ∧ children div' = [c']
    ∧ (style c !! "left", style c !! "top", style c !! "width",
       style c !! "height", attributes c !! "scale")
      = (Some "10px", Some "772px", Some "100px", Some "50px", Some "1")
    ∧ (style c' !! "left", style c' !! "top", style c' !! "width",
       style c' !! "height", attributes c' !! "scale")
      = (Some "20px", Some "1544px", Some "200px", Some "100px", Some "2").
Proof.
  eexists _, _, _. split; [vm_compute; reflexivity|].
  split; [vm_compute; reflexivity|]. split; [reflexivity|].
  split; by vm_compute.
Qed.

(** Reading [data.id] of a [null] entry throws, and the div stays hidden. *)
Example update_null_entry :
  V1.update (layerParameters 3 [None]) once
  = (Throw (TypeError "data is null"), once).
Proof. reflexivity. Qed.

(** C2 fails as stated: of two elements that carry the identifier of the
    annotation, the second keeps its old transform. *)
Lemma update_skips_second :
  ∃ div' c,
    V1.update (layerParameters 3 [Some link]) twice = (Normal tt, div')
    ∧ children div' !! 1%nat = Some c
    ∧ annotationId c = Some (id link)
    ∧ style c !! "transform" ≠ Some (matrix (scaled 3)).
Proof.
  eexists _, _. split; [vm_compute; reflexivity|].
  split; [reflexivity|]. split; [by vm_compute|].
  vm_compute. discriminate.
Qed.

Lemma update_first_with_id_witness :
  annotations (layerParameters 3 [Some link]) = Some <$> [link]
  ∧ ∃ div', V3.update (layerParameters 3 [Some link]) once = (Normal tt, div')
            ∧ unhidden once div'
            ∧ retouched (setTransform_V3 (layerParameters 3 [Some link]))
                [link] once div'.
Proof.
  split; [reflexivity|].
  exact (proj1 (proj2 (update_first_with_id (layerParameters 3 [Some link])
                         [link] once eq_refl))).
Defined.

End UpdateTheory.

(** ** [AnnotationElementFactory.create] and [AnnotationLayer.render] *)

Module RenderTheory.
Import Annot DomTheory ContainerTheory UpdateTheory.
Section Render.
Context {N : Type} `{JsNumber N} `{!Util (N:=N)}.
Implicit Types (e c div layer : @Element N) (cs : list (@Element N)).
Implicit Types (d : @AnnotationData N) (p : @Parameters N).
Implicit Types (lp : @LayerParameters N).
Implicit Types (entries : list (option (@AnnotationData N))).

(** The entries of the array that are not [null], in order. *)
Definition present entries : list (@AnnotationData N) :=
  omap (λ entry, entry) entries.



(** A widget whose field type is none of ['Tx'], ['Btn'] and ['Ch']; the
    [case] of widgets is reached when the constant differs from those of the
    two cases before it. *)
Definition unsupportedWidget d : Prop :=
  annotationType d = AT_WIDGET ∧ AT_WIDGET ≠ AT_LINK ∧ AT_WIDGET ≠ AT_TEXT
  ∧ ∀ s, fieldType d = Some s → s ≠ "Tx" ∧ s ≠ "Btn" ∧ s ≠ "Ch".


(** What the constructor of a file attachment does after the base
    constructor: it reads [data.file], which throws when there is none, and
    tells the link service. *)
Definition attached p : Completion unit :=
  match file (data p) with
  | None => Throw (TypeError "this.data.file is undefined")
  | Some f => onFileAttachmentAnnotation (linkService p) f
  end.

Lemma eqb_refl_false (a b : Z) : a ≠ b → (a =? b) = false.
Proof. apply Z.eqb_neq. Qed.










(** The factory returns the element unless the constructor of a file
    attachment throws. *)
Lemma instantiate_spec baseArguments createContainer cls p :
  instantiate (N:=N) baseArguments createContainer cls p
  = match cls with
    | FileAttachmentAnnotationElement =>
        match attached p with
        | Normal _ => Normal (construct baseArguments createContainer cls p)
        | Throw e => Throw e
        end
    | _ => Normal (construct baseArguments createContainer cls p)
    end.
Proof. by destruct cls. Qed.

(** An element has a container exactly when it is renderable. *)
Lemma construct_container_iff baseArguments createContainer cls p :
  is_Some (container (construct (N:=N) baseArguments createContainer cls p))
  ↔ isRenderable (construct baseArguments createContainer cls p) = true.
Proof.
  rewrite construct_container. by destruct (isRenderable _).
Qed.

(** *** The loop of [render] *)

Section Loop.
Context {D S : Type} (divOf : S → @Element N).
Context (renderable : D → bool) (built : D → Completion unit).
Context (rendered : D → Completion (@Element N) → Prop).

(** One turn of the loop for the annotation [d]: when it returns, the
    constructor has returned, and the div has received the element that
    [render] returned if the element is renderable, and nothing otherwise;
    when it throws, the constructor has thrown, or the element is renderable
    and [render] has thrown, and the div is as it was. *)
Definition turn_outcome (d : D) (s : S) (r : Completion unit * S) : Prop :=
  match r.1 with
  | Normal _ =>
      built d = Normal tt
      ∧ if renderable d
        then ∃ c, rendered d (Normal c) ∧ divOf r.2 = appendChild c (divOf s)
        else divOf r.2 = divOf s
  | Throw e =>
      divOf r.2 = divOf s
      ∧ (built d = Throw e
         ∨ (built d = Normal tt ∧ renderable d = true
            ∧ rendered d (Throw e)))
  end.

(** The loop over the annotations [ds]: the div keeps what it has and
    receives children, one for each renderable annotation among those that
    have been processed, in their order.  When the loop returns, all the
    annotations have been processed; when it throws, the exception is that
    of the constructor or of [render] of the first annotation that has not
    been processed, and the annotations behind it are never looked at. *)
Definition loop_outcome (ds : list D) (result : Completion unit)
    (div div' : @Element N) : Prop :=
  ∃ processed appended,
    div' = setChildren (children div ++ appended) div
    ∧ Forall (λ d : D, built d = Normal tt) processed
    ∧ Forall2 (λ (d : D) c, rendered d (Normal c))
        (List.filter renderable processed) appended
    ∧ match result with
      | Normal _ => processed = ds
      | Throw e =>
          ∃ (d : D) rest, ds = processed ++ d :: rest
                    ∧ (built d = Throw e
                       ∨ (built d = Normal tt ∧ renderable d = true
                          ∧ rendered d (Throw e)))
      end.

Lemma append_loop (turn : D → Exec S unit) ds s :
  (∀ (d : D) s, turn_outcome d s (turn d s)) →
  loop_outcome ds (for_each turn ds s).1 (divOf s)
    (divOf (for_each turn ds s).2).
Proof.
  intros Hturn. revert s. induction ds as [|d ds IH]; intros s.
  - exists [], []. simpl. rewrite app_nil_r.
    split; [by destruct (divOf s)|]. by repeat split.
  - cbn [for_each]. unfold exec_bind. specialize (Hturn d s).
    unfold turn_outcome in Hturn.
    destruct (turn d s) as [[[]|e] s']; simpl in Hturn.
    + destruct Hturn as [Hbuilt Hdiv].
      destruct (IH s') as (processed & appended & Hdiv' & Hall & Happ & Hres).
      destruct (renderable d) eqn:Hr.
      * destruct Hdiv as (c & Hc & Hs').
        exists (d :: processed), (c :: appended).
        split; [|split; [|split]].
        -- rewrite Hdiv', Hs'. unfold appendChild, setChildren. simpl.
           by rewrite <- app_assoc.
        -- by constructor.
        -- cbn [List.filter]. rewrite Hr. by constructor.
        -- destruct (for_each turn ds s').1 as [[]|e]; [by subst|].
           destruct Hres as (d' & rest & -> & Hd'). by exists d', rest.
      * exists (d :: processed), appended. split; [|split; [|split]].
        -- by rewrite Hdiv', Hdiv.
        -- by constructor.
        -- cbn [List.filter]. by rewrite Hr.
        -- destruct (for_each turn ds s').1 as [[]|e]; [by subst|].
           destruct Hres as (d' & rest & -> & Hd'). by exists d', rest.
    + destruct Hturn as [Hdiv Hthrow]. exists [], []. simpl.
      rewrite app_nil_r, Hdiv. split; [by destruct (divOf s)|].
      split; [constructor|]. split; [constructor|]. by exists d, ds.
Qed.

(** When no constructor and no [render] throws, the loop returns, and the
    children that the div has received are those of all the renderable
    annotations. *)
Lemma loop_outcome_quiet ds result div div' :
  loop_outcome ds result div div' →
  (∀ d : D, d ∈ ds → built d = Normal tt ∧ ∀ err, ¬ rendered d (Throw err)) →
  result = Normal tt
  ∧ ∃ appended,
      div' = setChildren (children div ++ appended) div
      ∧ Forall2 (λ (d : D) c, rendered d (Normal c)) (List.filter renderable ds)
          appended.
Proof.
  intros (processed & appended & Hdiv & _ & Happ & Hres) Hquiet.
  destruct result as [[]|e].
  - subst processed. split; [done|]. by exists appended.
  - destruct Hres as (d & rest & -> & Hd). exfalso.
    destruct (Hquiet d) as [Hbuilt Hrender].
    { apply elem_of_app. right. by left. }
    destruct Hd as [Hd|(_ & _ & Hd)]; [congruence|by apply (Hrender e)].
Qed.

End Loop.

(** The [null] entries of the array are skipped. *)
Lemma for_each_present {S} (turn : option (@AnnotationData N) → Exec S unit)
    entries s :
  (∀ s, turn None s = (Normal tt, s)) →
  for_each turn entries s = for_each (λ d, turn (Some d)) (present entries) s.
Proof.
  intros Hnull. revert s. induction entries as [|[d|] entries IH]; intros s.
  - done.
  - cbn [for_each present omap list_omap]. unfold exec_bind.
    destruct (turn (Some d) s) as [[[]|e] s']; [apply IH|done].
  - cbn [for_each present omap list_omap]. unfold exec_bind.
    rewrite Hnull. apply IH.
Qed.

(** *** The children that [render] appends *)

Section Plain.
Context (renderOther : ElementClass → @Parameters N → @Element N →
                       @Element N → Completion (@Element N)).

(** The element of the annotation [d] as the base constructor leaves it. *)
Definition element_V1 lp d : @AnnotationElementObject N :=
  let ep := V1.elementParameters lp d in
  construct V1.baseArguments V1._createContainer (V1.create_class ep) ep.

Definition renderable_V1 lp d : bool := isRenderable (element_V1 lp d).

(** The statements of its constructor behind the call of the base
    constructor. *)
Definition built_V1 lp d : Completion unit :=
  let ep := V1.elementParameters lp d in
  match V1.create_class ep with
  | FileAttachmentAnnotationElement => attached ep
  | _ => Normal tt
  end.

(** What [render] of its element returns on the given layer. *)
Definition rendered_V1 lp layer d : Completion (@Element N) :=
  let ep := V1.elementParameters lp d in
  V1.render_element renderOther (element_V1 lp d) layer
    (V1._createContainer ep (V1.baseArguments (V1.create_class ep) ep).2).

Lemma V1_renderAnnotation_spec lp d div :
  turn_outcome (λ div, div) (renderable_V1 lp) (built_V1 lp)
    (λ d r, ∃ layer, rendered_V1 lp layer d = r) d div
    (V1.renderAnnotation renderOther lp (Some d) div).
Proof.
  unfold turn_outcome, V1.renderAnnotation, V1.create.
  unfold renderable_V1, built_V1, rendered_V1, element_V1. cbv zeta.
  set (ep := V1.elementParameters lp d).
  assert (Hcreate : instantiate V1.baseArguments V1._createContainer
                      (V1.create_class ep) ep
                    = match match V1.create_class ep with
                            | FileAttachmentAnnotationElement => attached ep
                            | _ => Normal tt
                            end with
                      | Normal _ =>
                          Normal (construct V1.baseArguments
                                    V1._createContainer
                                    (V1.create_class ep) ep)
                      | Throw e => Throw e
                      end).
  { rewrite instantiate_spec. by destruct (V1.create_class ep). }
  rewrite Hcreate. clear Hcreate.
  destruct (match V1.create_class ep with
            | FileAttachmentAnnotationElement => attached ep
            | _ => Normal tt
            end) as [[]|e]; [|by split; [|left]].
  rewrite construct_container.
  destruct (isRenderable _) eqn:Hr; [|done].
  destruct (V1.render_element _ _ _ _) as [c|e] eqn:Hc; simpl.
  - split; [done|]. exists c. split; [by exists div|done].
  - split; [done|]. right. split; [done|]. split; [done|]. by exists div.
Qed.

Definition element_V2 lp d : @AnnotationElementObject N :=
  let ep := V2.elementParameters lp d in
  construct V2.baseArguments V2._createContainer (V2.create_class ep) ep.

Definition renderable_V2 lp d : bool := isRenderable (element_V2 lp d).

Definition built_V2 lp d : Completion unit :=
  let ep := V2.elementParameters lp d in
  match V2.create_class ep with
  | FileAttachmentAnnotationElement => attached ep
  | _ => Normal tt
  end.

Definition rendered_V2 lp layer d : Completion (@Element N) :=
  let ep := V2.elementParameters lp d in
  V2.render_element renderOther (element_V2 lp d) layer
    (V2._createContainer ep (V2.baseArguments (V2.create_class ep) ep).2).

Lemma V2_renderAnnotation_spec lp d div :
  turn_outcome (λ div, div) (renderable_V2 lp) (built_V2 lp)
    (λ d r, ∃ layer, rendered_V2 lp layer d = r) d div
    (V2.renderAnnotation renderOther lp (Some d) div).
Proof.
  unfold turn_outcome, V2.renderAnnotation, V2.create.
  unfold renderable_V2, built_V2, rendered_V2, element_V2. cbv zeta.
  set (ep := V2.elementParameters lp d).
  assert (Hcreate : instantiate V2.baseArguments V2._createContainer
                      (V2.create_class ep) ep
                    = match match V2.create_class ep with
                            | FileAttachmentAnnotationElement => attached ep
                            | _ => Normal tt
                            end with
                      | Normal _ =>
                          Normal (construct V2.baseArguments
                                    V2._createContainer
                                    (V2.create_class ep) ep)
                      | Throw e => Throw e
                      end).
  { rewrite instantiate_spec. by destruct (V2.create_class ep). }
  rewrite Hcreate. clear Hcreate.
  destruct (match V2.create_class ep with
            | FileAttachmentAnnotationElement => attached ep
            | _ => Normal tt
            end) as [[]|e]; [|by split; [|left]].
  rewrite construct_container.
  destruct (isRenderable _) eqn:Hr; [|done].
  destruct (V2.render_element _ _ _ _) as [c|e] eqn:Hc; simpl.
  - split; [done|]. exists c. split; [by exists div|done].
  - split; [done|]. right. split; [done|]. split; [done|]. by exists div.
Qed.

End Plain.

(** *** The revision with a storage: the order of rendering *)

Definition isPopup d : bool := annotationType d =? AT_POPUP.

Lemma sortAnnotations_spec entries (sorted popups : list (@AnnotationData N)) :
  V3.sortAnnotations entries sorted popups
  = (sorted ++ List.filter (λ d, negb (isPopup d)) (present entries),
     popups ++ List.filter isPopup (present entries)).
Proof.
  revert sorted popups.
  induction entries as [|[d|] entries IH]; intros sorted popups; simpl.
  - by rewrite !app_nil_r.
  - unfold present. simpl. fold (present entries). unfold isPopup in *.
    destruct (annotationType d =? AT_POPUP) eqn:Hd; rewrite IH; simpl;
      by rewrite <- app_assoc.
  - apply IH.
Qed.

(** The Popup annotations are moved behind the others; the order is kept
    within both groups. *)
Lemma sortedAnnotations_spec entries :
  V3.sortedAnnotations entries
  = List.filter (λ d, negb (isPopup d)) (present entries)
    ++ List.filter isPopup (present entries).
Proof.
  unfold V3.sortedAnnotations. rewrite sortAnnotations_spec. simpl.
  case_bool_decide as Hnil; [|done]. by rewrite Hnil, app_nil_r.
Qed.

Section Stored.
Context {AnnotationStorage : Type} `{!StorageMethods (N:=N) AnnotationStorage}.
Context (renderOther : ElementClass → @Parameters N → @Element N →
                       @Element N → AnnotationStorage →
                       Completion (@Element N) * AnnotationStorage).
Implicit Types (storage : AnnotationStorage).
Implicit Types (given : option AnnotationStorage).

Definition element_V3 lp d : @AnnotationElementObject N :=
  let ep := V3.elementParameters lp d in
  construct V3.baseArguments V3._createContainer (V3.create_class ep) ep.

Definition renderable_V3 lp d : bool := isRenderable (element_V3 lp d).

Definition built_V3 lp d : Completion unit :=
  let ep := V3.elementParameters lp d in
  match V3.create_class ep with
  | FileAttachmentAnnotationElement => attached ep
  | _ => Normal tt
  end.

(** What [render] of its element returns on the given layer and with the
    given storage, and the storage afterwards. *)
Definition rendered_V3 lp layer storage d
    : Completion (@Element N) * AnnotationStorage :=
  let ep := V3.elementParameters lp d in
  V3.render_element renderOther (element_V3 lp d) layer
    (V3._createContainer ep (V3.baseArguments (V3.create_class ep) ep).2)
    storage.

Lemma V3_renderAnnotation_spec lp d (state : @Element N * option AnnotationStorage) :
  turn_outcome fst (renderable_V3 lp) (built_V3 lp)
    (λ d r, ∃ layer storage, (rendered_V3 lp layer storage d).1 = r) d state
    (V3.renderAnnotation renderOther lp d state).
Proof.
  destruct state as [div given].
  unfold turn_outcome, V3.renderAnnotation, V3.create.
  unfold renderable_V3, built_V3, rendered_V3, element_V3. cbv zeta.
  set (ep := V3.elementParameters lp d).
  assert (Hcreate : instantiate V3.baseArguments V3._createContainer
                      (V3.create_class ep) ep
                    = match match V3.create_class ep with
                            | FileAttachmentAnnotationElement => attached ep
                            | _ => Normal tt
                            end with
                      | Normal _ =>
                          Normal (construct V3.baseArguments
                                    V3._createContainer
                                    (V3.create_class ep) ep)
                      | Throw e => Throw e
                      end).
  { rewrite instantiate_spec. by destruct (V3.create_class ep). }
  rewrite Hcreate. clear Hcreate.
  destruct (match V3.create_class ep with
            | FileAttachmentAnnotationElement => attached ep
            | _ => Normal tt
            end) as [[]|e]; [|by split; [|left]].
  rewrite construct_container.
  destruct (isRenderable _) eqn:Hr; [|done].
  destruct (V3.render_element _ _ _ _ _) as [[c|e] storage'] eqn:Hc; simpl.
  - split; [done|]. exists c. split; [|done].
    exists div, (default newAnnotationStorage given). by rewrite Hc.
  - split; [done|]. right. split; [done|]. split; [done|].
    exists div, (default newAnnotationStorage given). by rewrite Hc.
Qed.

(** The class-specific [render] methods that are left abstract keep the
    identifier of the container when they return. *)
Definition keepsId : Prop :=
  ∀ cls p layer c storage rendered storage',
    renderOther cls p layer c storage = (Normal rendered, storage') →
    annotationId rendered = annotationId c.

(** The class-specific [render] methods keep the identifier that
    [_createContainer] gives the container. *)
Lemma V3_createContainer_id p ignoreBorder :
  annotationId (V3._createContainer p ignoreBorder) = Some (id (data p)).
Proof.
  unfold V3._createContainer, annotationId, applyBorderColor.
  repeat match goal with
         | |- context [if ?b then _ else _] => destruct b eqn:?
         | |- context [match ?o with Some _ => _ | None => _ end] =>
             destruct o eqn:?
         end; dom_unfold; by simplify_map_eq.
Qed.

Lemma V3_render_checkbox_id p c storage :
  annotationId (V3.render_checkbox p c storage).1 = annotationId c.
Proof.
  unfold V3.render_checkbox. destruct (getOrCreateValue _ _ _).
  by destruct (readOnly (data p)).
Qed.

Lemma V3_render_radio_id p c storage :
  annotationId (V3.render_radio p c storage).1 = annotationId c.
Proof.
  unfold V3.render_radio. destruct (getOrCreateValue _ _ _).
  by destruct (readOnly (data p)), (radioButtonType (data p) =? CB_CIRCLE).
Qed.

Lemma V3_render_popup_id p layer c :
  annotationId (V3.render_popup p layer c) = annotationId c.
Proof.
  unfold V3.render_popup. case_bool_decide; [done|].
  destruct (querySelector _ _ layer) as [parent|]; [|done].
  destruct (Popup.render true _) as [wrapper popup] eqn:Hr.
  assert (Hc : popup = (Popup.render true
     (Popup.new_PopupElement
        (setStyle "left"
           (px (nadd (parseFloat (getStyle "left" parent))
                     (parseFloat (getStyle "width" parent))))
           (setStyle "transformOrigin"
              (nstr (nneg (nadd (parseFloat (getStyle "left" parent))
                                (parseFloat (getStyle "width" parent))))
               +:+ "px " +:+
               nstr (nneg (parseFloat (getStyle "top" parent))) +:+ "px")
              (setProp "className" (JStr "popupAnnotation") c)))
        (color (data p)) (title (data p)) (modificationDate (data p))
        (contents (data p)) None)).2) by (by rewrite Hr).
  rewrite Hc, PopupTheory.render_container. simpl.
  unfold annotationId. dom_unfold. by simplify_map_eq.
Qed.

Lemma V3_render_choice_id p layer c storage rendered storage' :
  keepsId →
  V3.render_choice renderOther p layer c storage = (Normal rendered, storage') →
  annotationId rendered = annotationId c.
Proof.
  intros Hother. unfold V3.render_choice.
  destruct (firstFieldValue _) as [value|e]; [|done].
  destruct (getOrCreateValue _ _ _) as [stored storage''].
  destruct (negb _ && _); [done|]. intros Hr.
  by rewrite (Hother _ _ _ _ _ _ _ Hr).
Qed.

Lemma V3_render_element_id (element : @AnnotationElementObject N) layer c
    storage rendered storage' :
  keepsId →
  V3.render_element renderOther element layer c storage
  = (Normal rendered, storage') →
  annotationId rendered = annotationId c.
Proof.
  intros Hother. unfold V3.render_element.
  destruct (class element);
    try (intros Hr; exact (Hother _ _ _ _ _ _ _ Hr)).
  - by intros [= <- _].
  - pose proof (V3_render_checkbox_id (parameters element) c storage) as Hid.
    destruct (V3.render_checkbox _ _ _). by intros [= <- _].
  - pose proof (V3_render_radio_id (parameters element) c storage) as Hid.
    destruct (V3.render_radio _ _ _). by intros [= <- _].
  - by apply V3_render_choice_id.
  - intros [= <- _]. apply V3_render_popup_id.
Qed.

Lemma rendered_V3_id lp layer storage d c :
  keepsId →
  (rendered_V3 lp layer storage d).1 = Normal c →
  annotationId c = Some (id d).
Proof.
  intros Hother. unfold rendered_V3. cbv zeta.
  destruct (V3.render_element _ _ _ _ _) as [r storage'] eqn:Hr.
  simpl. intros ->.
  rewrite (V3_render_element_id _ _ _ _ _ _ Hother Hr).
  by rewrite V3_createContainer_id.
Qed.



(** No constructor and no [render] method throws on the annotations [ds]. *)
Definition quiet {D} (built : D → Completion unit)
    (rendered : D → Completion (@Element N) → Prop) (ds : list D) : Prop :=
  ∀ a : D, a ∈ ds → built a = Normal tt ∧ ∀ err, ¬ rendered a (Throw err).

(** The result of [render] when nothing throws: the div keeps what it has
    and receives one child for each renderable annotation, in order. *)
Definition all_appended {D} (renderable : D → bool)
    (rendered : D → Completion (@Element N) → Prop) (ds : list D)
    (result : Completion unit) div div' : Prop :=
  result = Normal tt
  ∧ ∃ appended,
      div' = setChildren (children div ++ appended) div
      ∧ Forall2 (λ (a : D) c, rendered a (Normal c))
          (List.filter renderable ds) appended.

Lemma V1_loop_outcome
    (renderPlain : ElementClass → @Parameters N → @Element N → @Element N →
                   Completion (@Element N)) lp entries div :
  loop_outcome (renderable_V1 lp) (built_V1 lp)
    (λ d r, ∃ layer, rendered_V1 renderPlain lp layer d = r)
    (present entries)
    (for_each (V1.renderAnnotation renderPlain lp) entries div).1 div
    (for_each (V1.renderAnnotation renderPlain lp) entries div).2.
Proof.
  rewrite for_each_present by done.
  apply (append_loop (λ div, div)). intros d s.
  apply V1_renderAnnotation_spec.
Qed.

Lemma V1_render_outcome
    (renderPlain : ElementClass → @Parameters N → @Element N → @Element N →
                   Completion (@Element N)) lp div :
  loop_outcome (renderable_V1 lp) (built_V1 lp)
    (λ d r, ∃ layer, rendered_V1 renderPlain lp layer d = r)
    (present (annotations lp))
    (V1.render renderPlain lp div).1 div (V1.render renderPlain lp div).2.
Proof. apply V1_loop_outcome. Qed.

Lemma V2_loop_outcome
    (renderPlain : ElementClass → @Parameters N → @Element N → @Element N →
                   Completion (@Element N)) lp entries div :
  loop_outcome (renderable_V2 lp) (built_V2 lp)
    (λ d r, ∃ layer, rendered_V2 renderPlain lp layer d = r)
    (present entries)
    (for_each (V2.renderAnnotation renderPlain lp) entries div).1 div
    (for_each (V2.renderAnnotation renderPlain lp) entries div).2.
Proof.
  rewrite for_each_present by done.
  apply (append_loop (λ div, div)). intros d s.
  apply V2_renderAnnotation_spec.
Qed.

Lemma V2_render_outcome
    (renderPlain : ElementClass → @Parameters N → @Element N → @Element N →
                   Completion (@Element N)) lp div :
  loop_outcome (renderable_V2 lp) (built_V2 lp)
    (λ d r, ∃ layer, rendered_V2 renderPlain lp layer d = r)
    (present (annotations lp))
    (V2.render renderPlain lp div).1 div (V2.render renderPlain lp div).2.
Proof. apply V2_loop_outcome. Qed.

Lemma V3_render_outcome lp given div :
  loop_outcome (renderable_V3 lp) (built_V3 lp)
    (λ d r, ∃ layer storage, (rendered_V3 lp layer storage d).1 = r)
    (List.filter (λ d, negb (isPopup d)) (present (annotations lp))
     ++ List.filter isPopup (present (annotations lp)))
    (V3.render renderOther lp given div).1 div
    (V3.render renderOther lp given div).2.1.
Proof.
  unfold V3.render. rewrite sortedAnnotations_spec.
  apply (append_loop fst (renderable_V3 lp) (built_V3 lp)
           (λ d r, ∃ layer storage, (rendered_V3 lp layer storage d).1 = r)
           (V3.renderAnnotation renderOther lp) _ (div, given)).
  apply V3_renderAnnotation_spec.
Qed.

(** C1, as amended.  [AnnotationLayer.render] leaves the div as it is except
    that it appends children.  The entries of the array that are not [null]
    are processed in order (the order of the array, with the Popup
    annotations moved behind the others in the revision with a storage), and
    each one that is processed and whose element is renderable gives one
    child, which is what [render] of the element returns; entries that are
    [null] and elements that are not renderable add nothing.  Nothing catches
    an exception: when the constructor of an element throws (that of a file
    attachment does when [data.file] is missing) or [render] of a renderable
    element throws, [AnnotationLayer.render] throws the same exception, the
    div keeps the children appended so far and the entries behind are not
    processed.  So when no constructor and no [render] method throws,
    [AnnotationLayer.render] returns and the div has received a child for
    exactly the entries that are not [null] and whose element is
    renderable. *)
Theorem render_appends_renderable
    (renderPlain : ElementClass → @Parameters N → @Element N → @Element N →
                   Completion (@Element N)) lp div
    (given : option AnnotationStorage) :
  let sorted :=
    List.filter (λ d, negb (isPopup d)) (present (annotations lp))
    ++ List.filter isPopup (present (annotations lp)) in
  let rendered_1 := λ d r, ∃ layer, rendered_V1 renderPlain lp layer d = r in
  let rendered_2 := λ d r, ∃ layer, rendered_V2 renderPlain lp layer d = r in
  let rendered_3 :=
    λ d r, ∃ layer storage, (rendered_V3 lp layer storage d).1 = r in
  let run_1 := V1.render renderPlain lp div in
  let run_2 := V2.render renderPlain lp div in
  let run_3 := V3.render renderOther lp given div in
  loop_outcome (renderable_V1 lp) (built_V1 lp) rendered_1
    (present (annotations lp)) run_1.1 div run_1.2
  ∧ loop_outcome (renderable_V2 lp) (built_V2 lp) rendered_2
      (present (annotations lp)) run_2.1 div run_2.2
  ∧ loop_outcome (renderable_V3 lp) (built_V3 lp) rendered_3 sorted
      run_3.1 div run_3.2.1
  ∧ (quiet (built_V1 lp) rendered_1 (present (annotations lp)) →
     all_appended (renderable_V1 lp) rendered_1 (present (annotations lp))
       run_1.1 div run_1.2)
  ∧ (quiet (built_V2 lp) rendered_2 (present (annotations lp)) →
     all_appended (renderable_V2 lp) rendered_2 (present (annotations lp))
       run_2.1 div run_2.2)
  ∧ (quiet (built_V3 lp) rendered_3 sorted →
     all_appended (renderable_V3 lp) rendered_3 sorted run_3.1 div
       run_3.2.1).
Proof.
  cbv zeta.
  pose proof (V1_render_outcome renderPlain lp div) as H1.
  pose proof (V2_render_outcome renderPlain lp div) as H2.
  pose proof (V3_render_outcome lp given div) as H3.
  split; [exact H1|]. split; [exact H2|]. split; [exact H3|].
  split; [|split]; intros Hquiet.
  - exact (loop_outcome_quiet _ _ _ _ _ _ _ H1 Hquiet).
  - exact (loop_outcome_quiet _ _ _ _ _ _ _ H2 Hquiet).
  - exact (loop_outcome_quiet _ _ _ _ _ _ _ H3 Hquiet).
Qed.



End Stored.

End Render.

Import Sample.

(** A note, the popup that belongs to it and comes first in the array, a
    [null] entry and an annotation of an unknown type. *)
Definition note : @AnnotationData Z := with_text "Note" "text" (blank "12R" 1).

Definition notePopup : @AnnotationData Z :=
  with_parent "Text" "12R" (with_text "Note" "text" (blank "13R" 16)).

Definition unknown : @AnnotationData Z := blank "14R" 99.

Definition signature : @AnnotationData Z :=
  {| id := "15R"; annotationType := 20; rect := mkRect 10 20 110 70;
     borderStyle := noBorder; borderColor := None; color := None;
     fieldType := Some "Sig"; radioButton := false; checkBox := false;
     hasPopup := false; title := ""; contents := "";
     modificationDate := JUndefined; url := JUndefined; dest := JUndefined;
     action := JUndefined; hasAppearance := false; fieldValue := JUndefined;
     buttonValue := JUndefined; fieldName := ""; readOnly := false;
     alternativeText := JUndefined; checkBoxType := 0; radioButtonType := 0;
     fontColor := ""; backgroundColor := None; parentType := "";
     parentId := ""; combo := false; multiSelect := false; file := None |}.

(** A file attachment whose data has no [file], and a list box in which
    several items can be selected. *)
Definition attachment : @AnnotationData Z := blank "16R" 17.

Definition listBox : @AnnotationData Z :=
  {| id := "17R"; annotationType := 20; rect := mkRect 10 20 110 70;
     borderStyle := noBorder; borderColor := None; color := None;
     fieldType := Some "Ch"; radioButton := false; checkBox := false;
     hasPopup := false; title := ""; contents := "";
     modificationDate := JUndefined; url := JUndefined; dest := JUndefined;
     action := JUndefined; hasAppearance := false;
     fieldValue := JArr 0 ["a"]; buttonValue := JUndefined;
     fieldName := "choice"; readOnly := false;
     alternativeText := JUndefined; checkBoxType := 0; radioButtonType := 0;
     fontColor := ""; backgroundColor := None; parentType := "";
     parentId := ""; combo := false; multiSelect := true; file := None |}.

Definition page1 : @LayerParameters Z :=
  layerParameters 1 [Some notePopup; None; Some unknown; Some note;
                     Some signature].

Definition page2 : @LayerParameters Z :=
  layerParameters 1 [Some note; Some attachment; Some notePopup].

Definition page3 : @LayerParameters Z :=
  layerParameters 1 [Some listBox; Some note].

Example rendered_ids_V1 :
  (V1.render plainBody page1 layerDiv).1 = Normal tt
  ∧ annotationId <$> children (V1.render plainBody page1 layerDiv).2
    = [Some "13R"; Some "12R"].
Proof. by vm_compute. Qed.

Example rendered_ids_V3 :
  (V3.render plainStoredBody page1 None layerDiv).1 = Normal tt
  ∧ annotationId
      <$> children (V3.render plainStoredBody page1 None layerDiv).2.1
    = [Some "12R"; Some "13R"].
Proof. by vm_compute. Qed.

(** The popup finds its parent only when it is rendered after it: the
    wrapper of the popup is a child of its container. *)
Example popup_attached :
  (length ∘ children <$> children (V1.render plainBody page1 layerDiv).2
   = [0; 0]%nat)
  ∧ (length ∘ children
       <$> children (V3.render plainStoredBody page1 None layerDiv).2.1
     = [0; 1]%nat).
Proof. split; by vm_compute. Qed.

(** C1 fails as stated: the constructor of the file attachment throws, the
    exception leaves [AnnotationLayer.render], and the popup behind it, which
    is not [null] and whose element is renderable, gets no child. *)
Lemma render_stops_at_exception :
  notePopup ∈ present (annotations page2)
  ∧ renderable_V1 page2 notePopup = true
  ∧ (V1.render plainBody page2 layerDiv).1
    = Throw (TypeError "this.data.file is undefined")
  ∧ annotationId <$> children (V1.render plainBody page2 layerDiv).2
    = [Some "12R"].
Proof.
  split; [|by vm_compute].
  apply list_elem_of_In. vm_compute. tauto.
Qed.

(** In the revision with a storage [render] of a list box with multiple
    selection calls [setAtttibute], which no element has: the layer gets no
    child for it, nor for the annotations behind it. *)
Example list_box_throws :
  renderable_V3 page3 listBox = true
  ∧ V3.render plainStoredBody page3 None layerDiv
    = (Throw (TypeError "selectElement.setAtttibute is not a function"),
       (layerDiv, None)).
Proof. by vm_compute. Qed.

Lemma plainBody_quiet (lp : @LayerParameters Z) ds :
  quiet (built_V1 lp) (λ d r, ∃ layer, rendered_V1 plainBody lp layer d = r) ds
  ↔ Forall (λ d, built_V1 lp d = Normal tt) ds.
Proof.
  unfold quiet. rewrite Forall_forall. split.
  - intros Hq d Hd. by apply Hq.
  - intros Hb d Hd. split; [by apply Hb|].
    intros err [layer Hr]. unfold rendered_V1, V1.render_element in Hr.
    by destruct (class _).
Qed.

Lemma render_appends_renderable_witness :
  ∃ appended,
    (V1.render plainBody page1 layerDiv).2
    = setChildren (children layerDiv ++ appended) layerDiv
    ∧ Forall2 (λ d c, ∃ layer, rendered_V1 plainBody page1 layer d = Normal c)
        [notePopup; note] appended.
Proof.
  destruct (render_appends_renderable plainStoredBody plainBody page1
              layerDiv None) as (_ & _ & _ & Hquiet & _).
  destruct Hquiet as [_ Happ]; [|exact Happ].
  apply plainBody_quiet. by repeat constructor.
Defined.





Example signature_not_rendered :
  unsupportedWidget signature
  ∧ V3.renderAnnotation plainStoredBody page1 signature (layerDiv, None)
    = (Normal tt, (layerDiv, None)).
Proof.
  split; [|reflexivity].
  split; [reflexivity|]. split; [discriminate|]. split; [discriminate|].
  intros field [= <-]. repeat split; discriminate.
Qed.

End RenderTheory.

Module PrintServiceTheory.
Import PrintService.
Section Service.
Context {N : Type} `{JsNumber N}.
Implicit Types (w : @World N) (this : nat).

Lemma throwIfInactive_active this w :
  activeService w = Some this → throwIfInactive this w = (Normal tt, w).
Proof.
  intros Ha. unfold throwIfInactive, active.
  by rewrite bool_decide_eq_true_2.
Qed.

Lemma throwIfInactive_inactive this w :
  activeService w ≠ Some this → throwIfInactive this w = (Throw cancelled, w).
Proof.
  intros Ha. unfold throwIfInactive, active.
  by rewrite bool_decide_eq_false_2.
Qed.

Ltac run_exec :=
  unfold exec_bind, exec_ret, modify, get_state, throw, self,
    renderProgress in *;
  repeat (simpl in *; case_match; simplify_eq); simpl in *; try done.

Lemma layout_rest_not_cancelled this w :
  (layout this w).1 = Throw cancelled → activeService w ≠ Some this.
Proof.
  intros Hc Ha. revert Hc. unfold layout.
  unfold exec_bind at 1. rewrite throwIfInactive_active by done.
  run_exec.
Qed.

Lemma renderNextPage_not_cancelled this w :
  (renderNextPage this w).1 = Throw cancelled → activeService w ≠ Some this.
Proof.
  intros Hc Ha. revert Hc. unfold renderNextPage.
  unfold exec_bind at 1. rewrite throwIfInactive_active by done.
  run_exec.
Qed.

Lemma set_service_active this f w :
  activeService (set_service this f w) = activeService w.
Proof. done. Qed.

Lemma onPageRendered_not_cancelled this svg w :
  (onPageRendered this svg w).1 = Throw cancelled →
  activeService w ≠ Some this.
Proof.
  intros Hc Ha. revert Hc. unfold onPageRendered.
  unfold exec_bind at 1. rewrite throwIfInactive_active by done.
  unfold exec_bind, self, modify. destruct (heap w !! this) eqn:Hs; [|done].
  match goal with |- context [renderNextPage this ?w'] =>
    intros Hc; apply (renderNextPage_not_cancelled this w') in Hc; by apply Hc
  end.
Qed.

Lemma performPrint_not_cancelled this w :
  (performPrint this w).1 = Throw cancelled → activeService w ≠ Some this.
Proof.
  intros Hc Ha. revert Hc. unfold performPrint.
  unfold exec_bind at 1. rewrite throwIfInactive_active by done.
  run_exec.
Qed.

Lemma guarded_inactive {A} this (k : Exec World A) w :
  activeService w ≠ Some this →
  (throwIfInactive this ;;; k) w = (Throw cancelled, w).
Proof.
  intros Ha. unfold exec_bind. by rewrite throwIfInactive_inactive.
Qed.


Lemma layout_activeService this w :
  activeService (layout this w).2 = activeService w.
Proof. unfold layout, throwIfInactive. run_exec. Qed.

Lemma renderNextPage_activeService this w :
  activeService (renderNextPage this w).2 = activeService w.
Proof. unfold renderNextPage, throwIfInactive. run_exec. Qed.

Lemma onPageRendered_activeService this svg w :
  activeService (onPageRendered this svg w).2 = activeService w.
Proof.
  unfold onPageRendered, throwIfInactive, exec_bind, self, modify.
  destruct (active this w); simpl; [|done].
  destruct (heap w !! this); simpl; [|done].
  by rewrite renderNextPage_activeService.
Qed.

Lemma performPrint_activeService this w :
  activeService (performPrint this w).2 = activeService w.
Proof. unfold performPrint, throwIfInactive. run_exec. Qed.

Lemma destroy_activeService this w :
  activeService (destroy this w).2 = activeService w
  ∨ activeService (destroy this w).2 = None.
Proof.
  unfold destroy, ensureOverlay. run_exec; auto.
Qed.

Lemma abort_activeService w :
  activeService (abort w).2 = activeService w
  ∨ activeService (abort w).2 = None.
Proof.
  unfold abort. destruct (activeService w) as [a|] eqn:Ha; [|by left].
  unfold exec_bind, modify.
  pose proof (destroy_activeService a w) as Hd.
  destruct (destroy a w) as [[[]|e] w']; simpl in *; rewrite <- Ha; exact Hd.
Qed.

(** C5.  [createPrintService] throws an [Error] whenever a print service is
    active, leaving the module state as it was; otherwise it allocates a new
    [PDFPrintService], stores it in [activeService] and returns it, so the new
    object is the only active one.  No operation of the module replaces an
    active service by another one: after any operation the service that was
    active is still the active one, or none is. *)
Theorem createPrintService_exclusive doc pages container l w :
  (∀ a, activeService w = Some a →
        createPrintService doc pages container l w
        = (Throw (Error "The print service is created and active."), w))
  ∧ (activeService w = None →
     ∃ this w',
       createPrintService doc pages container l w = (Normal this, w')
       ∧ heap w !! this = None
       ∧ heap w' !! this = Some (new_PDFPrintService doc pages container l)
       ∧ (∀ other, other ≠ this → heap w' !! other = heap w !! other)
       ∧ activeService w' = Some this
       ∧ (∀ other, active other w' = true ↔ other = this))
  ∧ (∀ op a, activeService w = Some a →
       activeService (run op w) = Some a ∨ activeService (run op w) = None).
Proof.
  split; [|split].
  - intros a Ha. unfold createPrintService. by rewrite Ha.
  - intros Hnone. unfold createPrintService. rewrite Hnone.
    eexists _, _. split; [reflexivity|]. simpl.
    split; [by apply lookup_ge_None_2|].
    split; [by rewrite lookup_app_r, Nat.sub_diag|].
    split.
    + intros other Hne.
      destruct (decide (other < length (heap w))%nat) as [Hlt|Hge].
      * by rewrite lookup_app_l.
      * rewrite !lookup_ge_None_2; [done|lia|].
        rewrite length_app. simpl. lia.
    + split; [done|]. intros other. unfold active. simpl.
      rewrite bool_decide_eq_true. naive_solver.
  - intros op a Ha. destruct op; simpl.
    + left. unfold createPrintService. by rewrite Ha.
    + left. by rewrite layout_activeService.
    + rewrite <- Ha. apply destroy_activeService.
    + left. by rewrite renderNextPage_activeService.
    + left. by rewrite onPageRendered_activeService.
    + left. by rewrite performPrint_activeService.
    + rewrite <- Ha. apply abort_activeService.
Qed.

(** C6.  [throwIfInactive] throws nothing when the instance is the active
    service and throws "This print request was cancelled or completed."
    otherwise; [layout], the two halves of the per-page rendering of
    [renderPages] and [performPrint] throw that error exactly when the
    instance is not the active service. *)
Theorem throwIfInactive_guards this w svg :
  (activeService w = Some this → throwIfInactive this w = (Normal tt, w))
  ∧ (throwIfInactive this w = (Throw cancelled, w)
     ↔ activeService w ≠ Some this)
  ∧ ((layout this w).1 = Throw cancelled ↔ activeService w ≠ Some this)
  ∧ ((renderNextPage this w).1 = Throw cancelled
     ↔ activeService w ≠ Some this)
  ∧ ((onPageRendered this svg w).1 = Throw cancelled
     ↔ activeService w ≠ Some this)
  ∧ ((performPrint this w).1 = Throw cancelled
     ↔ activeService w ≠ Some this).
Proof.
  split; [apply throwIfInactive_active|].
  split.
  { split; [|apply throwIfInactive_inactive].
    intros Ht Ha. by rewrite throwIfInactive_active in Ht. }
  split; [|split; [|split]]; (split; [|intros Ha]).
  - apply layout_rest_not_cancelled.
  - unfold layout. by rewrite guarded_inactive.
  - apply renderNextPage_not_cancelled.
  - unfold renderNextPage. by rewrite guarded_inactive.
  - apply onPageRendered_not_cancelled.
  - unfold onPageRendered. by rewrite guarded_inactive.
  - apply performPrint_not_cancelled.
  - unfold performPrint. by rewrite guarded_inactive.
Qed.

End Service.

(** Concrete runs, with integer page sizes. *)
Definition a4 : @PageSize Z := {| width := 595; height := 842; rotation := 0 |}.

Definition idle : @World Z :=
  {| heap := []; activeService := None; bodyAttributes := ∅;
     bodyChildren := []; nextNode := 0%nat; containers := ∅;
     progressValue := None; warnings := [];
     appOverlayManager := true; overlayPromise := false;
     pendingOverlayClose := 0%nat; nativePrintCalls := 0%nat;
     afterprintEvents := 0%nat |}.

Definition printing : @World Z := run (OpCreate 0%nat [a4; a4] 0%nat None) idle.

Example printing_active : activeService printing = Some 0%nat.
Proof. reflexivity. Qed.

Example second_request_refused :
  (createPrintService 1%nat [a4] 0%nat None printing).1
  = Throw (Error "The print service is created and active.").
Proof. reflexivity. Qed.

Example layout_sheet :
  bodyChildren (run (OpLayout 0%nat) printing)
  = [(0%nat, "@supports ((size:A4) and (size:1pt 1pt)) {@page { size: 595pt 842pt;}}")].
Proof. vm_compute. reflexivity. Qed.

Example stale_service_cancelled :
  (layout 0%nat (run OpAbort printing)).1 = Throw cancelled.
Proof. vm_compute. reflexivity. Qed.

Lemma createPrintService_exclusive_witness :
  activeService printing = Some 0%nat
  ∧ createPrintService 1%nat [a4] 0%nat None printing
    = (Throw (Error "The print service is created and active."), printing).
Proof.
  split; [reflexivity|].
  apply (proj1 (createPrintService_exclusive 1%nat [a4] 0%nat None printing)
           0%nat).
  reflexivity.
Defined.

Lemma throwIfInactive_guards_witness :
  activeService printing = Some 0%nat
  ∧ throwIfInactive 0%nat printing = (Normal tt, printing).
Proof.
  split; [reflexivity|].
  apply (proj1 (throwIfInactive_guards 0%nat printing "")). reflexivity.
Defined.

End PrintServiceTheory.

(** ** The life of a print job *)

Module PrintJobTheory.
Import PrintService PrintJob.
Section Job.
Context {N : Type} `{JsNumber N}.
Implicit Types (w : @World N) (this : nat) (s : @PDFPrintService N).

Lemma progressPercent_full total : 0 < total → progressPercent total total = 100.
Proof.
  intros Ht. unfold progressPercent.
  replace (200 * total + total) with (100 * (2 * total) + total) by lia.
  rewrite Z.div_add_l by lia. rewrite Z.div_small by lia. lia.
Qed.


Lemma active_true this w : activeService w = Some this → active this w = true.
Proof. intros Ha. unfold active. by rewrite bool_decide_eq_true. Qed.

(** One call of [renderNextPage] by the active service. *)
Lemma renderNextPage_run this w s :
  activeService w = Some this → heap w !! this = Some s →
  renderNextPage this w
  = (let pageCount := Z.of_nat (length (pagesOverview s)) in
     let current := currentPage s + 1 in
     (Normal (if pageCount <=? current then Resolved
              else AwaitPage (current + 1)),
      set_ui (Some (progressPercent
                      (if pageCount <=? current then pageCount + 1
                       else current + 1) (pageCount + 1)))
        (warnings w) (set_service this (with_currentPage current) w))).
Proof.
  intros Ha Hs. unfold renderNextPage, throwIfInactive, exec_bind, self.
  rewrite (active_true this w Ha), Hs. cbn zeta.
  unfold modify, renderProgress, exec_bind, exec_ret, modify.
  by destruct (_ <=? _).
Qed.

(** The callback that receives a page, run by the active service. *)
Lemma onPageRendered_run this svg w s :
  activeService w = Some this → heap w !! this = Some s →
  onPageRendered this svg w
  = renderNextPage this
      (set_containers
         (<[printContainer s :=
              default [] (containers w !! printContainer s) ++ [svg]]>
            (containers w)) w).
Proof.
  intros Ha Hs. unfold onPageRendered, throwIfInactive, exec_bind, self.
  by rewrite (active_true this w Ha), Hs.
Qed.

(** The pages that the print container holds. *)
Definition printed (w : @World N) (container : nat) : list string :=
  default [] (containers w !! container).

(** What a run of the rendering chain leaves unchanged. *)
Definition same_document (w w' : @World N) : Prop :=
  activeService w' = activeService w
  ∧ bodyAttributes w' = bodyAttributes w
  ∧ bodyChildren w' = bodyChildren w
  ∧ warnings w' = warnings w
  ∧ nativePrintCalls w' = nativePrintCalls w
  ∧ afterprintEvents w' = afterprintEvents w
  ∧ length (heap w') = length (heap w).

Lemma renderRemaining_run renderPage this (k : nat) :
  ∀ fuel w s,
    activeService w = Some this → heap w !! this = Some s →
    currentPage s = Z.of_nat (length (pagesOverview s)) - Z.of_nat k →
    (0 < k ≤ length (pagesOverview s))%nat → (k ≤ fuel)%nat →
    ∃ w' s',
      renderRemaining renderPage this fuel
        (AwaitPage (currentPage s + 1)) w = (Normal Resolved, w')
      ∧ heap w' !! this = Some s'
      ∧ currentPage s' = Z.of_nat (length (pagesOverview s))
      ∧ pagesOverview s' = pagesOverview s
      ∧ printContainer s' = printContainer s
      ∧ printed w' (printContainer s)
        = printed w (printContainer s)
          ++ ((λ i, renderPage (Z.of_nat i))
                <$> seq (length (pagesOverview s) - k + 1) k)
      ∧ progressValue w' = Some 100
      ∧ same_document w w'.
Proof.
  induction k as [|k IH]; intros fuel w s Ha Hs Hcur Hk Hfuel; [lia|].
  destruct fuel as [|fuel]; [lia|].
  cbn [renderRemaining]. unfold exec_bind.
  rewrite (onPageRendered_run this _ w s Ha Hs).
  set (w1 := set_containers _ w).
  assert (Ha1 : activeService w1 = Some this) by done.
  assert (Hs1 : heap w1 !! this = Some s) by done.
  rewrite (renderNextPage_run this w1 s Ha1 Hs1). cbn zeta.
  set (n := length (pagesOverview s)) in *.
  assert (Hs2 : ∀ p ws,
    heap (set_ui p ws (set_service this (with_currentPage (currentPage s + 1))
                         w1)) !! this
    = Some (with_currentPage (currentPage s + 1) s)).
  { intros p ws. subst w1. simpl. by rewrite list_lookup_alter_eq, Hs. }
  destruct (Z.leb_spec (Z.of_nat n) (currentPage s + 1)) as [Hlast|Hmore].
  - (* the last page *)
    assert (k = 0%nat) as -> by lia.
    eexists _, (with_currentPage (currentPage s + 1) s).
    split; [by destruct fuel|]. split; [apply Hs2|].
    split; [simpl; lia|]. split; [done|]. split; [done|].
    split; [|split].
    + subst w1. unfold printed. simpl. rewrite lookup_insert_eq. simpl.
      do 3 f_equal. lia.
    + simpl. f_equal. apply progressPercent_full. lia.
    + subst w1. unfold same_document, set_service. simpl.
      by rewrite length_alter.
  - set (w2 := set_ui _ _ _).
    destruct (IH fuel w2 (with_currentPage (currentPage s + 1) s))
      as (w' & s' & Hrun & Hs' & Hc' & Hp' & Hpc' & Hprinted & Hprog & Hsame);
      [done|apply Hs2|simpl; fold n; lia|simpl; fold n; lia|lia|].
    simpl in Hrun, Hc', Hp', Hpc', Hprinted. fold n in Hc', Hprinted.
    exists w', s'. split; [exact Hrun|]. split; [done|].
    split; [done|]. split; [done|]. split; [done|]. split; [|split; [done|]].
    + rewrite Hprinted. subst w2 w1. unfold printed. simpl.
      rewrite lookup_insert_eq. simpl. rewrite <- app_assoc. f_equal.
      replace (n - S k + 1)%nat with (n - k)%nat by lia.
      replace (n - k + 1)%nat with (S (n - k))%nat by lia.
      simpl. do 2 f_equal. lia.
    + destruct Hsame as (? & ? & ? & ? & ? & ? & Hlen).
      subst w2 w1. unfold same_document, set_service in *. simpl in *.
      rewrite length_alter in Hlen. done.
Qed.

(** The whole chain, from the first call of [renderNextPage], run by the
    active service. *)
Lemma renderAllPages_run renderPage this w s fuel :
  activeService w = Some this → heap w !! this = Some s →
  currentPage s = -1 → (length (pagesOverview s) ≤ fuel)%nat →
  ∃ w' s',
    renderAllPages renderPage this fuel w = (Normal Resolved, w')
    ∧ heap w' !! this = Some s'
    ∧ currentPage s' = Z.of_nat (length (pagesOverview s))
    ∧ printContainer s' = printContainer s
    ∧ printed w' (printContainer s)
      = printed w (printContainer s)
        ++ ((λ i, renderPage (Z.of_nat i))
              <$> seq 1 (length (pagesOverview s)))
    ∧ progressValue w' = Some 100
    ∧ same_document w w'.
Proof.
  intros Ha Hs Hcur Hfuel. unfold renderAllPages, exec_bind.
  rewrite (renderNextPage_run this w s Ha Hs). cbn zeta.
  set (n := length (pagesOverview s)) in *.
  assert (Hs1 : ∀ p ws,
    heap (set_ui p ws (set_service this (with_currentPage (currentPage s + 1))
                         w)) !! this
    = Some (with_currentPage (currentPage s + 1) s)).
  { intros p ws. simpl. by rewrite list_lookup_alter_eq, Hs. }
  destruct (Z.leb_spec (Z.of_nat n) (currentPage s + 1)) as [Hnone|Hsome].
  - assert (Hn : n = 0%nat) by lia.
    eexists _, (with_currentPage (currentPage s + 1) s).
    split; [by destruct fuel|]. split; [apply Hs1|]. split; [simpl; lia|].
    split; [done|]. split; [rewrite Hn; simpl; by rewrite app_nil_r|].
    split; [simpl; f_equal; apply progressPercent_full; lia|].
    unfold same_document, set_service. simpl. by rewrite length_alter.
  - set (w1 := set_ui _ _ _).
    destruct (renderRemaining_run renderPage this n fuel w1
                (with_currentPage (currentPage s + 1) s))
      as (w' & s' & Hrun & Hs' & Hc' & Hp' & Hpc' & Hprinted & Hprog & Hsame);
      [done|apply Hs1|simpl; fold n; lia|simpl; fold n; lia|lia|].
    simpl in Hrun, Hc', Hprinted. fold n in Hc', Hprinted.
    replace (n - n + 1)%nat with 1%nat in Hprinted by lia.
    exists w', s'. split; [exact Hrun|]. split; [done|]. split; [done|].
    split; [done|]. split; [exact Hprinted|]. split; [done|].
    destruct Hsame as (? & ? & ? & ? & ? & ? & Hlen).
    subst w1. unfold same_document, set_service in *. simpl in *.
    rewrite length_alter in Hlen. done.
Qed.

(** X3.  The page loop of [renderPages].  For the active service, started
    with [currentPage] at -1 and left alone until it ends, the chain resolves
    once it has had a turn for every page: the print container has gained the
    SVG of the pages 1, 2, ..., [pagesOverview.length], in this order, behind
    what it held; [currentPage] ends at the number of pages; the progress bar
    shows 100; the active service, the body, the warnings and the counters of
    [print] and [afterprint] are as before. *)
Theorem renderPages_prints_every_page renderPage this w s fuel :
  activeService w = Some this → heap w !! this = Some s →
  currentPage s = -1 → (length (pagesOverview s) ≤ fuel)%nat →
  ∃ w' s',
    renderAllPages renderPage this fuel w = (Normal Resolved, w')
    ∧ heap w' !! this = Some s'
    ∧ currentPage s' = Z.of_nat (length (pagesOverview s))
    ∧ printed w' (printContainer s)
      = printed w (printContainer s)
        ++ ((λ i, renderPage (Z.of_nat i))
              <$> seq 1 (length (pagesOverview s)))
    ∧ progressValue w' = Some 100
    ∧ same_document w w'.
Proof.
  intros Ha Hs Hcur Hfuel.
  destruct (renderAllPages_run renderPage this w s fuel Ha Hs Hcur Hfuel)
    as (w' & s' & Hrun & Hs' & Hc' & _ & Hprinted & Hprog & Hsame).
  by exists w', s'.
Qed.


(** The overlay can be obtained: it is registered already, or the
    application has an overlay manager. *)
Definition overlayAvailable (w : @World N) : bool :=
  overlayPromise w || appOverlayManager w.

Lemma ensureOverlay_available w :
  overlayAvailable w = true →
  ∃ w', ensureOverlay w = (Normal tt, w')
        ∧ overlayPromise w' = true
        ∧ w' = set_overlay true (pendingOverlayClose w) w.
Proof.
  unfold overlayAvailable, ensureOverlay. intros Hav.
  destruct w as [? ? ? ? ? ? ? ? mgr reg ? ? ?]. simpl in *.
  destruct reg, mgr; try done; by eexists.
Qed.

(** [destroy] called by the active service. *)
Lemma destroy_run this w s :
  activeService w = Some this → heap w !! this = Some s →
  overlayAvailable w = true →
  ∃ w', destroy this w = (Normal tt, w')
        ∧ activeService w' = None
        ∧ containers w' = <[printContainer s := []]> (containers w)
        ∧ bodyAttributes w' = delete "data-pdfjsprinting" (bodyAttributes w)
        ∧ bodyChildren w'
          = match pageStyleSheet s with
            | Some sheet => filter (λ c, c.1 ≠ sheet) (bodyChildren w)
            | None => bodyChildren w
            end
        ∧ heap w' = alter (with_pageStyleSheet None) this (heap w)
        ∧ warnings w' = warnings w
        ∧ nativePrintCalls w' = nativePrintCalls w
        ∧ afterprintEvents w' = afterprintEvents w
        ∧ overlayPromise w' = true.
Proof.
  intros Ha Hs Hav. unfold destroy.
  rewrite (active_true this w Ha). cbn [negb].
  unfold exec_bind, self. rewrite Hs. unfold modify.
  destruct (pageStyleSheet s) as [sheet|] eqn:Hsheet; cbn beta iota.
  - match goal with |- context [ensureOverlay ?w0] =>
      destruct (ensureOverlay_available w0) as (w1 & -> & _ & ->); [done|]
    end.
    eexists. split; [reflexivity|]. simpl. by repeat split.
  - unfold exec_ret.
    match goal with |- context [ensureOverlay ?w0] =>
      destruct (ensureOverlay_available w0) as (w1 & -> & _ & ->); [done|]
    end.
    eexists. split; [reflexivity|]. simpl. repeat split; try done.
    symmetry. apply list_eq. intros i.
    destruct (decide (i = this)) as [->|Hne].
    + rewrite list_lookup_alter_eq, Hs. simpl. f_equal.
      destruct s; simpl in *; by subst.
    + by rewrite list_lookup_alter_ne.
Qed.

(** X1.  [destroy] called on a service that is not the active one does
    nothing at all.  Called on the active one (with the overlay available) it
    returns normally and leaves no service active, the print container empty,
    the body without [data-pdfjsprinting] and without the style sheet of the
    service, and [pageStyleSheet] null; the other objects, the warnings and
    the count of [afterprint] events stay. *)
Theorem destroy_releases_service this w :
  (activeService w ≠ Some this → destroy this w = (Normal tt, w))
  ∧ (∀ s, activeService w = Some this → heap w !! this = Some s →
       overlayAvailable w = true →
       ∃ w', destroy this w = (Normal tt, w')
             ∧ activeService w' = None
             ∧ containers w' = <[printContainer s := []]> (containers w)
             ∧ bodyAttributes w'
               = delete "data-pdfjsprinting" (bodyAttributes w)
             ∧ bodyChildren w'
               = match pageStyleSheet s with
                 | Some sheet => filter (λ c, c.1 ≠ sheet) (bodyChildren w)
                 | None => bodyChildren w
                 end
             ∧ heap w' = alter (with_pageStyleSheet None) this (heap w)
             ∧ warnings w' = warnings w
             ∧ afterprintEvents w' = afterprintEvents w).
Proof.
  split.
  - intros Hstale. unfold destroy, active.
    by rewrite bool_decide_eq_false_2.
  - intros s Ha Hs Hav.
    destruct (destroy_run this w s Ha Hs Hav)
      as (w' & Hd & ? & ? & ? & ? & ? & ? & ? & ? & ?).
    exists w'. by repeat split.
Qed.

(** Every node of the body was created before: its number is below the
    number of the next node. *)
Definition allocated (w : @World N) : Prop :=
  Forall (λ c : nat * string, (c.1 < nextNode w)%nat) (bodyChildren w).

Definition sizeWarning : string :=
  "Not all pages have the same size. The printed result may be incorrect!".

(** One call of [layout] by the active service. *)
Lemma layout_run this w s :
  activeService w = Some this → heap w !! this = Some s →
  layout this w
  = (let w1 :=
       set_service this (with_pageStyleSheet (Some (nextNode w)))
         (set_ui (progressValue w)
            (if hasEqualPageSizes (pagesOverview s) then warnings w
             else warnings w ++ [sizeWarning])
            (set_body (<["data-pdfjsprinting" := "true"]> (bodyAttributes w))
               (bodyChildren w) (nextNode w) w)) in
     let w2 := set_body (bodyAttributes w1) (bodyChildren w1)
                 (S (nextNode w)) w1 in
     match pagesOverview s with
     | [] => (Throw (TypeError "pageSize is undefined"), w2)
     | pageSize :: _ =>
         (Normal tt,
          set_body (bodyAttributes w2)
            (bodyChildren w2 ++ [(nextNode w, pageStyleText pageSize)])
            (nextNode w2) w2)
     end).
Proof.
  intros Ha Hs. unfold layout, throwIfInactive, exec_bind, self.
  rewrite (active_true this w Ha), Hs. cbn zeta.
  unfold modify, exec_ret, get_state, throw, sizeWarning.
  destruct (hasEqualPageSizes (pagesOverview s));
    destruct (pagesOverview s); reflexivity.
Qed.

Lemma forallb_Forall {A} (f : A → bool) (l : list A) :
  forallb f l = true ↔ Forall (λ x, f x = true) l.
Proof.
  induction l as [|x l IH]; simpl.
  - split; [by constructor|done].
  - rewrite andb_true_iff, Forall_cons. by rewrite IH.
Qed.

(** X7.  [layout] by the active service.  With at least one page it returns
    normally, sets [data-pdfjsprinting] on the body, appends one new style
    node whose rule has the size of the first page, and keeps that node in
    [pageStyleSheet]; it warns exactly when some page differs from the first
    in width or height.  With no page at all it throws a [TypeError] on
    [pageSize.width], after the body has been marked and without a style node
    attached or a warning. *)
Theorem layout_marks_body this w s :
  activeService w = Some this → heap w !! this = Some s →
  (∀ pageSize rest, pagesOverview s = pageSize :: rest →
     ∃ w', layout this w = (Normal tt, w')
           ∧ bodyAttributes w'
             = <["data-pdfjsprinting" := "true"]> (bodyAttributes w)
           ∧ bodyChildren w'
             = bodyChildren w ++ [(nextNode w, pageStyleText pageSize)]
           ∧ heap w' !! this
             = Some (with_pageStyleSheet (Some (nextNode w)) s)
           ∧ (Forall (λ size, nseq (width size) (width pageSize) = true
                              ∧ nseq (height size) (height pageSize) = true)
                     (pageSize :: rest)
              → warnings w' = warnings w)
           ∧ (¬ Forall (λ size, nseq (width size) (width pageSize) = true
                                ∧ nseq (height size) (height pageSize) = true)
                       (pageSize :: rest)
              → warnings w' = warnings w ++ [sizeWarning]))
  ∧ (pagesOverview s = [] →
     ∃ w', layout this w = (Throw (TypeError "pageSize is undefined"), w')
           ∧ bodyAttributes w'
             = <["data-pdfjsprinting" := "true"]> (bodyAttributes w)
           ∧ bodyChildren w' = bodyChildren w
           ∧ warnings w' = warnings w).
Proof.
  intros Ha Hs. rewrite (layout_run this w s Ha Hs). cbn zeta. split.
  - intros pageSize rest Hp. rewrite Hp.
    assert (Heq : hasEqualPageSizes (pageSize :: rest) = true
                  ↔ Forall (λ size, nseq (width size) (width pageSize) = true
                              ∧ nseq (height size) (height pageSize) = true)
                           (pageSize :: rest)).
    { unfold hasEqualPageSizes. rewrite forallb_Forall.
      apply Forall_iff. intros size. apply andb_true_iff. }
    destruct (hasEqualPageSizes (pageSize :: rest)) eqn:Hsame.
    + eexists. split; [reflexivity|]. cbn -[hasEqualPageSizes].
      split; [done|]. split; [done|].
      split; [by rewrite list_lookup_alter_eq, Hs|].
      split; [done|]. intros Hall. exfalso. by apply Hall, Heq.
    + eexists. split; [reflexivity|]. cbn -[hasEqualPageSizes].
      split; [done|]. split; [done|].
      split; [by rewrite list_lookup_alter_eq, Hs|].
      split; [|done]. intros Hall. apply Heq in Hall. done.
  - intros Hp. rewrite Hp. eexists. split; [reflexivity|]. simpl.
    by destruct (hasEqualPageSizes []) eqn:He.
Qed.

(** X2.  [layout] followed by [destroy] restores the body: on a body that
    does not carry [data-pdfjsprinting] and whose nodes were all created
    before, the attributes and the children of the body are afterwards what
    they were; no service is active and [pageStyleSheet] is null again. *)
Theorem layout_then_destroy_restores_body this w s :
  activeService w = Some this → heap w !! this = Some s →
  pagesOverview s ≠ [] → overlayAvailable w = true →
  bodyAttributes w !! "data-pdfjsprinting" = None → allocated w →
  ∃ w1 w2,
    layout this w = (Normal tt, w1)
    ∧ destroy this w1 = (Normal tt, w2)
    ∧ bodyAttributes w2 = bodyAttributes w
    ∧ bodyChildren w2 = bodyChildren w
    ∧ activeService w2 = None
    ∧ (pageStyleSheet <$> heap w2 !! this) = Some None.
Proof.
  intros Ha Hs Hpages Hav Hattr Halloc.
  destruct (pagesOverview s) as [|pageSize rest] eqn:Hp; [done|].
  rewrite (layout_run this w s Ha Hs). cbn zeta. rewrite Hp.
  match goal with |- ∃ w1 w2, (Normal tt, ?w1') = _ ∧ _ =>
    exists w1';
    destruct (destroy_run this w1' (with_pageStyleSheet (Some (nextNode w)) s))
      as (w2 & Hd & Hact & _ & Hattrs & Hkids & Hheap & _)
  end.
  { done. }
  { simpl. by rewrite list_lookup_alter_eq, Hs. }
  { done. }
  exists w2. split; [done|]. split; [exact Hd|].
  simpl in Hattrs, Hkids, Hheap.
  split; [|split; [|split; [done|]]].
  - rewrite Hattrs, delete_insert_eq. by apply delete_id.
  - rewrite Hkids, filter_app.
    rewrite (filter_cons_False _ (nextNode w, _)) by (simpl; tauto).
    rewrite filter_nil, app_nil_r.
    clear -Halloc. unfold allocated in Halloc.
    induction Halloc as [|c cs Hc Hcs IH]; [done|].
    rewrite filter_cons_True by lia. by rewrite IH.
  - rewrite Hheap, list_lookup_alter_eq, list_lookup_alter_eq, Hs. done.
Qed.



(** X4.  The value that [renderProgress] gives the progress bar, for the
    arguments its callers pass ([0 ≤ index ≤ total], [total] positive): it
    lies between 0 and 100, is the integer nearest to [100 * index / total]
    (a half is rounded up), is 0 at the start and 100 at the end, and does not
    decrease when [index] grows. *)
Theorem renderProgress_rounds index total w :
  0 ≤ index ≤ total → 0 < total →
  ∃ progress,
    renderProgress index total w
    = (Normal tt, set_ui (Some progress) (warnings w) w)
    ∧ 0 ≤ progress ≤ 100
    ∧ 2 * total * progress - total ≤ 200 * index < 2 * total * progress + total
    ∧ (index = 0 → progress = 0)
    ∧ (index = total → progress = 100)
    ∧ (∀ index', index ≤ index' →
         progress ≤ progressPercent index' total).
Proof.
  intros Hi Ht. exists (progressPercent index total).
  split; [done|]. unfold progressPercent.
  pose proof (Z.div_mod (200 * index + total) (2 * total) ltac:(lia)) as Hdm.
  pose proof (Z.mod_pos_bound (200 * index + total) (2 * total) ltac:(lia))
    as Hmod.
  split.
  { split; [apply Z.div_pos; lia|].
    apply Z.lt_succ_r, Z.div_lt_upper_bound; lia. }
  split; [lia|].
  split; [intros ->; apply Z.div_small; lia|].
  split; [intros ->; by apply progressPercent_full|].
  intros index' Hle. apply Z.div_le_mono; lia.
Qed.

(** X6.  [ensureOverlay] throws when the overlay is not registered and the
    application has no overlay manager, and changes nothing then.  Otherwise
    it returns normally with the overlay registered, a further call changes
    nothing, and a call with the overlay registered already changes nothing
    either.  [destroy] asks for the overlay last: without one it throws that
    error only after it has released the service, emptied the print
    container and cleared [data-pdfjsprinting]. *)
Theorem ensureOverlay_registers_once w :
  (overlayAvailable w = false →
     ensureOverlay w
     = (Throw (Error "The overlay manager has not yet been initialized."), w))
  ∧ (overlayAvailable w = true →
     ∃ w', ensureOverlay w = (Normal tt, w')
           ∧ overlayPromise w' = true
           ∧ ensureOverlay w' = (Normal tt, w')
           ∧ (overlayPromise w = true → w' = w))
  ∧ (∀ this s, activeService w = Some this → heap w !! this = Some s →
       overlayAvailable w = false →
       ∃ w', destroy this w
             = (Throw (Error
                  "The overlay manager has not yet been initialized."), w')
             ∧ activeService w' = None
             ∧ containers w' !! printContainer s = Some []
             ∧ bodyAttributes w' !! "data-pdfjsprinting" = None).
Proof.
  split; [|split].
  - unfold overlayAvailable, ensureOverlay.
    by destruct (overlayPromise w), (appOverlayManager w).
  - intros Hav. destruct (ensureOverlay_available w Hav) as (w' & He & Hp & ->).
    eexists. split; [exact He|]. split; [done|].
    split; [unfold ensureOverlay; by rewrite Hp|].
    intros Hreg. destruct w; simpl in *; by subst.
  - intros this s Ha Hs Hav. unfold destroy.
    rewrite (active_true this w Ha). cbn [negb].
    unfold exec_bind, self. rewrite Hs. unfold modify, exec_ret.
    unfold overlayAvailable in Hav. apply orb_false_iff in Hav as [Hreg Hmgr].
    destruct (pageStyleSheet s) as [sheet|]; cbn beta iota;
      unfold ensureOverlay; simpl; rewrite Hreg, Hmgr;
      (eexists; split; [reflexivity|]); simpl;
      (split; [done|]); (split; [by rewrite lookup_insert_eq|]);
      by rewrite lookup_delete_eq.
Qed.

(** [abort] while a service is active. *)
Lemma abort_run w this s :
  activeService w = Some this → heap w !! this = Some s →
  overlayAvailable w = true →
  ∃ w', abort w = (Normal tt, w')
        ∧ activeService w' = None
        ∧ afterprintEvents w' = S (afterprintEvents w)
        ∧ nativePrintCalls w' = nativePrintCalls w
        ∧ containers w' !! printContainer s = Some []
        ∧ length (heap w') = length (heap w).
Proof.
  intros Ha Hs Hav. unfold abort. rewrite Ha. unfold exec_bind.
  destruct (destroy_run this w s Ha Hs Hav)
    as (w1 & -> & Hact & Hcont & _ & _ & Hheap & _ & Hprints & Hevents & _).
  unfold modify. eexists. split; [reflexivity|]. simpl.
  rewrite Hcont, Hheap, Hevents, Hprints, lookup_insert_eq, length_alter.
  done.
Qed.

(** X5.  [abort] does nothing when no service is active.  Otherwise it
    destroys the active service and dispatches [afterprint] once, without
    calling the native [print]; a second [abort] changes nothing, the aborted
    service is refused by [throwIfInactive], and [createPrintService]
    succeeds again, with a new object. *)
Theorem abort_ends_the_job w :
  (activeService w = None → abort w = (Normal tt, w))
  ∧ (∀ this s, activeService w = Some this → heap w !! this = Some s →
       overlayAvailable w = true →
       ∃ w', abort w = (Normal tt, w')
             ∧ activeService w' = None
             ∧ afterprintEvents w' = S (afterprintEvents w)
             ∧ nativePrintCalls w' = nativePrintCalls w
             ∧ abort w' = (Normal tt, w')
             ∧ throwIfInactive this w' = (Throw cancelled, w')
             ∧ ∀ doc pages container l,
                 ∃ w'', createPrintService doc pages container l w'
                        = (Normal (length (heap w)), w'')
                        ∧ activeService w'' = Some (length (heap w))
                        ∧ length (heap w) ≠ this).
Proof.
  split.
  - intros Hnone. unfold abort. by rewrite Hnone.
  - intros this s Ha Hs Hav.
    destruct (abort_run w this s Ha Hs Hav)
      as (w' & Hrun & Hact & Hevents & Hprints & _ & Hlen).
    exists w'. split; [done|]. split; [done|]. split; [done|].
    split; [done|]. split; [unfold abort; by rewrite Hact|].
    split.
    { unfold throwIfInactive, active. rewrite Hact.
      by rewrite bool_decide_eq_false_2. }
    intros doc pages container l. unfold createPrintService.
    rewrite Hact, Hlen. eexists. split; [reflexivity|].
    split; [done|]. apply lookup_lt_Some in Hs. lia.
Qed.

End Job.

Import PrintServiceTheory.

(** The document of the concrete runs, in an application that has no overlay
    manager yet. *)
Definition unmanaged : @World Z :=
  {| heap := heap printing; activeService := activeService printing;
     bodyAttributes := ∅; bodyChildren := []; nextNode := 0%nat;
     containers := ∅; progressValue := None; warnings := [];
     appOverlayManager := false; overlayPromise := false;
     pendingOverlayClose := 0%nat; nativePrintCalls := 0%nat;
     afterprintEvents := 0%nat |}.

Definition svgOf (pageNumber : Z) : string :=
  "<svg page=" +:+ Z_to_string pageNumber +:+ ">".

Example two_pages_printed :
  ∃ w', renderAllPages svgOf 0%nat 2%nat printing = (Normal Resolved, w')
        ∧ containers w' !! 0%nat = Some ["<svg page=1>"; "<svg page=2>"]
        ∧ progressValue w' = Some 100.
Proof. eexists. split; [vm_compute; reflexivity|]. by vm_compute. Qed.

Example progress_of_two_pages :
  progressPercent 0 3 = 0 ∧ progressPercent 1 3 = 33
  ∧ progressPercent 2 3 = 67 ∧ progressPercent 3 3 = 100.
Proof. by vm_compute. Qed.

Lemma renderPages_prints_every_page_witness :
  activeService printing = Some 0%nat
  ∧ ∃ w', renderAllPages svgOf 0%nat 2%nat printing = (Normal Resolved, w')
          ∧ printed w' 0%nat = [svgOf 1; svgOf 2].
Proof.
  split; [reflexivity|].
  destruct (renderPages_prints_every_page svgOf 0%nat printing _ 2%nat
              eq_refl eq_refl eq_refl (le_n 2))
    as (w' & s' & Hrun & _ & _ & Hprinted & _).
  exists w'. split; [exact Hrun | exact Hprinted].
Defined.

Lemma destroy_releases_service_witness :
  activeService printing = Some 0%nat
  ∧ ∃ w', destroy 0%nat printing = (Normal tt, w') ∧ activeService w' = None.
Proof.
  split; [reflexivity|].
  destruct (proj2 (destroy_releases_service 0%nat printing) _
              eq_refl eq_refl eq_refl) as (w' & Hd & Ha & _).
  exists w'. split; [exact Hd | exact Ha].
Defined.

Lemma layout_marks_body_witness :
  activeService printing = Some 0%nat
  ∧ ∃ w', layout 0%nat printing = (Normal tt, w')
          ∧ bodyChildren w' = [(0%nat, pageStyleText a4)].
Proof.
  split; [reflexivity|].
  destruct (proj1 (layout_marks_body 0%nat printing _ eq_refl eq_refl)
              a4 [a4] eq_refl) as (w' & Hl & _ & Hkids & _).
  exists w'. split; [exact Hl | exact Hkids].
Defined.

Lemma layout_then_destroy_restores_body_witness :
  activeService printing = Some 0%nat
  ∧ ∃ w1 w2, layout 0%nat printing = (Normal tt, w1)
             ∧ destroy 0%nat w1 = (Normal tt, w2)
             ∧ bodyChildren w2 = [] ∧ bodyAttributes w2 = ∅.
Proof.
  split; [reflexivity|].
  destruct (layout_then_destroy_restores_body 0%nat printing _
              eq_refl eq_refl ltac:(discriminate) eq_refl eq_refl
              (List.Forall_nil _))
    as (w1 & w2 & Hl & Hd & Hattrs & Hkids & _).
  exists w1, w2. split; [exact Hl|]. split; [exact Hd|].
  split; [exact Hkids | exact Hattrs].
Defined.

Lemma renderProgress_rounds_witness :
  0 ≤ 2 ≤ 3
  ∧ ∃ progress, renderProgress 2 3 idle
                = (Normal tt, set_ui (Some progress) (warnings idle) idle)
                ∧ 0 ≤ progress ≤ 100.
Proof.
  split; [lia|].
  destruct (renderProgress_rounds 2 3 idle ltac:(lia) ltac:(lia))
    as (progress & Hrun & Hbounds & _).
  exists progress. split; [exact Hrun | exact Hbounds].
Defined.

Lemma ensureOverlay_registers_once_witness :
  overlayAvailable unmanaged = false
  ∧ ensureOverlay unmanaged
    = (Throw (Error "The overlay manager has not yet been initialized."),
       unmanaged).
Proof.
  split; [reflexivity|].
  apply (proj1 (ensureOverlay_registers_once unmanaged)). reflexivity.
Defined.

Lemma abort_ends_the_job_witness :
  activeService printing = Some 0%nat
  ∧ ∃ w', abort printing = (Normal tt, w')
          ∧ activeService w' = None
          ∧ afterprintEvents w' = 1%nat.
Proof.
  split; [reflexivity|].
  destruct (proj2 (abort_ends_the_job printing) 0%nat _
              eq_refl eq_refl eq_refl) as (w' & Hrun & Ha & He & _).
  exists w'. split; [exact Hrun|]. split; [exact Ha | exact He].
Defined.

End PrintJobTheory.

(** ** The contents and the listeners of a popup *)

Module PopupContentsTheory.
Import Annot Popup DomTheory PopupTheory.

(** *** Strings as lists of characters *)

Lemma string_app_cons x (a b : string) :
  String x a +:+ b = String x (a +:+ b).
Proof. reflexivity. Qed.

Lemma string_app_nil_l (b : string) : "" +:+ b = b.
Proof. reflexivity. Qed.

Lemma string_app_nil_r (a : string) : a +:+ "" = a.
Proof.
  induction a as [|x a IH]; [done|]. by rewrite string_app_cons, IH.
Qed.

Lemma string_app_assoc (a b c : string) : (a +:+ b) +:+ c = a +:+ (b +:+ c).
Proof.
  induction a as [|x a IH]; [done|]. by rewrite !string_app_cons, IH.
Qed.

Lemma string_of_list_app (l1 l2 : list Ascii.ascii) :
  String.string_of_list_ascii (l1 ++ l2)
  = String.string_of_list_ascii l1 +:+ String.string_of_list_ascii l2.
Proof.
  induction l1 as [|x l1 IH]; [done|].
  cbn [app String.string_of_list_ascii]. by rewrite string_app_cons, IH.
Qed.

Lemma concat_cons sep (x : string) (l : list string) :
  l ≠ [] → String.concat sep (x :: l) = x +:+ sep +:+ String.concat sep l.
Proof. by destruct l. Qed.

(** The line being read, as a string. *)
Definition pending (cur : list Ascii.ascii) : string :=
  String.string_of_list_ascii (rev cur).

Lemma pending_cons c cur : pending (c :: cur) = pending cur +:+ String c "".
Proof. unfold pending. cbn [rev]. by rewrite string_of_list_app. Qed.

(** The contents with every line break written as a line feed. *)
Fixpoint normalize (s : string) : string :=
  match s with
  | EmptyString => EmptyString
  | String c rest =>
      if Ascii.eqb c CR then
        String LF
          match rest with
          | String c' rest' =>
              if Ascii.eqb c' LF then normalize rest' else normalize rest
          | EmptyString => normalize rest
          end
      else String c (normalize rest)
  end.

Definition newline : string := String LF "".

(** A character that ends no line. *)
Definition inLine (c : Ascii.ascii) : Prop := c ≠ CR ∧ c ≠ LF.

Definition plainLine (s : string) : Prop :=
  Forall inLine (String.list_ascii_of_string s).

Lemma split_lines_nonempty s cur : split_lines s cur ≠ [].
Proof.
  revert cur. induction s as [|c s IH]; intros cur; cbn [split_lines];
    [done|].
  destruct (Ascii.eqb c CR); [done|]. destruct (Ascii.eqb c LF); [done|].
  apply IH.
Qed.

Lemma split_lines_join s :
  ∀ cur, String.concat newline (split_lines s cur) = pending cur +:+ normalize s.
Proof.
  induction s as [|c s IH]; intros cur.
  - cbn [split_lines normalize String.concat]. fold (pending cur).
    by rewrite string_app_nil_r.
  - cbn [split_lines normalize].
    destruct (Ascii.eqb c CR) eqn:Hcr.
    + rewrite concat_cons by (repeat case_match; apply split_lines_nonempty).
      fold (pending cur). f_equal. unfold newline at 1.
      rewrite string_app_cons, string_app_nil_l. f_equal.
      destruct s as [|c' s']; [apply (IH [])|].
      destruct (Ascii.eqb c' LF) eqn:Hlf; [|apply (IH [])].
      specialize (IH []). cbn [split_lines normalize] in IH.
      apply Ascii.eqb_eq in Hlf. subst c'.
      change (Ascii.eqb LF CR) with false in IH.
      rewrite Ascii.eqb_refl in IH.
      rewrite concat_cons in IH by apply split_lines_nonempty.
      unfold newline at 1 in IH.
      rewrite !string_app_cons, !string_app_nil_l in IH. by injection IH.
    + destruct (Ascii.eqb c LF) eqn:Hlf.
      * rewrite concat_cons by apply split_lines_nonempty.
        fold (pending cur). f_equal. unfold newline at 1.
        rewrite string_app_cons, string_app_nil_l.
        apply Ascii.eqb_eq in Hlf. subst c. f_equal. apply (IH []).
      * rewrite IH, pending_cons, string_app_assoc. done.
Qed.

Lemma plainLine_pending cur : Forall inLine cur → plainLine (pending cur).
Proof.
  intros Hcur. unfold plainLine, pending.
  rewrite String.list_ascii_of_string_of_list_ascii. by apply List.Forall_rev.
Qed.

Lemma split_lines_plain s :
  ∀ cur, Forall inLine cur → Forall plainLine (split_lines s cur).
Proof.
  induction s as [|c s IH]; intros cur Hcur; cbn [split_lines].
  - constructor; [by apply plainLine_pending|constructor].
  - destruct (Ascii.eqb c CR) eqn:Hcr.
    + constructor; [by apply plainLine_pending|].
      destruct s as [|c' s']; [by apply IH|].
      destruct (Ascii.eqb c' LF) eqn:Hlf; [|by apply IH].
      specialize (IH [] (List.Forall_nil _)). cbn [split_lines] in IH.
      apply Ascii.eqb_eq in Hlf. subst c'.
      change (Ascii.eqb LF CR) with false in IH.
      rewrite Ascii.eqb_refl in IH. by apply Forall_cons in IH as [_ IH].
    + destruct (Ascii.eqb c LF) eqn:Hlf.
      * constructor; [by apply plainLine_pending|]. by apply IH.
      * apply IH. constructor; [|done].
        split; intros ->; by rewrite Ascii.eqb_refl in *.
Qed.

Lemma normalize_without_CR s :
  Forall (λ c, c ≠ CR) (String.list_ascii_of_string s) → normalize s = s.
Proof.
  induction s as [|c s IH]; [done|]. cbn [String.list_ascii_of_string].
  intros [Hc Hs]%Forall_cons. cbn [normalize].
  apply Ascii.eqb_neq in Hc. rewrite Hc. f_equal. by apply IH.
Qed.

Lemma split_lines_single s :
  ∀ cur, plainLine s → split_lines s cur = [pending cur +:+ s].
Proof.
  induction s as [|c s IH]; intros cur Hs; cbn [split_lines].
  - fold (pending cur). by rewrite string_app_nil_r.
  - unfold plainLine in Hs. cbn [String.list_ascii_of_string] in Hs.
    apply Forall_cons in Hs as [[Hcr Hlf] Hs].
    apply Ascii.eqb_neq in Hcr, Hlf. rewrite Hcr, Hlf.
    rewrite IH by done. by rewrite pending_cons, string_app_assoc.
Qed.

(** *** The nodes of the paragraph *)

Section Nodes.
Context {N : Type} `{JsNumber N}.

Lemma line_nodes_cons line (lines : list string) :
  lines ≠ [] →
  line_nodes (N:=N) (line :: lines)
  = createTextNode line :: createElement "br" :: line_nodes lines.
Proof. by destruct lines. Qed.

Lemma line_nodes_length (lines : list string) :
  length (line_nodes (N:=N) lines) = (2 * length lines - 1)%nat.
Proof.
  induction lines as [|line lines IH]; [done|].
  destruct lines as [|line' lines]; [done|].
  rewrite line_nodes_cons by done. cbn [length] in *. lia.
Qed.

Lemma line_nodes_text (lines : list string) (i : nat) line :
  lines !! i = Some line →
  line_nodes (N:=N) lines !! (2 * i)%nat = Some (createTextNode line).
Proof.
  revert i. induction lines as [|first lines IH]; intros i Hi; [done|].
  destruct i as [|i].
  - injection Hi as ->. by destruct lines.
  - destruct lines as [|second lines]; [done|].
    rewrite line_nodes_cons by done.
    replace (2 * S i)%nat with (S (S (2 * i))) by lia. by apply IH.
Qed.

Lemma line_nodes_break (lines : list string) (i : nat) :
  (i + 1 < length lines)%nat →
  line_nodes (N:=N) lines !! (2 * i + 1)%nat = Some (createElement "br").
Proof.
  revert i. induction lines as [|first lines IH]; intros i Hi;
    [simpl in Hi; lia|].
  destruct lines as [|second lines]; [simpl in Hi; lia|].
  rewrite line_nodes_cons by done.
  destruct i as [|i]; [done|].
  replace (2 * S i + 1)%nat with (S (S (2 * i + 1))) by lia.
  apply IH. simpl in *. lia.
Qed.

(** X8.  [_formatContents] returns a [p] element that holds the lines of the
    contents (split at [\r\n], [\r] and [\n]) as text nodes, with a [br]
    between two consecutive lines and none at the end: there is at least one
    text node (also for empty contents), the text nodes are at the even
    positions and the [br] elements at the odd ones.  No line contains a
    carriage return or a line feed, and the lines joined by line feeds are the
    contents with every line break written as a line feed: the contents itself
    when it has no carriage return.  Contents without a line break gives a
    single text node. *)
Theorem formatContents_lines (contents : string) :
  let lines := split_lines contents [] in
  let nodes := children (_formatContents (N:=N) contents) in
  tagName (_formatContents (N:=N) contents) = "p"
  ∧ lines ≠ []
  ∧ length nodes = (2 * length lines - 1)%nat
  ∧ (∀ i line, lines !! i = Some line →
       nodes !! (2 * i)%nat = Some (createTextNode line))
  ∧ (∀ i, (i + 1 < length lines)%nat →
       nodes !! (2 * i + 1)%nat = Some (createElement "br"))
  ∧ Forall plainLine lines
  ∧ String.concat newline lines = normalize contents
  ∧ (Forall (λ c, c ≠ CR) (String.list_ascii_of_string contents) →
     String.concat newline lines = contents)
  ∧ (plainLine contents → nodes = [createTextNode contents]).
Proof.
  intros lines nodes. subst lines nodes. unfold _formatContents. simpl.
  split; [done|]. split; [apply split_lines_nonempty|].
  split; [apply line_nodes_length|].
  split; [apply line_nodes_text|]. split; [apply line_nodes_break|].
  split; [by apply split_lines_plain|].
  split; [by rewrite split_lines_join|].
  split.
  - intros Hcr. by rewrite split_lines_join, normalize_without_CR.
  - intros Hplain. by rewrite split_lines_single.
Qed.

End Nodes.

(** *** The listeners of the popup *)

Section Events.
Context {N : Type} `{JsNumber N} `{!Util (N:=N)}.
Implicit Types (p : @PopupElement N).

(** X9.  The listeners that [render] attaches, on a rendered popup in which
    a pinned popup is visible: each returns normally and keeps that property.
    A click on the trigger flips [pinned] and leaves the popup visible exactly
    when it is pinned afterwards; [mouseover] shows the popup and [mouseout]
    hides it unless it is pinned, both without touching [pinned]; a click on
    the popup unpins and hides it. *)
Theorem popup_event_table ev p :
  rendered p → pinned_visible p →
  ∃ p', handle ev p = (Normal tt, p')
        ∧ rendered p' ∧ pinned_visible p'
        ∧ pinned p' = match ev with
                      | TriggerClick => negb (pinned p)
                      | TriggerMouseover | TriggerMouseout => pinned p
                      | PopupClick => false
                      end
        ∧ hidden p' = match ev with
                      | TriggerClick => pinned p
                      | TriggerMouseover => false
                      | TriggerMouseout => negb (pinned p)
                      | PopupClick => true
                      end.
Proof.
  intros Hr Hinv. unfold pinned_visible in *. destruct ev; cbn [handle].
  - destruct (toggle_spec p Hr) as (p' & -> & Hr' & Hp' & Hh').
    exists p'. split; [done|]. split; [done|]. split; [|done].
    intros Hpin. rewrite Hh'. rewrite Hpin in Hp'. by destruct (pinned p).
  - destruct (show_spec false p Hr) as (p' & -> & Hr' & Hh' & Hp').
    exists p'. split; [done|]. split; [done|]. split; [by intros _|done].
  - destruct (hide_spec false p Hr) as (p' & -> & Hr' & Hp' & Hh' & _).
    simpl in Hp'. rewrite Hp' in Hh'.
    exists p'. split; [done|]. split; [done|].
    destruct (pinned p) eqn:Hpin.
    + rewrite Hh', Hp'. by rewrite Hinv.
    + rewrite Hh', Hp'. done.
  - destruct (hide_spec true p Hr) as (p' & -> & Hr' & Hp' & Hh' & _).
    simpl in Hp'. rewrite Hp' in Hh'.
    exists p'. split; [done|]. split; [done|]. rewrite Hp', Hh'. done.
Qed.

End Events.

Import Sample.

Example two_lines :
  children (_formatContents (N:=Z)
              ("a" +:+ String CR (String LF "b")))
  = [createTextNode "a"; createElement "br"; createTextNode "b"].
Proof. reflexivity. Qed.

Lemma formatContents_lines_witness :
  plainLine "first line"
  ∧ children (_formatContents (N:=Z) "first line")
    = [createTextNode "first line"].
Proof.
  split; [repeat constructor; discriminate|].
  apply (proj2 (proj2 (proj2 (proj2 (proj2 (proj2 (proj2 (proj2
           (formatContents_lines (N:=Z) "first line"))))))))).
  repeat constructor; discriminate.
Defined.

Lemma popup_event_table_witness :
  rendered (render false notePopup).2
  ∧ ∃ p', handle TriggerClick (render false notePopup).2 = (Normal tt, p')
          ∧ pinned p' = true ∧ hidden p' = false.
Proof.
  split; [apply render_rendered|].
  destruct (popup_event_table TriggerClick (render false notePopup).2
              (render_rendered false notePopup)
              ltac:(intros Hp; vm_compute in Hp; discriminate))
    as (p' & Hrun & _ & _ & Hp & Hh).
  exists p'. split; [exact Hrun|]. split; [exact Hp | exact Hh].
Defined.

End PopupContentsTheory.

(** ** What [_createContainer] leaves alone *)

Module FrameTheory.
Import Annot DomTheory.
Section Frame.
Context {N : Type} `{JsNumber N} `{!Util (N:=N)}.
Implicit Types (e x y : @Element N) (p : @Parameters N).

(** [x] is [e] with other styles: [_createContainer] only styles the section
    after it has set the identifier. *)
Definition restyled e x : Prop :=
  attributes x = attributes e ∧ children x = children e.

Lemma restyled_refl e : restyled e e.
Proof. by split. Qed.

Lemma restyled_setStyle e x k v : restyled e x → restyled e (setStyle k v x).
Proof. done. Qed.

Lemma restyled_CustomStyle e x k v :
  restyled e x → restyled e (CustomStyle_setProp k x v).
Proof. unfold CustomStyle_setProp. by destruct (customStyleName k). Qed.

Lemma restyled_if e x y (b : bool) :
  restyled e x → restyled e y → restyled e (if b then x else y).
Proof. by destruct b. Qed.

Lemma restyled_applyBorderColor e x d :
  restyled e x → restyled e (applyBorderColor d x).
Proof.
  unfold applyBorderColor. by destruct (borderColor d), (color d).
Qed.

Ltac restyle :=
  repeat first
    [ apply restyled_setStyle | apply restyled_CustomStyle
    | apply restyled_applyBorderColor | apply restyled_if
    | apply restyled_refl ].

Lemma V1_createContainer_restyled p ignoreBorder :
  restyled (setAttribute "data-annotation-id" (id (data p))
              (createElement "section"))
    (V1._createContainer p ignoreBorder).
Proof.
  unfold V1._createContainer. cbv zeta.
  destruct (borderDrawn ignoreBorder (data p));
    [destruct (negb _)|]; cbv beta iota; restyle.
Qed.

Lemma V1_createContainer_children p ignoreBorder :
  children (V1._createContainer p ignoreBorder) = [].
Proof. apply V1_createContainer_restyled. Qed.

Lemma V1_createContainer_attributes p ignoreBorder :
  attributes (V1._createContainer p ignoreBorder)
  = {[ "data-annotation-id" := id (data p) ]}.
Proof.
  rewrite (proj1 (V1_createContainer_restyled p ignoreBorder)).
  by autorewrite with dom.
Qed.

Lemma V1_createContainer_id p ignoreBorder :
  attributes (V1._createContainer p ignoreBorder) !! "data-annotation-id"
  = Some (id (data p)).
Proof. rewrite V1_createContainer_attributes. by simplify_map_eq. Qed.

Lemma V3_createContainer_restyled p ignoreBorder :
  restyled (setAttribute "data-annotation-id" (id (data p))
              (createElement "section"))
    (V3._createContainer p ignoreBorder).
Proof.
  unfold V3._createContainer. cbv zeta.
  destruct (borderDrawn ignoreBorder (data p));
    [destruct (negb _)|]; cbv beta iota; restyle.
Qed.

Lemma V3_createContainer_children p ignoreBorder :
  children (V3._createContainer p ignoreBorder) = [].
Proof. apply V3_createContainer_restyled. Qed.

End Frame.
End FrameTheory.

(** ** The annotations that create their own popup *)

Module BodiesTheory.
Import Annot DomTheory PopupTheory ContainerTheory UpdateTheory RenderTheory
  FrameTheory Bodies.
Section Popups.
Context {N : Type} `{JsNumber N} `{!Util (N:=N)}.
Implicit Types (c container : @Element N) (d : @AnnotationData N).
Implicit Types (p : @Parameters N).

(** The wrapper of a popup as [_createPopup] leaves it: hidden, placed at the
    right of the container, and holding the popup with the title and the
    contents. *)
Definition popupWrapperOf d (width : string) (wrapper : @Element N) : Prop :=
  tagName wrapper = "div" ∧ className wrapper = "popupWrapper"
  ∧ hasAttribute "hidden" wrapper = true
  ∧ style wrapper !! "left" = Some width
  ∧ ∃ popup heading dates,
      children wrapper = [popup]
      ∧ className popup = "popup"
      ∧ children popup
        = [heading] ++ dates ++ [Popup._formatContents (contents d)]
      ∧ tagName heading = "h1"
      ∧ props heading !! "textContent" = Some (JStr (title d))
      ∧ (length dates ≤ 1)%nat.

Lemma createPopup_spec dated c trigger d :
  ∃ wrapper,
    _createPopup dated c trigger d
    = setChildren
        (children c
         ++ match trigger with Some _ => [] | None => [triggerDiv c] end
         ++ [wrapper]) c
    ∧ popupWrapperOf d (getStyle "width" c) wrapper.
Proof.
  unfold _createPopup, Popup.render, Popup.new_PopupElement,
    Popup.update_hideElement. cbn.
  eexists. split.
  - destruct trigger; unfold appendChild, setChildren; cbn;
      rewrite <- ?app_assoc; reflexivity.
  - unfold popupWrapperOf, className, hasAttribute. cbn.
    split; [done|]. split; [by simplify_map_eq|].
    split; [apply bool_decide_eq_true; by simplify_map_eq|].
    split; [destruct trigger; by simplify_map_eq|].
    eexists _, _, _. split; [reflexivity|].
    split.
    { destruct (color d); cbn; by simplify_map_eq. }
    split; [destruct (color d); reflexivity|].
    split; [done|]. split; [by simplify_map_eq|].
    destruct dated; [|simpl; lia].
    destruct (dateArguments _); simpl; lia.
Qed.


(** X10.  [_createPopup] only appends to the container: a trigger [div] of
    the height and width of the container when none is given, and then the
    wrapper of the popup.  The wrapper is hidden, is placed at the width of
    the container and holds the popup with the title and the formatted
    contents.  The container itself keeps its tag, attributes, properties and
    style; in particular it is not hidden by
    [_createPopup]. *)
Theorem createPopup_adds_hidden_popup dated c trigger d :
  ∃ wrapper,
    children (_createPopup dated c trigger d)
    = children c
      ++ match trigger with Some _ => [] | None => [triggerDiv c] end
      ++ [wrapper]
    ∧ popupWrapperOf d (getStyle "width" c) wrapper
    ∧ getStyle "width" (triggerDiv c) = getStyle "width" c
    ∧ getStyle "height" (triggerDiv c) = getStyle "height" c
    ∧ tagName (_createPopup dated c trigger d) = tagName c
    ∧ attributes (_createPopup dated c trigger d) = attributes c
    ∧ props (_createPopup dated c trigger d) = props c
    ∧ style (_createPopup dated c trigger d) = style c
    ∧ hasAttribute "hidden" (_createPopup dated c trigger d)
      = hasAttribute "hidden" c.
Proof.
  destruct (createPopup_spec dated c trigger d) as (wrapper & -> & Hw).
  exists wrapper. split; [done|]. split; [done|].
  split; [unfold triggerDiv, getStyle; simpl; by simplify_map_eq|].
  split; [unfold triggerDiv, getStyle; simpl; by simplify_map_eq|].
  done.
Qed.

(** X11.  The annotations that create their popup themselves.  [render] of a
    highlight, underline, squiggly or strike-out annotation (and of the free
    text, caret and stamp annotations of the later revisions) names the
    container and, exactly when the annotation has no Popup entry
    ([data.hasPopup] false), appends a trigger and the hidden popup; with a
    Popup entry the container stays as it is.  [render] of a file attachment
    always appends its trigger last; the popup comes before it exactly when
    there is no Popup entry and the title or the contents is not empty. *)
Theorem markup_popup_without_entry dated name p c :
  (hasPopup (data p) = true →
   render_markup dated name p c = setProp "className" (JStr name) c
   ∧ children (render_fileAttachment dated p c)
     = children c ++ [triggerDiv c])
  ∧ (hasPopup (data p) = false →
     (∃ wrapper,
        render_markup dated name p c
        = setChildren (children c ++ [triggerDiv c; wrapper])
            (setProp "className" (JStr name) c)
        ∧ popupWrapperOf (data p) (getStyle "width" c) wrapper)
     ∧ (title (data p) = "" → contents (data p) = "" →
        children (render_fileAttachment dated p c)
        = children c ++ [triggerDiv c])
     ∧ (title (data p) ≠ "" ∨ contents (data p) ≠ "" →
        ∃ wrapper,
          children (render_fileAttachment dated p c)
          = children c ++ [wrapper; triggerDiv c]
          ∧ popupWrapperOf (data p) (getStyle "width" c) wrapper))
  ∧ className (render_markup dated name p c) = name
  ∧ className (render_fileAttachment dated p c) = "fileAttachmentAnnotation".
Proof.
  split; [|split; [|split]].
  - intros Hp. unfold render_markup, render_fileAttachment. rewrite Hp.
    split; [done|]. simpl. done.
  - intros Hp. split; [|split].
    + unfold render_markup. rewrite Hp. cbn [negb].
      destruct (createPopup_spec dated (setProp "className" (JStr name) c)
                  None (data p)) as (wrapper & -> & Hw).
      exists wrapper. split; [|done]. simpl. done.
    + intros Ht Hc. unfold render_fileAttachment. rewrite Hp, Ht, Hc. done.
    + intros Htext. unfold render_fileAttachment. rewrite Hp. cbn [negb andb].
      replace (negb (String.eqb (title (data p)) "")
               || negb (String.eqb (contents (data p)) "")) with true.
      2:{ symmetry. apply orb_true_iff.
          destruct Htext as [Ht|Hc]; [left|right];
            by apply negb_true_iff, String.eqb_neq. }
      match goal with |- context [_createPopup dated ?c0 ?t ?d0] =>
        destruct (createPopup_spec dated c0 t d0) as (wrapper & -> & Hw)
      end.
      exists wrapper. split; [|done]. simpl. by rewrite <- app_assoc.
  - unfold render_markup. destruct (hasPopup (data p)); cbn [negb].
    + unfold className. simpl. by simplify_map_eq.
    + destruct (createPopup_spec dated (setProp "className" (JStr name) c)
                  None (data p)) as (wrapper & -> & _).
      unfold className. simpl. by simplify_map_eq.
  - unfold render_fileAttachment.
    destruct (negb (hasPopup (data p)) && _).
    + match goal with |- context [_createPopup dated ?c0 ?t ?d0] =>
        destruct (createPopup_spec dated c0 t d0) as (wrapper & -> & _)
      end.
      unfold className. simpl. by simplify_map_eq.
    + unfold className. simpl. by simplify_map_eq.
Qed.

Section Svg.
Context (svgCreate : N → N → @Element N)
        (svgCreateElement : string → @Element N).

Lemma ink_loop d (inkLists : list (list (@Point N))) :
  ∀ c svg,
    ∃ wrappers,
      fold_left (inkTurn svgCreateElement d) inkLists (c, svg)
      = (setChildren (children c ++ wrappers) c,
         setChildren
           (children svg
            ++ (polylineOf svgCreateElement "svg:polyline" d <$> inkLists))
           svg)
      ∧ length wrappers = length inkLists
      ∧ Forall (popupWrapperOf d (getStyle "width" c)) wrappers.
Proof.
  induction inkLists as [|inkList inkLists IH]; intros c svg.
  - exists []. simpl. rewrite !app_nil_r. by destruct c, svg.
  - cbn [fold_left]. unfold inkTurn at 2.
    destruct (createPopup_spec true c
                (Some (polylineOf svgCreateElement "svg:polyline" d inkList))
                d) as (wrapper & -> & Hw).
    match goal with |- context [fold_left _ inkLists (?c1, ?svg1)] =>
      destruct (IH c1 svg1) as (wrappers & -> & Hlen & Hall)
    end.
    exists (wrapper :: wrappers). split; [|split].
    + unfold appendChild. simpl. by rewrite <- !app_assoc.
    + simpl. by rewrite Hlen.
    + constructor; [done|]. exact Hall.
Qed.

(** X12.  [InkAnnotationElement.render] creates a popup for every ink list:
    the container receives as many hidden popup wrappers as there are ink
    lists (none for an annotation without ink lists), followed by the SVG
    element, which holds one polyline per ink list, in order.
    [PolylineAnnotationElement.render] (also used for polygons) appends the
    SVG element with its single polyline and then exactly one popup
    wrapper. *)
Theorem ink_popup_per_list p (inkLists : list (list (@Point N)))
    containerClassName svgElementName (vertices : list (@Point N)) c :
  (∃ wrappers svg,
     render_ink svgCreate svgCreateElement p inkLists c
     = setChildren (children c ++ wrappers ++ [svg])
         (setProp "className" (JStr "inkAnnotation") c)
     ∧ length wrappers = length inkLists
     ∧ Forall (popupWrapperOf (data p) (getStyle "width" c)) wrappers
     ∧ children svg
       = children (svgCreate (nsub (r2 (rect (data p))) (r0 (rect (data p))))
                     (nsub (r3 (rect (data p))) (r1 (rect (data p)))))
         ++ (polylineOf svgCreateElement "svg:polyline" (data p)
               <$> inkLists))
  ∧ (∃ wrapper svg,
       render_polyline svgCreate svgCreateElement containerClassName
         svgElementName p vertices c
       = setChildren (children c ++ [svg; wrapper])
           (setProp "className" (JStr containerClassName) c)
       ∧ popupWrapperOf (data p) (getStyle "width" c) wrapper
       ∧ children svg
         = children (svgCreate
                       (nsub (r2 (rect (data p))) (r0 (rect (data p))))
                       (nsub (r3 (rect (data p))) (r1 (rect (data p)))))
           ++ [polylineOf svgCreateElement svgElementName (data p) vertices]).
Proof.
  split.
  - unfold render_ink. cbn zeta.
    match goal with |- context [fold_left _ inkLists (?c0, ?svg0)] =>
      destruct (ink_loop (data p) inkLists c0 svg0)
        as (wrappers & -> & Hlen & Hall)
    end.
    eexists wrappers, _. split; [|split; [done|split; [done|]]].
    + unfold appendChild. simpl. by rewrite <- app_assoc.
    + done.
  - unfold render_polyline. cbn zeta.
    match goal with |- context [_createPopup true ?c0 ?t ?d0] =>
      destruct (createPopup_spec true c0 t d0) as (wrapper & -> & Hw)
    end.
    eexists wrapper, _. split; [|split; [done|]].
    + unfold appendChild. simpl. by rewrite <- !app_assoc.
    + done.
Qed.

End Svg.


(** *** The popup of a Popup annotation *)

(** The container of a Popup annotation whose popup is not created. *)
Definition emptyPopup c : @Element N :=
  setProp "className" (JStr "popupAnnotation") c.

Lemma V1_create_popup p :
  AT_POPUP ≠ AT_LINK → AT_POPUP ≠ AT_TEXT → AT_POPUP ≠ AT_WIDGET →
  annotationType (data p) = AT_POPUP →
  V1.create_class p = PopupAnnotationElement.
Proof.
  intros Hl Ht Hw Hp. unfold V1.create_class.
  by rewrite Hp, (eqb_refl_false _ _ Hl), (eqb_refl_false _ _ Ht),
    (eqb_refl_false _ _ Hw), Z.eqb_refl.
Qed.

(** X13.  A Popup annotation without a parent in the layer.  When the type of
    the parent is one of [IGNORE_TYPES], or no element of the layer carries
    [data.parentId], [PopupAnnotationElement.render] only names the container:
    no popup is created and the container is not hidden.  Otherwise (shown
    for the revision with a storage) the container is hidden, is placed at
    the right edge of the parent and receives the wrapper, which is itself
    not hidden.  The first revision renders the annotations in the order of
    the array, so there a Popup annotation that comes first, before its
    parent is in the layer, yields an empty section that is not hidden. *)
Theorem popup_without_parent p layer c :
  (parentType (data p) = "Line"
   ∨ querySelector "data-annotation-id" (parentId (data p)) layer = None →
   V1.render_popup p layer c = emptyPopup c)
  ∧ (parentType (data p) ∈ V3.IGNORE_TYPES
     ∨ querySelector "data-annotation-id" (parentId (data p)) layer = None →
     V2.render_popup p layer c = emptyPopup c
     ∧ V3.render_popup p layer c = emptyPopup c)
  ∧ (∀ parent,
       parentType (data p) ∉ V3.IGNORE_TYPES →
       querySelector "data-annotation-id" (parentId (data p)) layer
       = Some parent →
       let left := nadd (parseFloat (getStyle "left" parent))
                        (parseFloat (getStyle "width" parent)) in
       hasAttribute "hidden" (V3.render_popup p layer c) = true
       ∧ style (V3.render_popup p layer c) !! "left" = Some (px left)
       ∧ ∃ wrapper,
           children (V3.render_popup p layer c) = children c ++ [wrapper]
           ∧ className wrapper = "popupWrapper"
           ∧ hasAttribute "hidden" wrapper = false)
  ∧ (∀ (renderOther : ElementClass → @Parameters N → @Element N →
                       @Element N → Completion (@Element N))
       lp div popup rest,
       AT_POPUP ≠ AT_LINK → AT_POPUP ≠ AT_TEXT → AT_POPUP ≠ AT_WIDGET →
       annotations lp = Some popup :: rest →
       annotationType popup = AT_POPUP →
       title popup ≠ "" ∨ contents popup ≠ "" →
       querySelector "data-annotation-id" (parentId popup) div = None →
       ∃ section appended,
         (V1.render renderOther lp div).2
         = setChildren (children div ++ section :: appended) div
         ∧ annotationId section = annotationId
             (V1._createContainer (V1.elementParameters lp popup) false)
         ∧ className section = "popupAnnotation"
         ∧ children section = []
         ∧ hasAttribute "hidden" section = false).
Proof.
  split; [|split; [|split]].
  - intros Hno. unfold V1.render_popup, emptyPopup.
    case_bool_decide as Hin; [done|].
    destruct Hno as [Hline|Hnone].
    + exfalso. apply Hin. rewrite Hline. by left.
    + by rewrite Hnone.
  - intros Hno. unfold V2.render_popup, V3.render_popup, emptyPopup.
    change V2.IGNORE_TYPES with V3.IGNORE_TYPES.
    case_bool_decide as Hin; [done|].
    destruct Hno as [Hign|Hnone]; [done|]. by rewrite Hnone.
  - intros parent Hnot Hparent left. unfold V3.render_popup.
    rewrite bool_decide_eq_false_2 by done. rewrite Hparent.
    unfold Popup.render, Popup.new_PopupElement, Popup.update_hideElement.
    cbn. unfold hasAttribute, className. cbn.
    split; [apply bool_decide_eq_true; by simplify_map_eq|].
    split; [by simplify_map_eq|].
    eexists. split; [reflexivity|]. cbn.
    split; [by simplify_map_eq|].
    apply bool_decide_eq_false. by simplify_map_eq.
  - intros renderOther lp div popup rest Hl Ht Hw Hann Htype Htext Hnone.
    unfold V1.render. rewrite Hann. cbn [for_each]. unfold exec_bind.
    assert (Hfirst : V1.renderAnnotation renderOther lp (Some popup) div
      = (Normal tt,
         appendChild
           (emptyPopup (V1._createContainer (V1.elementParameters lp popup)
                          false)) div)).
    { unfold V1.renderAnnotation, V1.create, instantiate, construct.
      rewrite (V1_create_popup _ Hl Ht Hw) by done.
      cbn [V1.baseArguments data V1.elementParameters constructorBody].
      replace (negb (String.eqb (title popup) "")
               || negb (String.eqb (contents popup) "")) with true.
      2:{ symmetry. apply orb_true_iff.
          destruct Htext as [Ht'|Hc']; [left|right];
            by apply negb_true_iff, String.eqb_neq. }
      cbn [isRenderable container class parameters V1.render_element].
      unfold V1.render_popup.
      change (data (V1.elementParameters lp popup)) with popup.
      case_bool_decide; [done|]. by rewrite Hnone. }
    rewrite Hfirst.
    destruct (V1_loop_outcome renderOther lp rest
                (appendChild
                   (emptyPopup
                      (V1._createContainer (V1.elementParameters lp popup)
                         false)) div))
      as (processed & appended & -> & _).
    eexists _, appended. split.
    { unfold appendChild, setChildren. simpl. by rewrite <- app_assoc. }
    split; [done|]. unfold emptyPopup.
    split; [unfold className; simpl; by simplify_map_eq|].
    split; [apply V1_createContainer_children|].
    unfold hasAttribute.
    rewrite attributes_setProp, V1_createContainer_attributes.
    apply bool_decide_eq_false. intros [v Hv]. by simplify_map_eq.
Qed.

End Popups.

Import Sample.

(** A highlight with a title and contents but no Popup entry. *)
Definition highlight : @AnnotationData Z :=
  with_text "Title" "note" (blank "3R" 9).

(** A Popup annotation whose parent is not in the layer. *)
Definition orphan : @AnnotationData Z :=
  with_parent "Highlight" "3R" (with_text "Title" "note" (blank "4R" 16)).

Example highlight_children :
  length (children (render_markup false "highlightAnnotation"
                      (elementParameters 1 highlight)
                      (V1._createContainer (elementParameters 1 highlight)
                         true)))
  = 2%nat.
Proof. reflexivity. Qed.

Example ink_three_lists :
  length (children
            (render_ink (λ _ _, createElement "svg:svg") createElement
               (elementParameters 1 highlight) [[]; []; []]
               (createElement "section")))
  = 4%nat.
Proof. reflexivity. Qed.

Example orphan_first :
  children (V1.render plainBody
              (layerParameters 1 [Some orphan; Some highlight]) layerDiv).2
  !! 0%nat
  = Some (emptyPopup (V1._createContainer (elementParameters 1 orphan) false)).
Proof. by vm_compute. Qed.

Lemma markup_popup_without_entry_witness :
  hasPopup highlight = false
  ∧ ∃ wrapper,
      render_markup false "highlightAnnotation"
        (elementParameters 1 highlight) (createElement "section")
      = setChildren [triggerDiv (createElement "section"); wrapper]
          (setProp "className" (JStr "highlightAnnotation")
             (createElement "section")).
Proof.
  split; [reflexivity|].
  destruct (proj1 (proj1 (proj2 (markup_popup_without_entry false
                             "highlightAnnotation"
                             (elementParameters 1 highlight)
                             (createElement "section"))) eq_refl))
    as (wrapper & Hrender & _).
  exists wrapper. exact Hrender.
Defined.

Lemma popup_without_parent_witness :
  querySelector "data-annotation-id" (parentId orphan) layerDiv = None
  ∧ V1.render_popup (elementParameters 1 orphan) layerDiv
      (createElement "section")
    = emptyPopup (createElement "section").
Proof.
  split; [reflexivity|].
  apply (proj1 (popup_without_parent (elementParameters 1 orphan) layerDiv
                  (createElement "section"))).
  right. reflexivity.
Defined.

End BodiesTheory.

(** ** The border of the container *)

Module BorderTheory.
Import Annot DomTheory ContainerTheory.
Section Border.
Context {N : Type} `{JsNumber N} `{!Util (N:=N)}.
Implicit Types (d : @AnnotationData N) (p : @Parameters N).

(** The annotation with another [data.color]. *)
Definition recolor (col : option (@Color N)) d : @AnnotationData N :=
  {| id := id d; annotationType := annotationType d; rect := rect d;
     borderStyle := borderStyle d; borderColor := borderColor d;
     color := col; fieldType := fieldType d; radioButton := radioButton d;
     checkBox := checkBox d; hasPopup := hasPopup d; title := title d;
     contents := contents d; modificationDate := modificationDate d;
     url := url d; dest := dest d; action := action d;
     hasAppearance := hasAppearance d; fieldValue := fieldValue d;
     buttonValue := buttonValue d; fieldName := fieldName d;
     readOnly := readOnly d; alternativeText := alternativeText d;
     checkBoxType := checkBoxType d; radioButtonType := radioButtonType d;
     fontColor := fontColor d; backgroundColor := backgroundColor d;
     parentType := parentType d; parentId := parentId d; combo := combo d;
     multiSelect := multiSelect d; file := file d |}.

(** The annotation with another border. *)
Definition reborder (bs : @BorderStyle N) (bc : option (@Color N)) d
    : @AnnotationData N :=
  {| id := id d; annotationType := annotationType d; rect := rect d;
     borderStyle := bs; borderColor := bc;
     color := color d; fieldType := fieldType d; radioButton := radioButton d;
     checkBox := checkBox d; hasPopup := hasPopup d; title := title d;
     contents := contents d; modificationDate := modificationDate d;
     url := url d; dest := dest d; action := action d;
     hasAppearance := hasAppearance d; fieldValue := fieldValue d;
     buttonValue := buttonValue d; fieldName := fieldName d;
     readOnly := readOnly d; alternativeText := alternativeText d;
     checkBoxType := checkBoxType d; radioButtonType := radioButtonType d;
     fontColor := fontColor d; backgroundColor := backgroundColor d;
     parentType := parentType d; parentId := parentId d; combo := combo d;
     multiSelect := multiSelect d; file := file d |}.

(** The parameters with other annotation data. *)
Definition withData d p : @Parameters N :=
  {| data := d; page := page p; viewport := viewport p;
     linkService := linkService p;
     imageResourcesPath := imageResourcesPath p;
     renderInteractiveForms := renderInteractiveForms p |}.

(** Inside the border block [data.borderColor] is set, so the colour of the
    border is always taken from it. *)
Lemma applyBorderColor_drawn ignoreBorder d c :
  borderDrawn ignoreBorder d = true →
  ∃ bc, borderColor d = Some bc
        ∧ applyBorderColor d c = setStyle "borderColor" (cssColor bc) c.
Proof.
  unfold borderDrawn, applyBorderColor. rewrite !andb_true_iff.
  intros (_ & Hbc). apply bool_decide_eq_true in Hbc as [bc Hbc].
  exists bc. by rewrite Hbc.
Qed.

Lemma applyBorderColor_recolor ignoreBorder col d c :
  borderDrawn ignoreBorder d = true →
  applyBorderColor (recolor col d) c = applyBorderColor d c.
Proof.
  intros Hd. destruct (applyBorderColor_drawn ignoreBorder d c Hd)
    as (bc & Hbc & _).
  unfold applyBorderColor. simpl. by rewrite Hbc.
Qed.

Ltac border_cases :=
  repeat match goal with
         | |- context [if ?b then _ else _] => destruct b eqn:?
         end.

Lemma V1_createContainer_recolor p ignoreBorder col :
  V1._createContainer (withData (recolor col (data p)) p) ignoreBorder
  = V1._createContainer p ignoreBorder.
Proof.
  unfold V1._createContainer. cbn [data withData page viewport recolor id rect
    borderStyle borderColor].
  change (borderDrawn ignoreBorder (recolor col (data p)))
    with (borderDrawn ignoreBorder (data p)).
  change (flippedRect (recolor col (data p)) (page p))
    with (flippedRect (data p) (page p)).
  destruct (borderDrawn ignoreBorder (data p)) eqn:Hd; [|done].
  by rewrite !(applyBorderColor_recolor ignoreBorder col (data p)).
Qed.


Lemma V2_createContainer_recolor p ignoreBorder col :
  V2._createContainer (withData (recolor col (data p)) p) ignoreBorder
  = V2._createContainer p ignoreBorder.
Proof.
  unfold V2._createContainer. cbn [data withData page viewport recolor id rect
    borderStyle borderColor].
  change (borderDrawn ignoreBorder (recolor col (data p)))
    with (borderDrawn ignoreBorder (data p)).
  change (flippedRect (recolor col (data p)) (page p))
    with (flippedRect (data p) (page p)).
  destruct (borderDrawn ignoreBorder (data p)) eqn:Hd; [|done].
  by rewrite !(applyBorderColor_recolor ignoreBorder col (data p)).
Qed.

Lemma V3_createContainer_recolor p ignoreBorder col :
  V3._createContainer (withData (recolor col (data p)) p) ignoreBorder
  = V3._createContainer p ignoreBorder.
Proof.
  unfold V3._createContainer. cbn [data withData page viewport recolor id rect
    borderStyle borderColor].
  change (borderDrawn ignoreBorder (recolor col (data p)))
    with (borderDrawn ignoreBorder (data p)).
  change (flippedRect (recolor col (data p)) (page p))
    with (flippedRect (data p) (page p)).
  destruct (borderDrawn ignoreBorder (data p)) eqn:Hd; [|done].
  by rewrite !(applyBorderColor_recolor ignoreBorder col (data p)).
Qed.

(** The style that the border block of the two later revisions leaves. *)
Lemma V3_border_style p :
  borderDrawn false (data p) = true →
  ∃ bc, borderColor (data p) = Some bc
        ∧ style (V3._createContainer p false) !! "borderColor"
          = Some (cssColor bc)
        ∧ style (V3._createContainer p false) !! "borderWidth"
          = Some (px (bwidth (borderStyle (data p)))).
Proof.
  intros Hd. unfold V3._createContainer. rewrite Hd.
  destruct (applyBorderColor_drawn false (data p)
              (createElement "section") Hd) as (bc & Hbc & _).
  exists bc. split; [done|].
  unfold applyBorderColor. rewrite Hbc.
  border_cases; rewrite !style_setStyle; by simplify_map_eq.
Qed.

Lemma V2_border_style p :
  borderDrawn false (data p) = true →
  ∃ bc, borderColor (data p) = Some bc
        ∧ style (V2._createContainer p false) !! "borderColor"
          = Some (cssColor bc)
        ∧ style (V2._createContainer p false) !! "borderWidth"
          = Some (px (bwidth (borderStyle (data p)))).
Proof.
  intros Hd. unfold V2._createContainer. rewrite Hd.
  destruct (applyBorderColor_drawn false (data p)
              (createElement "section") Hd) as (bc & Hbc & _).
  exists bc. split; [done|].
  unfold applyBorderColor. rewrite Hbc.
  border_cases; rewrite ?style_setAttribute, !style_setStyle;
    by simplify_map_eq.
Qed.

(** X15.  The container never depends on [data.color]: the border block is
    entered only when [data.borderColor] is set, so its [else if (data.color)]
    branch is never taken, in any of the three revisions.  When the border is
    drawn, the two later revisions give the container the colour of
    [data.borderColor] and the width of [data.borderStyle]. *)
Theorem border_colour_from_borderColor p ignoreBorder col :
  V1._createContainer (withData (recolor col (data p)) p) ignoreBorder
  = V1._createContainer p ignoreBorder
  ∧ V2._createContainer (withData (recolor col (data p)) p) ignoreBorder
    = V2._createContainer p ignoreBorder
  ∧ V3._createContainer (withData (recolor col (data p)) p) ignoreBorder
    = V3._createContainer p ignoreBorder
  ∧ (borderDrawn false (data p) = true →
     ∃ bc, borderColor (data p) = Some bc
           ∧ style (V2._createContainer p false) !! "borderColor"
             = Some (cssColor bc)
           ∧ style (V2._createContainer p false) !! "borderWidth"
             = Some (px (bwidth (borderStyle (data p))))
           ∧ style (V3._createContainer p false) !! "borderColor"
             = Some (cssColor bc)
           ∧ style (V3._createContainer p false) !! "borderWidth"
             = Some (px (bwidth (borderStyle (data p))))).
Proof.
  split; [apply V1_createContainer_recolor|].
  split; [apply V2_createContainer_recolor|].
  split; [apply V3_createContainer_recolor|].
  intros Hd.
  destruct (V2_border_style p Hd) as (bc & Hbc & H2c & H2w).
  destruct (V3_border_style p Hd) as (bc' & Hbc' & H3c & H3w).
  exists bc. rewrite Hbc in Hbc'. injection Hbc' as <-. done.
Qed.

(** The classes whose constructor passes [ignoreBorder = true]. *)
Definition borderless_V1 : list ElementClass :=
  [LineAnnotationElement; HighlightAnnotationElement;
   UnderlineAnnotationElement; SquigglyAnnotationElement;
   StrikeOutAnnotationElement].

Definition borderless_V3 : list ElementClass :=
  [FreeTextAnnotationElement; LineAnnotationElement; SquareAnnotationElement;
   CircleAnnotationElement; PolylineAnnotationElement;
   PolygonAnnotationElement; CaretAnnotationElement; InkAnnotationElement;
   HighlightAnnotationElement; UnderlineAnnotationElement;
   SquigglyAnnotationElement; StrikeOutAnnotationElement;
   StampAnnotationElement].

Lemma V1_createContainer_reborder p bs bc :
  V1._createContainer (withData (reborder bs bc (data p)) p) true
  = V1._createContainer p true.
Proof. reflexivity. Qed.

Lemma V2_createContainer_reborder p bs bc :
  V2._createContainer (withData (reborder bs bc (data p)) p) true
  = V2._createContainer p true.
Proof. reflexivity. Qed.

Lemma V3_createContainer_reborder p bs bc :
  V3._createContainer (withData (reborder bs bc (data p)) p) true
  = V3._createContainer p true.
Proof. reflexivity. Qed.

(** X14.  The constructors that pass [ignoreBorder = true] are those of Line
    and of the four text markup classes in the first revision, and of all
    the markup classes from FreeText to Stamp in the two later ones.  The
    container of such an element does not depend on the border of the
    annotation: it has no border style at all and keeps the full width and
    height of the rectangle. *)
Theorem markup_container_ignores_border cls p bs bc :
  ((V1.baseArguments cls p).2 = true ↔ cls ∈ borderless_V1)
  ∧ ((V3.baseArguments cls p).2 = true ↔ cls ∈ borderless_V3)
  ∧ ((V2.baseArguments cls p).2 = true ↔ cls ∈ borderless_V3)
  ∧ (cls ∈ borderless_V1 →
     container (construct V1.baseArguments V1._createContainer cls
                  (withData (reborder bs bc (data p)) p))
     = container (construct V1.baseArguments V1._createContainer cls p))
  ∧ (cls ∈ borderless_V3 →
     container (construct V3.baseArguments V3._createContainer cls
                  (withData (reborder bs bc (data p)) p))
     = container (construct V3.baseArguments V3._createContainer cls p)
     ∧ container (construct V2.baseArguments V2._createContainer cls
                    (withData (reborder bs bc (data p)) p))
       = container (construct V2.baseArguments V2._createContainer cls p))
  ∧ (∀ c, cls ∈ borderless_V3 →
       container (construct V3.baseArguments V3._createContainer cls p)
       = Some c →
       style c !! "borderWidth" = None ∧ style c !! "borderStyle" = None
       ∧ style c !! "borderColor" = None
       ∧ style c !! "width"
         = Some (px (nsub (r2 (rect (data p))) (r0 (rect (data p)))))
       ∧ style c !! "height"
         = Some (px (nsub (r3 (rect (data p))) (r1 (rect (data p)))))).
Proof.
  unfold borderless_V1, borderless_V3.
  split; [|split; [|split; [|split; [|split]]]].
  - rewrite !elem_of_cons, elem_of_nil.
    destruct cls; cbn; intuition congruence.
  - rewrite !elem_of_cons, elem_of_nil.
    destruct cls; cbn; intuition congruence.
  - rewrite !elem_of_cons, elem_of_nil.
    destruct cls; cbn; intuition congruence.
  - rewrite !elem_of_cons, elem_of_nil.
    intros Hcls. destruct cls; try reflexivity; exfalso; intuition congruence.
  - rewrite !elem_of_cons, elem_of_nil.
    intros Hcls.
    destruct cls; try (split; reflexivity); exfalso; intuition congruence.
  - intros c. rewrite !elem_of_cons, elem_of_nil.
    intros Hcls. rewrite construct_container.
    assert (Hib : (V3.baseArguments cls p).2 = true)
      by (destruct cls; try reflexivity; exfalso; intuition congruence).
    rewrite Hib. destruct (isRenderable _); [|done]. intros [= <-].
    unfold V3._createContainer. cbn [borderDrawn negb andb].
    rewrite !style_setStyle. by simplify_map_eq.
Qed.

End Border.

Import Sample.

(** A highlight with a note, a red border and a blue colour. *)
Definition framedHighlight : @AnnotationData Z :=
  recolor (Some (mkColor 0 0 255))
    (with_border {| bwidth := 3; bstyle := 1; horizontalCornerRadius := 0;
                    verticalCornerRadius := 0 |}
       (Some (mkColor 255 0 0)) (with_text "Title" "note" (blank "3R" 9))).

Example framedHighlight_as_link :
  style (V3._createContainer (elementParameters 1 framedHighlight) false)
    !! "borderColor" = Some "rgb(255,0,0)"
  ∧ style (V3._createContainer (elementParameters 1 framedHighlight) true)
    !! "borderColor" = None.
Proof. split; reflexivity. Qed.

Lemma border_colour_from_borderColor_witness :
  borderDrawn false framedHighlight = true
  ∧ V3._createContainer
      (withData (recolor None framedHighlight)
         (elementParameters 1 framedHighlight)) false
    = V3._createContainer (elementParameters 1 framedHighlight) false.
Proof.
  split; [reflexivity|].
  destruct (border_colour_from_borderColor
              (elementParameters 1 framedHighlight) false None)
    as (_ & _ & H3 & _).
  exact H3.
Defined.

Lemma markup_container_ignores_border_witness :
  ∃ c, container (construct V3.baseArguments V3._createContainer
                    HighlightAnnotationElement
                    (elementParameters 1 framedHighlight)) = Some c
       ∧ style c !! "borderWidth" = None
       ∧ style c !! "width" = Some "100px".
Proof.
  eexists. split; [reflexivity|].
  destruct (markup_container_ignores_border HighlightAnnotationElement
              (elementParameters 1 framedHighlight) noBorder None)
    as (_ & _ & _ & _ & _ & Hstyle).
  destruct (Hstyle _ ltac:(by apply (bool_decide_unpack _)) eq_refl)
    as (Hw & _ & _ & Hwidth & _).
  split; [exact Hw|exact Hwidth].
Defined.

End BorderTheory.

(** ** Which annotations the factory renders *)

Module FactoryTheory.
Import Annot DomTheory ContainerTheory UpdateTheory RenderTheory.
Section Factory.
Context {N : Type} `{JsNumber N} `{!Util (N:=N)}.
Implicit Types (d : @AnnotationData N) (p : @Parameters N).
Implicit Types (lp : @LayerParameters N) (c div layer : @Element N).

(** The classes of the form fields that are rendered only as interactive
    forms. *)
Definition formClasses : list ElementClass :=
  [CheckboxWidgetAnnotationElement; RadioButtonWidgetAnnotationElement;
   ChoiceWidgetAnnotationElement].

(** [typeof v === 'boolean' ? v : true] *)
Definition booleanOrTrue (v : JsVal N) : bool :=
  match v with
  | JBool b => b
  | _ => true
  end.

Lemma create_class_same lp d :
  V2.create_class (V2.elementParameters lp d)
  = V3.create_class (V3.elementParameters lp d).
Proof. reflexivity. Qed.

(** X17.  Check boxes, radio buttons and choice fields are rendered exactly
    when interactive forms are: the first two revisions read
    [renderInteractiveForms || false], the last one reads it as [true] unless
    it is a boolean.  A text field is also rendered when it has a value and
    no appearance stream.  So a layer that leaves the option out renders no
    form field in the first revision and all of them in the last. *)
Theorem interactive_forms_default lp d :
  (V1.create_class (V1.elementParameters lp d) ∈ formClasses →
   renderable_V1 lp d = truthy (lp_renderInteractiveForms lp))
  ∧ (V2.create_class (V2.elementParameters lp d) ∈ formClasses →
     renderable_V2 lp d = truthy (lp_renderInteractiveForms lp))
  ∧ (V3.create_class (V3.elementParameters lp d) ∈ formClasses →
     renderable_V3 lp d = booleanOrTrue (lp_renderInteractiveForms lp))
  ∧ (V1.create_class (V1.elementParameters lp d)
     = TextWidgetAnnotationElement →
     renderable_V1 lp d
     = truthy (lp_renderInteractiveForms lp)
       || (negb (hasAppearance d) && truthy (fieldValue d)))
  ∧ (V3.create_class (V3.elementParameters lp d)
     = TextWidgetAnnotationElement →
     renderable_V3 lp d
     = booleanOrTrue (lp_renderInteractiveForms lp)
       || (negb (hasAppearance d) && truthy (fieldValue d)))
  ∧ (lp_renderInteractiveForms lp = JUndefined →
     V1.create_class (V1.elementParameters lp d) ∈ formClasses →
     V3.create_class (V3.elementParameters lp d) ∈ formClasses →
     renderable_V1 lp d = false ∧ renderable_V3 lp d = true).
Proof.
  assert (Hor : ∀ v : JsVal N, truthy (js_or v (JBool false)) = truthy v).
  { intros v. unfold js_or. by destruct (truthy v) eqn:Hv. }
  unfold formClasses, renderable_V1, renderable_V2, renderable_V3.
  unfold element_V1, element_V2, element_V3, construct. cbv zeta.
  rewrite !elem_of_cons, !elem_of_nil.
  split; [|split; [|split; [|split; [|split]]]].
  - intros Hcls.
    destruct (V1.create_class _) eqn:Hc; try (exfalso; intuition congruence);
      simpl; apply Hor.
  - intros Hcls.
    destruct (V2.create_class _) eqn:Hc; try (exfalso; intuition congruence);
      simpl; apply Hor.
  - intros Hcls.
    destruct (V3.create_class _) eqn:Hc; try (exfalso; intuition congruence);
      reflexivity.
  - intros ->. simpl. by rewrite Hor.
  - intros ->. reflexivity.
  - intros Hu H1 H3.
    destruct (V1.create_class _) eqn:Hc1; try (exfalso; intuition congruence);
      destruct (V3.create_class _) eqn:Hc3;
      try (exfalso; intuition congruence); simpl; rewrite Hu; done.
Qed.

(** The annotation type [t] reaches its own [case] of the factory: it is
    none of the constants tested before it. *)
Definition widgetCase : Prop := AT_WIDGET ≠ AT_LINK ∧ AT_WIDGET ≠ AT_TEXT.

(** A push button: a button that is neither a radio button nor a check
    box. *)
Definition pushButton d : Prop :=
  annotationType d = AT_WIDGET ∧ fieldType d = Some "Btn"
  ∧ radioButton d = false ∧ checkBox d = false.

(** X18.  A Link annotation is always rendered by the first revision, and by
    the two later ones only when it has a [url], [dest] or [action].  A push
    button is a plain widget that is not rendered in the first revision; the
    later ones render it like a link. *)
Theorem links_rendered_with_target lp d :
  (annotationType d = AT_LINK →
   renderable_V1 lp d = true
   ∧ renderable_V2 lp d = hasLinkTarget d
   ∧ renderable_V3 lp d = hasLinkTarget d)
  ∧ (widgetCase → pushButton d →
     V1.create_class (V1.elementParameters lp d) = WidgetAnnotationElement
     ∧ renderable_V1 lp d = false
     ∧ V3.create_class (V3.elementParameters lp d)
       = PushButtonWidgetAnnotationElement
     ∧ renderable_V2 lp d = hasLinkTarget d
     ∧ renderable_V3 lp d = hasLinkTarget d).
Proof.
  unfold renderable_V1, renderable_V2, renderable_V3.
  unfold element_V1, element_V2, element_V3, construct. cbv zeta.
  unfold V1.create_class, V2.create_class, V3.create_class.
  split.
  - intros Ht. cbn [data V1.elementParameters V2.elementParameters
                    V3.elementParameters].
    by rewrite Ht, Z.eqb_refl.
  - intros [Hl Hx] (Ht & Hf & Hr & Hc).
    cbn [data V1.elementParameters V2.elementParameters
         V3.elementParameters].
    rewrite Ht, Hf, Hr, Hc, (eqb_refl_false _ _ Hl), (eqb_refl_false _ _ Hx),
      Z.eqb_refl.
    done.
Qed.

End Factory.

Import Sample.

(** A layer whose caller leaves [renderInteractiveForms] out. *)
Definition defaultForms (l : list (option (@AnnotationData Z)))
    : @LayerParameters Z :=
  {| lp_viewport := scaled 1; annotations := l; lp_page := a4page;
     lp_linkService := links; lp_imageResourcesPath := JUndefined;
     lp_renderInteractiveForms := JUndefined |}.

Definition checkbox : @AnnotationData Z :=
  button "7R" false (JStr "Yes") JUndefined.

Definition pushButtonData : @AnnotationData Z :=
  {| id := "8R"; annotationType := 20; rect := mkRect 10 20 110 70;
     borderStyle := noBorder; borderColor := None; color := None;
     fieldType := Some "Btn"; radioButton := false; checkBox := false;
     hasPopup := false; title := ""; contents := "";
     modificationDate := JUndefined; url := JUndefined; dest := JUndefined;
     action := JStr "Print"; hasAppearance := false; fieldValue := JUndefined;
     buttonValue := JUndefined; fieldName := ""; readOnly := false;
     alternativeText := JUndefined; checkBoxType := 0; radioButtonType := 0;
     fontColor := ""; backgroundColor := None; parentType := "";
     parentId := ""; combo := false; multiSelect := false; file := None |}.

Lemma interactive_forms_default_witness :
  V1.create_class (V1.elementParameters (defaultForms []) checkbox)
  = CheckboxWidgetAnnotationElement
  ∧ renderable_V1 (defaultForms []) checkbox = false
  ∧ renderable_V3 (defaultForms []) checkbox = true.
Proof.
  split; [reflexivity|].
  destruct (interactive_forms_default (defaultForms []) checkbox)
    as (_ & _ & _ & _ & _ & Hdefault).
  apply Hdefault; [reflexivity| |]; by apply (bool_decide_unpack _).
Defined.

Lemma links_rendered_with_target_witness :
  (renderable_V1 (defaultForms []) (blank "12R" 2) = true
   ∧ renderable_V3 (defaultForms []) (blank "12R" 2) = false)
  ∧ (renderable_V1 (defaultForms []) pushButtonData = false
     ∧ renderable_V3 (defaultForms []) pushButtonData = true).
Proof.
  destruct (links_rendered_with_target (defaultForms []) (blank "12R" 2))
    as [Hlink _].
  destruct (links_rendered_with_target (defaultForms []) pushButtonData)
    as [_ Hbutton].
  split.
  - destruct (Hlink eq_refl) as (H1 & _ & H3). split; [exact H1|exact H3].
  - destruct (Hbutton ltac:(by split) ltac:(by repeat split))
      as (_ & H1 & _ & _ & H3).
    split; [exact H1|exact H3].
Defined.

End FactoryTheory.

(** ** [AnnotationLayer.update] after [AnnotationLayer.render] *)

Module LayerTheory.
Import Annot DomTheory PopupTheory ContainerTheory UpdateTheory RenderTheory
  FrameTheory Bodies.
Section Layer.
Context {N : Type} `{JsNumber N} `{!Util (N:=N)}.
Implicit Types (e c div layer : @Element N) (cs : list (@Element N)).
Implicit Types (d : @AnnotationData N) (ds : list (@AnnotationData N)).
Implicit Types (p : @Parameters N) (lp : @LayerParameters N).

(** No node of the tree [e] carries an annotation identifier. *)
Definition unnamed e : Prop :=
  Forall (λ x, annotationId x = None) (subtree e).

Lemma unnamed_node e :
  annotationId e = None → Forall unnamed (children e) → unnamed e.
Proof.
  intros He Hcs. unfold unnamed. rewrite subtree_unfold.
  constructor; [done|].
  induction Hcs as [|c cs Hc Hcs IH]; [constructor|].
  simpl. apply Forall_app. split; [exact Hc | exact IH].
Qed.

Lemma bare_children c : bare c ↔ Forall unnamed (children c).
Proof.
  unfold bare, unnamed. induction (children c) as [|x cs IH]; simpl.
  - split; constructor.
  - rewrite Forall_app, Forall_cons, IH. done.
Qed.

Lemma bare_append c x : bare c → unnamed x → bare (appendChild x c).
Proof.
  rewrite !bare_children. intros Hc Hx. simpl.
  apply Forall_app. split; [done|]. by constructor.
Qed.

Lemma bare_frame c c' : children c' = children c → bare c → bare c'.
Proof. unfold bare. by intros ->. Qed.

Lemma unnamed_line_nodes (lines : list string) :
  Forall unnamed (Popup.line_nodes (N:=N) lines).
Proof.
  induction lines as [|line lines IH]; [constructor|].
  destruct lines as [|line' lines].
  - constructor; [|constructor]. by apply unnamed_node; [|constructor].
  - change (Popup.line_nodes (line :: line' :: lines))
      with (createTextNode (N:=N) line :: createElement "br"
              :: Popup.line_nodes (line' :: lines)).
    constructor; [by apply unnamed_node; [|constructor]|].
    constructor; [by apply unnamed_node; [|constructor]|]. exact IH.
Qed.

Lemma unnamed_formatContents (contents : string) :
  unnamed (Popup._formatContents (N:=N) contents).
Proof.
  apply unnamed_node; [done|]. apply unnamed_line_nodes.
Qed.

(** The wrapper that [PopupElement.render] returns carries no identifier. *)
Lemma unnamed_popup withDate (popup : @Popup.PopupElement N) :
  unnamed (Popup.render withDate popup).1.
Proof.
  destruct popup as [container color title date contents hideWrapper pinned
                     wrapper].
  unfold Popup.render, Popup.update_hideElement.
  assert (Hdates : Forall unnamed
    (if withDate then
       match dateArguments date with
       | Some args =>
           [setAttribute "data-l10n-args" args
              (setAttribute "data-l10n-id" "annotation_date_string"
                 (setProp "textContent" (JStr "{{date}}, {{time}}")
                    (createElement (N:=N) "span")))]
       | None => []
       end
     else [])).
  { destruct withDate; [|constructor].
    destruct (dateArguments date); [|constructor].
    constructor; [|constructor]. apply unnamed_node; [|constructor].
    unfold annotationId. cbn. by simplify_map_eq. }
  destruct hideWrapper; cbn.
  - apply unnamed_node; [unfold annotationId; cbn; by simplify_map_eq|].
    constructor; [|constructor].
    apply unnamed_node; [by destruct color|]. cbn.
    constructor; [by apply unnamed_node; [|constructor]|].
    apply Forall_app. split; [exact Hdates|].
    constructor; [apply unnamed_formatContents|constructor].
  - apply unnamed_node; [done|].
    constructor; [|constructor].
    apply unnamed_node; [by destruct color|]. cbn.
    constructor; [by apply unnamed_node; [|constructor]|].
    apply Forall_app. split; [exact Hdates|].
    constructor; [apply unnamed_formatContents|constructor].
Qed.

Lemma unnamed_leaf e : annotationId e = None → children e = [] → unnamed e.
Proof.
  intros He Hc. apply unnamed_node; [done|]. rewrite Hc. constructor.
Qed.

Lemma bare_leaf c : children c = [] → bare c.
Proof. unfold bare. intros ->. constructor. Qed.

Lemma present_fmap_Some ds : present (Some <$> ds) = ds.
Proof.
  unfold present. induction ds as [|d ds IH]; [done|].
  simpl in *. by f_equal.
Qed.

Lemma filter_partition {A} (P : A → bool) (l : list A) :
  List.filter (λ a, negb (P a)) l ++ List.filter P l ≡ₚ l.
Proof.
  induction l as [|a l IH]; [done|]. simpl. destruct (P a); simpl.
  - rewrite <- Permutation_middle. by constructor.
  - by constructor.
Qed.

Lemma filter_comm {A} (P Q : A → bool) (l : list A) :
  List.filter P (List.filter Q l) = List.filter Q (List.filter P l).
Proof.
  induction l as [|a l IH]; [done|]. simpl.
  destruct (P a) eqn:HP, (Q a) eqn:HQ; simpl; rewrite ?HP, ?HQ, ?IH; done.
Qed.

Lemma NoDup_fmap_filter {A B} (f : A → B) (P : A → bool) (l : list A) :
  NoDup (f <$> l) → NoDup (f <$> List.filter P l).
Proof.
  induction l as [|a l IH]; [done|]. simpl.
  intros [Ha Hl]%NoDup_cons. destruct (P a); [|by apply IH].
  simpl. apply NoDup_cons. split; [|by apply IH].
  intros (b & Hb & Hin)%list_elem_of_fmap.
  apply Ha. apply list_elem_of_fmap. exists b. split; [done|].
  apply list_elem_of_In. apply list_elem_of_In, filter_In in Hin. tauto.
Qed.

(** [update] on a layer whose children carry pairwise distinct identifiers,
    all of them identifiers of annotations of the parameters: every child is
    updated. *)
Lemma update_all f ds (rendered : list (@AnnotationData N)) appended div :
  (∀ c, annotationId (f c) = annotationId c) →
  (∀ c, bare c → bare (f c)) →
  (∀ c, f (f c) = f c) →
  Forall2 (λ d c, annotationId c = Some (id d) ∧ bare c) rendered appended →
  NoDup (id <$> rendered) → (∀ d, d ∈ rendered → d ∈ ds) →
  let div' :=
    removeAttribute "hidden"
      (fold_left (λ div d, updateSelected "data-annotation-id" (id d) f div)
         ds (setChildren appended div)) in
  children div' = f <$> appended
  ∧ attributes div' = delete "hidden" (attributes div)
  ∧ tagName div' = tagName div ∧ props div' = props div
  ∧ style div' = style div.
Proof.
  intros Hid Hbare Hidem Hall Hnd Hsub div'.
  assert (Hflat : flat (setChildren appended div)).
  { unfold flat. simpl. clear -Hall.
    induction Hall as [|d c rs cs [_ Hc] Hall IH]; constructor; done. }
  assert (Hkeys : annotationId <$> appended = Some <$> (id <$> rendered)).
  { clear -Hall. induction Hall as [|d c rs cs [Hc _] Hall IH]; [done|].
    by rewrite !fmap_cons, Hc, IH. }
  destruct (updated_layer f ds (setChildren appended div) Hid Hbare Hflat)
    as [(Hattr & Htag & Hprops & Hstyle & Hlen & _) _].
  pose proof (updated_idempotent f ds (setChildren appended div)
                Hid Hbare Hidem Hflat) as Hmoved.
  cbv zeta in Hattr, Htag, Hprops, Hstyle, Hlen. subst div'.
  split; [|done].
  apply list_eq. intros i. rewrite list_lookup_fmap.
  destruct (appended !! i) as [c|] eqn:Hc; simpl.
  - apply (Hmoved i c Hc).
    destruct (Forall2_lookup_r _ _ _ _ _ Hall Hc) as (d & Hd & Hdc & _).
    apply (selected_of_unique ds appended i c d); [|done| |done].
    + intros j c' Hc' Hsame.
      assert (Hnd' : NoDup (annotationId <$> appended)).
      { rewrite Hkeys. by apply (NoDup_fmap_2 Some). }
      eapply (NoDup_lookup _ j i); [exact Hnd'| |];
        rewrite list_lookup_fmap; [rewrite Hc'|rewrite Hc]; simpl;
        [by rewrite Hsame|done].
    + apply Hsub. by eapply list_elem_of_lookup_2.
  - apply lookup_ge_None. simpl in Hlen. rewrite Hlen.
    by apply lookup_ge_None.
Qed.

(** *** The first revision *)

Section Plain.
Context (renderPlain : ElementClass → @Parameters N → @Element N →
                       @Element N → Completion (@Element N)).

(** The [render] methods that are left open, when they return, keep the
    identifier of the container and put no identifier below it. *)
Definition tidyPlain : Prop :=
  ∀ cls p layer c rendered,
    renderPlain cls p layer c = Normal rendered →
    annotationId rendered = annotationId c ∧ (bare c → bare rendered).

Lemma V1_render_checkbox_tidy p c :
  annotationId (V1.render_checkbox p c) = annotationId c
  ∧ (bare c → bare (V1.render_checkbox p c)).
Proof.
  split; [done|]. intros Hc. unfold V1.render_checkbox.
  apply bare_append; [apply bare_append|].
  - by eapply bare_frame; [|exact Hc].
  - apply unnamed_leaf; unfold V1.checkboxInput; by case_match.
  - by apply unnamed_leaf.
Qed.

Lemma V1_render_radio_tidy p c :
  annotationId (V1.render_radio p c) = annotationId c
  ∧ (bare c → bare (V1.render_radio p c)).
Proof.
  split; [done|]. intros Hc. unfold V1.render_radio.
  apply bare_append; [apply bare_append|].
  - by eapply bare_frame; [|exact Hc].
  - apply unnamed_leaf; unfold V1.radioInput; by case_match.
  - by apply unnamed_leaf.
Qed.

Lemma V1_render_popup_tidy p layer c :
  annotationId (V1.render_popup p layer c) = annotationId c
  ∧ (bare c → bare (V1.render_popup p layer c)).
Proof.
  unfold V1.render_popup. case_bool_decide; [done|].
  destruct (querySelector _ _ layer) as [parent|]; [|done].
  match goal with |- context [Popup.render false ?popup0] =>
    rewrite (surjective_pairing (Popup.render false popup0));
    rewrite (render_container false popup0)
  end.
  cbn [Popup.hideWrapper Popup.new_PopupElement default Popup.container].
  split.
  - unfold annotationId, CustomStyle_setProp.
    destruct (customStyleName "transformOrigin"); dom_unfold;
      by simplify_map_eq.
  - intros Hc. apply bare_append; [|apply unnamed_popup].
    eapply bare_frame; [|exact Hc]. unfold CustomStyle_setProp.
    by destruct (customStyleName "transformOrigin").
Qed.

End Plain.

(** The [render] methods that create their popup themselves are tidy. *)
Lemma unnamed_frame e e' :
  attributes e' = attributes e → children e' = children e →
  unnamed e → unnamed e'.
Proof.
  unfold unnamed. rewrite !subtree_unfold. intros Ha Hc.
  rewrite !Forall_cons. unfold annotationId. by rewrite Ha, Hc.
Qed.

Lemma createPopup_tidy dated c trigger d :
  annotationId (_createPopup dated c trigger d) = annotationId c
  ∧ (bare c → bare (_createPopup dated c trigger d)).
Proof.
  unfold _createPopup.
  match goal with |- context [Popup.render dated ?popup0] =>
    rewrite (surjective_pairing (Popup.render dated popup0));
    rewrite (render_container dated popup0)
  end.
  cbn [Popup.hideWrapper Popup.new_PopupElement default Popup.container].
  split; [by destruct trigger|]. intros Hc.
  apply bare_append.
  - destruct trigger; [done|]. apply bare_append; [done|].
    apply unnamed_leaf; [|done]. unfold annotationId, triggerDiv.
    autorewrite with dom. by simplify_map_eq.
  - eapply unnamed_frame; [| |apply unnamed_popup]; done.
Qed.

Lemma render_other_tidy dated rest :
  tidyPlain rest → tidyPlain (render_other dated rest).
Proof.
  intros Hrest cls p layer c rendered. unfold render_other.
  destruct (markupClassName cls) as [name|].
  - intros [= <-]. unfold render_markup.
    destruct (hasPopup (data p)); cbn [negb].
    + by split.
    + destruct (createPopup_tidy dated (setProp "className" (JStr name) c)
                  None (data p)) as [-> Hb].
      split; [done|]. intros Hc. apply Hb.
      by eapply bare_frame; [|exact Hc].
  - destruct cls; try apply Hrest.
    intros [= <-]. unfold render_fileAttachment. cbn zeta.
    set (c1 := setProp "className" _ c).
    assert (Htrigger : unnamed (triggerDiv c1)).
    { apply unnamed_leaf; [|done]. unfold annotationId, triggerDiv.
      autorewrite with dom. by simplify_map_eq. }
    destruct (negb (hasPopup (data p)) && _).
    + destruct (createPopup_tidy dated c1 (Some (triggerDiv c1)) (data p))
        as [Hid Hb].
      split; [exact Hid|]. intros Hc. apply bare_append; [|done].
      apply Hb. by eapply bare_frame; [|exact Hc].
    + split; [done|]. intros Hc. apply bare_append; [|done].
      by eapply bare_frame; [|exact Hc].
Qed.

Section PlainLayer.
Context (renderPlain : ElementClass → @Parameters N → @Element N →
                       @Element N → Completion (@Element N)).

Lemma rendered_V1_tidy lp layer d rendered :
  tidyPlain renderPlain →
  rendered_V1 renderPlain lp layer d = Normal rendered →
  annotationId rendered = Some (id d) ∧ bare rendered.
Proof.
  intros Hother. unfold rendered_V1, V1.render_element. cbn zeta.
  set (ep := V1.elementParameters lp d).
  set (c := V1._createContainer ep _).
  assert (Hid : annotationId c = Some (id d))
    by apply V1_createContainer_id.
  assert (Hbare : bare c) by apply bare_leaf, V1_createContainer_children.
  destruct (class (element_V1 lp d)).
  all: first
    [ intros [= <-]; first
        [ by split
        | destruct (V1_render_checkbox_tidy
                      (parameters (element_V1 lp d)) c) as [-> Hb]; by auto
        | destruct (V1_render_radio_tidy
                      (parameters (element_V1 lp d)) c) as [-> Hb]; by auto
        | destruct (V1_render_popup_tidy
                      (parameters (element_V1 lp d)) layer c) as [-> Hb];
          by auto ]
    | intros Hr; destruct (Hother _ _ _ _ _ Hr) as [-> Hb]; by auto ].
Qed.

(** The layer that [render] builds on an empty div when it returns: a child
    for each renderable annotation, in order, carrying its identifier. *)
Lemma V1_rendered_layer lp ds div :
  tidyPlain renderPlain → annotations lp = Some <$> ds → children div = [] →
  (V1.render renderPlain lp div).1 = Normal tt →
  ∃ appended,
    (V1.render renderPlain lp div).2 = setChildren appended div
    ∧ Forall2 (λ d c, annotationId c = Some (id d) ∧ bare c)
        (List.filter (renderable_V1 lp) ds) appended.
Proof.
  intros Hother Hds Hdiv Hrun.
  destruct (V1_render_outcome renderPlain lp div)
    as (processed & appended & Hrender & _ & Hall & Hres).
  rewrite Hrun in Hres. subst processed.
  rewrite Hds, present_fmap_Some in Hall. rewrite Hdiv in Hrender.
  exists appended. split; [done|].
  eapply Forall2_impl; [exact Hall|].
  intros d c (layer & Hc). by eapply rendered_V1_tidy.
Qed.

End PlainLayer.

Section Stored.
Context {AnnotationStorage : Type} `{!StorageMethods (N:=N) AnnotationStorage}.
Context (renderOther : ElementClass → @Parameters N → @Element N →
                       @Element N → AnnotationStorage →
                       Completion (@Element N) * AnnotationStorage).
Implicit Types (storage : AnnotationStorage).

(** The [render] methods that are left open, when they return, keep the
    identifier of the container and put no identifier below it. *)
Definition tidy : Prop :=
  ∀ cls p layer c storage rendered storage',
    renderOther cls p layer c storage = (Normal rendered, storage') →
    annotationId rendered = annotationId c ∧ (bare c → bare rendered).

Lemma tidy_keepsId : tidy → keepsId renderOther.
Proof.
  intros Hother cls p layer c storage rendered storage' Hr.
  by destruct (Hother _ _ _ _ _ _ _ Hr).
Qed.

(** An element without identifier and without children: the [input] of a
    form field is one, whatever its attributes, properties and styles. *)
Definition anonymous (e : @Element N) : Prop :=
  annotationId e = None ∧ children e = [].

Lemma anonymous_unnamed e : anonymous e → unnamed e.
Proof. intros [He Hc]. by apply unnamed_leaf. Qed.

Lemma anonymous_createElement tag : anonymous (createElement tag).
Proof. by split. Qed.

Lemma anonymous_setProp k v e : anonymous e → anonymous (setProp k v e).
Proof. done. Qed.

Lemma anonymous_setStyle k v e : anonymous e → anonymous (setStyle k v e).
Proof. done. Qed.

Lemma anonymous_setAttribute k v e :
  k ≠ "data-annotation-id" → anonymous e → anonymous (setAttribute k v e).
Proof.
  intros Hk [He Hc]. split; [|done]. unfold annotationId in *.
  rewrite attributes_setAttribute. by rewrite lookup_insert_ne.
Qed.

Lemma anonymous_if (b : bool) (x y : @Element N) :
  anonymous x → anonymous y → anonymous (if b then x else y).
Proof. by destruct b. Qed.

Lemma anonymous_borderClass d e : anonymous e → anonymous (V3.borderClass d e).
Proof.
  intros He. unfold V3.borderClass. cbv zeta.
  by repeat first [apply anonymous_if | apply anonymous_setProp].
Qed.

Lemma anonymous_setBackgroundColor e col :
  anonymous e → anonymous (V3._setBackgroundColor e col).
Proof. intros He. by destruct col. Qed.

Ltac anonymous_steps :=
  repeat first
    [ apply anonymous_borderClass | apply anonymous_setProp
    | apply anonymous_setStyle | apply anonymous_if
    | apply anonymous_setAttribute; [done|]
    | apply anonymous_createElement ].

Lemma V3_render_checkbox_bare p c storage :
  bare c → bare (V3.render_checkbox p c storage).1.
Proof.
  intros Hc. unfold V3.render_checkbox.
  destruct (getOrCreateValue _ _ _) as [value storage']. cbn [fst].
  apply bare_append; [apply bare_append|].
  - eapply bare_frame; [|exact Hc]. by destruct (readOnly (data p)).
  - apply anonymous_unnamed, anonymous_setBackgroundColor.
    unfold V3.checkboxInput. cbv zeta. anonymous_steps.
  - by apply unnamed_leaf.
Qed.

Lemma V3_render_radio_bare p c storage :
  bare c → bare (V3.render_radio p c storage).1.
Proof.
  intros Hc. unfold V3.render_radio.
  destruct (getOrCreateValue _ _ _) as [value storage']. cbn [fst].
  apply bare_append; [apply bare_append|].
  - eapply bare_frame; [|exact Hc].
    by destruct (readOnly (data p)), (radioButtonType (data p) =? CB_CIRCLE).
  - apply anonymous_unnamed, anonymous_setBackgroundColor.
    unfold V3.radioInput. cbv zeta. anonymous_steps.
  - by apply unnamed_leaf.
Qed.

Lemma V3_render_popup_bare p layer c :
  bare c → bare (V3.render_popup p layer c).
Proof.
  intros Hc. unfold V3.render_popup. case_bool_decide; [done|].
  destruct (querySelector _ _ layer) as [parent|]; [|done].
  match goal with |- context [Popup.render true ?popup0] =>
    rewrite (surjective_pairing (Popup.render true popup0));
    apply bare_append; [|apply unnamed_popup];
    rewrite (render_container true popup0)
  end.
  by eapply bare_frame; [|exact Hc].
Qed.

Lemma V3_render_choice_bare p layer c storage rendered storage' :
  tidy → bare c →
  V3.render_choice renderOther p layer c storage = (Normal rendered, storage') →
  bare rendered.
Proof.
  intros Hother Hc. unfold V3.render_choice.
  destruct (firstFieldValue _) as [value|e]; [|done].
  destruct (getOrCreateValue _ _ _) as [stored storage''].
  destruct (negb _ && _); [done|]. intros Hr.
  destruct (Hother _ _ _ _ _ _ _ Hr) as [_ Hb]. apply Hb.
  by eapply bare_frame; [|exact Hc].
Qed.

Lemma V3_render_element_bare (element : @AnnotationElementObject N) layer c
    storage rendered storage' :
  tidy → bare c →
  V3.render_element renderOther element layer c storage
  = (Normal rendered, storage') →
  bare rendered.
Proof.
  intros Hother Hc. unfold V3.render_element.
  destruct (class element);
    try (intros Hr; destruct (Hother _ _ _ _ _ _ _ Hr) as [_ Hb];
         by apply Hb).
  - by intros [= <- _].
  - pose proof (V3_render_checkbox_bare (parameters element) c storage Hc)
      as Hb.
    destruct (V3.render_checkbox _ _ _). by intros [= <- _].
  - pose proof (V3_render_radio_bare (parameters element) c storage Hc)
      as Hb.
    destruct (V3.render_radio _ _ _). by intros [= <- _].
  - by apply V3_render_choice_bare.
  - intros [= <- _]. by apply V3_render_popup_bare.
Qed.

Lemma rendered_V3_tidy lp layer storage d rendered :
  tidy →
  (rendered_V3 renderOther lp layer storage d).1 = Normal rendered →
  annotationId rendered = Some (id d) ∧ bare rendered.
Proof.
  intros Hother Hr. split.
  - eapply rendered_V3_id; [by apply tidy_keepsId|exact Hr].
  - unfold rendered_V3 in Hr. cbv zeta in Hr.
    destruct (V3.render_element _ _ _ _ _) as [r storage'] eqn:Hrun.
    simpl in Hr. subst r.
    eapply V3_render_element_bare; [done| |exact Hrun].
    apply bare_leaf, V3_createContainer_children.
Qed.

(** The layer that [render] builds on an empty div when it returns: a child
    for each renderable annotation, carrying its identifier. *)
Lemma V3_rendered_layer lp ds div (given : option AnnotationStorage) :
  tidy → annotations lp = Some <$> ds → children div = [] →
  (V3.render renderOther lp given div).1 = Normal tt →
  ∃ rendered appended,
    (V3.render renderOther lp given div).2.1 = setChildren appended div
    ∧ rendered ≡ₚ List.filter (renderable_V3 lp) ds
    ∧ Forall2 (λ d c, annotationId c = Some (id d) ∧ bare c)
        rendered appended.
Proof.
  intros Hother Hds Hdiv Hrun.
  destruct (V3_render_outcome renderOther lp given div)
    as (processed & appended & Hrender & _ & Hall & Hres).
  rewrite Hrun in Hres. subst processed.
  rewrite Hds, present_fmap_Some in Hall. rewrite Hdiv in Hrender.
  exists (List.filter (renderable_V3 lp)
            (List.filter (λ d, negb (isPopup d)) ds ++ List.filter isPopup ds)),
    appended.
  split; [done|]. split.
  - rewrite List.filter_app, !(filter_comm (renderable_V3 lp)).
    apply filter_partition.
  - eapply Forall2_impl; [exact Hall|].
    intros d c (layer & st & Hc). by eapply rendered_V3_tidy.
Qed.

(** X16.  [AnnotationLayer.update] after an [AnnotationLayer.render] that
    has returned, on an empty layer div, for annotations that are all present
    and have distinct ids, whatever the viewport of the update: in the first
    revision the div has
    one child per renderable annotation, in the order of the list, each with
    the identifier of its annotation; in the last the children are as many as
    the renderable annotations and each renderable annotation has a child
    with its identifier.  In both every child carries the transform of the
    new viewport, and the div is no longer hidden.  The [render] methods left
    open are assumed to keep the identifier of the container and to put no
    identifier below it when they return, as the modelled ones do; when one
    of them or a constructor throws, [render] does not return and nothing is
    said. *)
Theorem update_after_render
    (renderPlain : ElementClass → @Parameters N → @Element N → @Element N →
                   Completion (@Element N)) lp lp' ds div
    (given : option AnnotationStorage) :
  annotations lp = Some <$> ds → annotations lp' = Some <$> ds →
  NoDup (id <$> ds) → children div = [] →
  (tidyPlain renderPlain →
   (V1.render renderPlain lp div).1 = Normal tt →
   ∃ appended div',
     (V1.render renderPlain lp div).2 = setChildren appended div
     ∧ V1.update lp' (setChildren appended div) = (Normal tt, div')
     ∧ children div' = setTransform_V1 lp' <$> appended
     ∧ Forall2 (λ d c, annotationId c = Some (id d))
         (List.filter (renderable_V1 lp) ds) (children div')
     ∧ (∀ name c, customStyleName "transform" = Some name →
          c ∈ children div' →
          style c !! name = Some (matrix (lp_viewport lp')))
     ∧ attributes div' = delete "hidden" (attributes div))
  ∧ (tidy →
     (V3.render renderOther lp given div).1 = Normal tt →
     ∃ appended div',
       (V3.render renderOther lp given div).2.1 = setChildren appended div
       ∧ V3.update lp' (setChildren appended div) = (Normal tt, div')
       ∧ children div' = setTransform_V3 lp' <$> appended
       ∧ length appended = length (List.filter (renderable_V3 lp) ds)
       ∧ (∀ d, d ∈ ds → renderable_V3 lp d = true →
            ∃ c, c ∈ children div' ∧ annotationId c = Some (id d))
       ∧ (∀ c, c ∈ children div' →
            style c !! "transform" = Some (matrix (lp_viewport lp')))
       ∧ attributes div' = delete "hidden" (attributes div)).
Proof.
  intros Hds Hds' Hnd Hdiv. split.
  - intros Hother Hrun.
    destruct (V1_rendered_layer renderPlain lp ds div Hother Hds Hdiv Hrun)
      as (appended & Hrender & Hall).
    destruct (update_all (setTransform_V1 lp') ds
                (List.filter (renderable_V1 lp) ds) appended div)
      as (Hkids & Hattr & _); try done.
    { apply setTransform_V1_id. }
    { apply setTransform_V1_bare. }
    { apply setTransform_V1_idempotent. }
    { by apply NoDup_fmap_filter. }
    { intros d Hd. apply list_elem_of_In, filter_In in Hd as [Hd _].
      by apply list_elem_of_In. }
    eexists appended, _. split; [exact Hrender|]. split.
    { unfold V1.update, exec_bind. rewrite Hds'.
      rewrite (for_each_modify
                 (λ d, updateSelected "data-annotation-id" (id d)
                         (setTransform_V1 lp'))) by done.
      reflexivity. }
    split; [exact Hkids|]. split; [|split; [|exact Hattr]].
    + rewrite Hkids. apply Forall2_fmap_r.
      eapply Forall2_impl; [exact Hall|].
      intros d c [Hc _]. etrans; [apply setTransform_V1_id|exact Hc].
    + intros name c Hname Hc. rewrite Hkids in Hc.
      apply list_elem_of_fmap in Hc as (c0 & -> & _).
      unfold setTransform_V1, CustomStyle_setProp. rewrite Hname.
      rewrite style_setStyle. by simplify_map_eq.
  - intros Hother Hrun.
    destruct (V3_rendered_layer lp ds div given Hother Hds Hdiv Hrun)
      as (rendered & appended & Hrender & Hperm & Hall).
    assert (Hsub : ∀ d, d ∈ rendered → d ∈ ds).
    { intros d Hd. rewrite Hperm in Hd.
      apply list_elem_of_In, filter_In in Hd as [Hd _].
      by apply list_elem_of_In. }
    assert (Hnd' : NoDup (id <$> rendered)).
    { rewrite Hperm. by apply NoDup_fmap_filter. }
    destruct (update_all (setTransform_V3 lp') ds rendered appended div)
      as (Hkids & Hattr & _); try done.
    { intros c. apply setStyle_idempotent. }
    eexists appended, _. split; [exact Hrender|]. split.
    { unfold V3.update, exec_bind. rewrite Hds'.
      rewrite (for_each_modify
                 (λ d, updateSelected "data-annotation-id" (id d)
                         (setTransform_V3 lp'))) by done.
      reflexivity. }
    split; [exact Hkids|]. split.
    { rewrite <- (Forall2_length _ _ _ Hall). by rewrite Hperm. }
    split; [|split; [|exact Hattr]].
    + intros d Hd Hr.
      assert (Hin : d ∈ rendered).
      { rewrite Hperm. apply list_elem_of_In, filter_In.
        split; [by apply list_elem_of_In|done]. }
      apply list_elem_of_lookup in Hin as [i Hi].
      destruct (Forall2_lookup_l _ _ _ _ _ Hall Hi) as (c & Hc & Hid & _).
      exists (setTransform_V3 lp' c). split; [|done].
      rewrite Hkids. apply list_elem_of_fmap. exists c. split; [done|].
      by eapply list_elem_of_lookup_2.
    + intros c Hc. rewrite Hkids in Hc.
      apply list_elem_of_fmap in Hc as (c0 & -> & _).
      unfold setTransform_V3. rewrite style_setStyle. by simplify_map_eq.
Qed.

End Stored.

End Layer.

Import Sample.

(** A highlight with a note and a link: the viewport changes from scale 1 to
    scale 3 between [render] and [update]. *)
Definition marked : list (@AnnotationData Z) :=
  [with_text "Title" "note" (blank "3R" 9); blank "12R" 2].

Definition storedBody (cls : ElementClass) (p : @Parameters Z)
    (layer container : @Element Z) (storage : gmap string (JsVal Z))
    : Completion (@Element Z) * gmap string (JsVal Z) :=
  (render_other true plainBody cls p layer container, storage).

Lemma plainBody_tidy : tidyPlain plainBody.
Proof.
  intros cls p layer c rendered [= <-]. split; [done|].
  intros Hc. by eapply bare_frame; [|exact Hc].
Qed.

Lemma storedBody_tidy : tidy storedBody.
Proof.
  intros cls p layer c storage rendered storage' [= Hr _].
  exact (render_other_tidy true plainBody plainBody_tidy _ _ _ _ _ Hr).
Qed.

Example marked_layer :
  let div' :=
    (V1.update (layerParameters 3 (Some <$> marked))
       (V1.render (render_other false plainBody)
          (layerParameters 1 (Some <$> marked)) layerDiv).2).2 in
  annotationId <$> children div' = [Some "3R"; Some "12R"]
  ∧ (λ c, props c !! "className") <$> children div'
    = [Some (JStr "highlightAnnotation"); Some (JStr "annotation")]
  ∧ (λ c, style c !! "transform") <$> children div'
    = [Some "matrix(3,0,0,3,0,0)"; Some "matrix(3,0,0,3,0,0)"].
Proof. repeat split; vm_compute; reflexivity. Qed.

Lemma update_after_render_witness :
  let lp := layerParameters 1 (Some <$> marked) in
  let lp' := layerParameters 3 (Some <$> marked) in
  (∃ appended div',
     (V1.render (render_other false plainBody) lp layerDiv).2
     = setChildren appended layerDiv
     ∧ V1.update lp' (setChildren appended layerDiv) = (Normal tt, div')
     ∧ children div' = setTransform_V1 lp' <$> appended
     ∧ Forall2 (λ d c, annotationId c = Some (id d))
         (List.filter (renderable_V1 lp) marked) (children div')
     ∧ (∀ name c, customStyleName "transform" = Some name →
          c ∈ children div' →
          style c !! name = Some (matrix (lp_viewport lp')))
     ∧ attributes div' = delete "hidden" (attributes layerDiv))
  ∧ (∃ appended div',
       (V3.render storedBody lp None layerDiv).2.1
       = setChildren appended layerDiv
       ∧ V3.update lp' (setChildren appended layerDiv) = (Normal tt, div')
       ∧ children div' = setTransform_V3 lp' <$> appended
       ∧ length appended = length (List.filter (renderable_V3 lp) marked)
       ∧ (∀ d, d ∈ marked → renderable_V3 lp d = true →
            ∃ c, c ∈ children div' ∧ annotationId c = Some (id d))
       ∧ (∀ c, c ∈ children div' →
            style c !! "transform" = Some (matrix (lp_viewport lp')))
       ∧ attributes div' = delete "hidden" (attributes layerDiv)).
Proof.
  intros lp lp'.
  destruct (update_after_render storedBody (render_other false plainBody)
              lp lp' marked layerDiv None eq_refl eq_refl
              ltac:(vm_compute; by apply (bool_decide_unpack _)) eq_refl)
    as [H1 H3].
  split.
  - apply H1; [apply render_other_tidy, plainBody_tidy|reflexivity].
  - apply H3; [apply storedBody_tidy|reflexivity].
Defined.
End LayerTheory.

(** ** The print request from start to end *)

Module PrintRequestTheory.
Import PrintService PrintJob PrintJobTheory PrintRequest.
Section Request.
Context {N : Type} `{JsNumber N}.
Implicit Types (w : @World N) (this : nat) (s : @PDFPrintService N).

(** The rendering chain leaves the overlay alone. *)
Lemma renderNextPage_overlay this w :
  overlayAvailable (renderNextPage this w).2 = overlayAvailable w.
Proof.
  unfold renderNextPage, throwIfInactive, exec_bind, self, modify,
    renderProgress, exec_ret, modify.
  destruct (active this w); [|done]. destruct (heap w !! this); [|done].
  simpl. by destruct (_ <=? _).
Qed.

Lemma onPageRendered_overlay this svg w :
  overlayAvailable (onPageRendered this svg w).2 = overlayAvailable w.
Proof.
  unfold onPageRendered, throwIfInactive, exec_bind, self, modify.
  destruct (active this w); [|done]. destruct (heap w !! this); [|done].
  by rewrite renderNextPage_overlay.
Qed.

Lemma renderRemaining_overlay renderPage this fuel :
  ∀ step w,
    overlayAvailable (renderRemaining renderPage this fuel step w).2
    = overlayAvailable w.
Proof.
  induction fuel as [|fuel IH]; intros step w; [by destruct step|].
  destruct step as [|pageNumber]; [done|].
  cbn [renderRemaining]. unfold exec_bind.
  pose proof (onPageRendered_overlay this (renderPage pageNumber) w) as Hov.
  destruct (onPageRendered this (renderPage pageNumber) w) as [[step'|e] w1];
    simpl in *; [by rewrite IH|done].
Qed.

Lemma renderAllPages_overlay renderPage this fuel w :
  overlayAvailable (renderAllPages renderPage this fuel w).2
  = overlayAvailable w.
Proof.
  unfold renderAllPages, exec_bind.
  pose proof (renderNextPage_overlay this w) as Hov.
  destruct (renderNextPage this w) as [[step|e] w1]; simpl in *; [|done].
  by rewrite renderRemaining_overlay.
Qed.

(** A service that is not the active one renders nothing and prints
    nothing. *)
Lemma renderAllPages_inactive renderPage this fuel w :
  activeService w ≠ Some this →
  renderAllPages renderPage this fuel w = (Throw cancelled, w).
Proof.
  intros Hna. unfold renderAllPages, exec_bind, renderNextPage,
    throwIfInactive, exec_bind, active.
  by rewrite bool_decide_eq_false_2.
Qed.

Lemma performPrint_inactive this w :
  activeService w ≠ Some this → performPrint this w = (Throw cancelled, w).
Proof.
  intros Hna. unfold performPrint, throwIfInactive, exec_bind, active.
  by rewrite bool_decide_eq_false_2.
Qed.

Lemma performPrint_run this w :
  activeService w = Some this →
  performPrint this w
  = (Normal tt, set_counters (S (nativePrintCalls w)) (afterprintEvents w) w).
Proof.
  intros Ha. unfold performPrint, throwIfInactive, exec_bind.
  rewrite (active_true this w Ha). cbn beta iota.
  by rewrite (active_true this w Ha).
Qed.

(** [abort] by the service that is still the active one, with what it does to
    the body. *)
Lemma abortIfActive_run this w s :
  activeService w = Some this → heap w !! this = Some s →
  overlayAvailable w = true →
  ∃ w', abortIfActive this w = (Normal tt, w')
        ∧ activeService w' = None
        ∧ afterprintEvents w' = S (afterprintEvents w)
        ∧ nativePrintCalls w' = nativePrintCalls w
        ∧ printed w' (printContainer s) = []
        ∧ bodyAttributes w' = delete "data-pdfjsprinting" (bodyAttributes w).
Proof.
  intros Ha Hs Hav. unfold abortIfActive, abort.
  rewrite (active_true this w Ha), Ha. unfold exec_bind.
  destruct (destroy_run this w s Ha Hs Hav)
    as (w1 & -> & Hact & Hcont & Hbody & _ & _ & _ & Hprints & Hevents & _).
  unfold modify. eexists. split; [reflexivity|]. unfold printed. simpl.
  rewrite Hcont, Hevents, Hprints, Hbody, lookup_insert_eq. done.
Qed.

Lemma abortIfActive_inactive this w :
  activeService w ≠ Some this → abortIfActive this w = (Normal tt, w).
Proof.
  intros Hna. unfold abortIfActive, active.
  by rewrite bool_decide_eq_false_2.
Qed.

(** What a request leaves alone when its service has been replaced or
    released: everything but the progress bar. *)
Definition untouched (w w' : @World N) : Prop :=
  activeService w' = activeService w
  ∧ heap w' = heap w
  ∧ containers w' = containers w
  ∧ bodyAttributes w' = bodyAttributes w
  ∧ bodyChildren w' = bodyChildren w
  ∧ nativePrintCalls w' = nativePrintCalls w
  ∧ afterprintEvents w' = afterprintEvents w.

(** X19.  The print request of [window.print], for a service of the heap.
    When the service is the active one, starts at page -1 and is left alone,
    and the document loads, the request is fulfilled: the native [print] has
    been called exactly once, [afterprint] dispatched once, and the job is
    over (no active service, print container empty, body unmarked).  When
    the transformation service fails, nothing is printed and the job is
    ended in the same way.  When the service is not the active one any more,
    the request never prints, never aborts the job that is active now and
    changes nothing but the progress bar; if the document loads, its promise
    stays pending for ever. *)
Theorem print_request_settles response renderPage this w s fuel :
  heap w !! this = Some s →
  (activeService w = Some this → overlayAvailable w = true →
   (response = Document → currentPage s = -1 →
    (length (pagesOverview s) ≤ fuel)%nat →
    ∃ w', printRequest response renderPage this fuel w
          = (Normal Fulfilled, w')
          ∧ activeService w' = None
          ∧ nativePrintCalls w' = S (nativePrintCalls w)
          ∧ afterprintEvents w' = S (afterprintEvents w)
          ∧ printed w' (printContainer s) = []
          ∧ bodyAttributes w'
            = delete "data-pdfjsprinting" (bodyAttributes w))
   ∧ (response = NoAnswer ∨ response = NoForm →
      ∃ w', printRequest response renderPage this fuel w
            = (Normal Fulfilled, w')
            ∧ activeService w' = None
            ∧ nativePrintCalls w' = nativePrintCalls w
            ∧ afterprintEvents w' = S (afterprintEvents w)
            ∧ printed w' (printContainer s) = [])
   ∧ (response = NoDocument →
      ∃ w', printRequest response renderPage this fuel w
            = (Normal Pending, w')
            ∧ activeService w' = Some this
            ∧ nativePrintCalls w' = nativePrintCalls w
            ∧ afterprintEvents w' = afterprintEvents w))
  ∧ (activeService w ≠ Some this →
     ∃ outcome w',
       printRequest response renderPage this fuel w = (Normal outcome, w')
       ∧ untouched w w'
       ∧ (response = Document → outcome = Pending)).
Proof.
  intros Hs. split.
  - intros Ha Hav. split; [|split].
    + intros -> Hcur Hfuel.
      unfold printRequest, renderPages, exec_bind, self. rewrite Hs.
      unfold renderProgress at 1 2, modify.
      set (w1 := set_ui _ _ (set_ui _ _ w)).
      destruct (renderAllPages_run renderPage this w1 s fuel)
        as (w2 & s2 & Hrun & Hs2 & _ & Hpc & _ & _ & Hsame); try done.
      pose proof (renderAllPages_overlay renderPage this fuel w1) as Hov.
      rewrite Hrun in *. simpl in Hov.
      destruct Hsame as (Ha2 & Hbody & _ & _ & Hprints & Hevents & _).
      assert (Hactive2 : activeService w2 = Some this) by (by rewrite Ha2).
      rewrite (performPrint_run this w2 Hactive2). cbn [snd].
      set (w3 := set_counters _ _ w2).
      destruct (abortIfActive_run this w3 s2)
        as (w4 & -> & Hact & Hev4 & Hpr4 & Hprinted & Hbody4);
        [done|done|by etrans; [exact Hov|exact Hav]|].
      exists w4. split; [done|]. split; [done|].
      split; [by rewrite Hpr4; simpl; rewrite Hprints|].
      split; [by rewrite Hev4; simpl; rewrite Hevents|].
      split; [by rewrite <- Hpc|]. by rewrite Hbody4; simpl; rewrite Hbody.
    + intros Hresp.
      unfold printRequest, renderPages, exec_bind, self. rewrite Hs.
      unfold renderProgress, modify, exec_ret.
      destruct Hresp as [-> | ->].
      * match goal with |- context [abortIfActive this ?w0] =>
          destruct (abortIfActive_run this w0 s)
            as (w' & -> & Hact & Hev & Hpr & Hprinted & _); try done
        end.
        by exists w'.
      * match goal with |- context [abortIfActive this ?w0] =>
          destruct (abortIfActive_run this w0 s)
            as (w' & -> & Hact & Hev & Hpr & Hprinted & _); try done
        end.
        by exists w'.
    + intros ->.
      unfold printRequest, renderPages, exec_bind, self. rewrite Hs.
      unfold renderProgress, modify, exec_ret. by eexists.
  - intros Hna.
    unfold printRequest, renderPages, exec_bind, self. rewrite Hs.
    unfold renderProgress, modify, exec_ret.
    destruct response.
    + rewrite abortIfActive_inactive by done. by eexists _, _.
    + rewrite abortIfActive_inactive by done. by eexists _, _.
    + by eexists _, _.
    + rewrite renderAllPages_inactive by done. by eexists _, _.
Qed.

End Request.

Import PrintServiceTheory.

(** The job that is active when [window.print] is over, and the same request
    after [abort] has ended the job. *)
Example request_prints_once :
  ∃ w', printRequest Document svgOf 0%nat 2%nat printing
        = (Normal Fulfilled, w')
        ∧ nativePrintCalls w' = 1%nat ∧ afterprintEvents w' = 1%nat
        ∧ containers w' !! 0%nat = Some [] ∧ progressValue w' = Some 100.
Proof. eexists. split; [vm_compute; reflexivity|]. by vm_compute. Qed.

Example cancelled_request_pending :
  ∃ w', printRequest Document svgOf 0%nat 2%nat (run OpAbort printing)
        = (Normal Pending, w')
        ∧ nativePrintCalls w' = 0%nat ∧ afterprintEvents w' = 1%nat
        ∧ progressValue w' = Some 33.
Proof. eexists. split; [vm_compute; reflexivity|]. by vm_compute. Qed.

Lemma print_request_settles_witness :
  heap printing !! 0%nat
  = Some (new_PDFPrintService 0%nat [a4; a4] 0%nat None)
  ∧ ∃ w', printRequest Document svgOf 0%nat 2%nat printing
          = (Normal Fulfilled, w')
          ∧ activeService w' = None
          ∧ nativePrintCalls w' = S (nativePrintCalls printing)
          ∧ afterprintEvents w' = S (afterprintEvents printing).
Proof.
  split; [reflexivity|].
  destruct (proj1 (proj1 (print_request_settles Document svgOf 0%nat printing
                            _ 2%nat eq_refl) eq_refl eq_refl)
              eq_refl eq_refl (le_n 2))
    as (w' & Hrun & Hact & Hprints & Hevents & _).
  exists w'. split; [exact Hrun|]. split; [exact Hact|].
  split; [exact Hprints | exact Hevents].
Defined.

End PrintRequestTheory.
